(* ===== verification/_CoqProject ===== *)
-Q . S2P
Prelude.v
Reconnect.v
Dates.v
Iso.v
Models.v
Availability.v
Calendar.v
Catalog.v
Sessions.v
Snapshot.v
Lifecycle.v
Views.v
Admin.v
Help.v
Callbacks.v
Config.v
AdminImages.v
AdminConsole.v
Process.v
