(* ===== verification/Prelude.v ===== *)
(** * Booking-Telegram-bot: a verification development

    The program (src/) is a Telegram bot that lets users pick a resource,
    choose a check-in and a check-out date on an inline calendar, pay an
    invoice and later cancel the booking.  Its parts and how they meet:
    - [utils.py]: [ReconnectMixin.execute_sql] retries every SQL statement
      on transient MySQL errors; [get_booked_ranges_for_resource],
      [get_day_status] and [date_in_bookings] compute availability;
      [chunks] splits button lists into rows.
    - [models.py]: the [Resource], [Images] and [Booking] tables.
    - [main.py]: the handlers.  A per-user dict [user_booking_state]
      holds the session of the booking flow; [callback_book] creates it,
      [send_calendar] draws the month as an inline keyboard from the
      session and the booked ranges, [callback_datepick] and
      [callback_change_month] mutate it, [callback_confirm_booking]
      turns it into a [Booking] row in [waiting_payment] and sends the
      invoice, [handle_pre_checkout_query] and [handle_successful_payment]
      run the payment handshake, [callback_cancel_my_booking] cancels,
      [all_my_bookings] and [callback_resource] show the booking list
      and the booking or resource card, and a background thread runs
      [clean_expired_booking_states] hourly.  The admins' [/restart]
      ([restart_bot]) writes the session dict to a JSON file that the
      new process reads back and deletes at start-up.
    - [admin.py]: a Flask-Admin console behind HTTP Basic auth for
      resources ([ResourceView]) and their photos ([SecureImageView],
      files under [images/<resource id>/]); [BookingAdmin] applies the
      deletion rules for bookings ([delete_model], [action_delete]).
    - [config.py]: the settings read from the environment at import.
    pyTelegramBotAPI connects them: each message goes to the first
    [message_handler] (in registration order) whose filters pass, each
    button press to the first [callback_query_handler] whose [func]
    accepts its [callback_data] string; the /help relay
    ([help_command], [handle_help_message], [handle_all_messages])
    forwards questions to the managers' chat and their replies back.

    Files of the development, in dependency order:
    - [Prelude]: the [booking_scope], the [booking] hint databases, the
      exceptions a handler can raise ([py_exc]) with their error monad
      ([x ← m; k] on [py_exc + A], [raise e], [inv_bind]), Python's
      [startswith], tactics and list lemmas.
    - [Reconnect]: [execute_sql] over an oracle [run : nat -> sql_result]
      for the outcome of each attempt, defined with Equations by
      well-founded recursion on [21 - tr]; theorems: it refines the
      bounded search [first_decisive], executes at most 21 times with
      linear back-off, exactly 21 times when every attempt fails
      transiently, passes other errors through at once; the fragment
      test is a substring match (a false positive is exhibited).
    - [Dates]: Python's [date] ([year, month, day] records compared as
      tuples), [toordinal], [weekday], [monthrange], [date.max] and the
      month steps of [send_calendar] ([prev_month], [next_month]);
      theorems: tuple order is day-number order on valid dates, and the
      arrows land on the neighbouring months.
    - [Iso]: Python's [str]/[int] on integers, [isoformat] and the
      extended format of [datetime.fromisoformat]; lemmas: the round
      trips [int(str(z)) = z] and [fromisoformat(t.isoformat()) = t] on
      valid values (used by [Snapshot]).
    - [Models]: the [Resource] and [Booking] rows, the [status] column as
      an inductive type, the database ([Booking] rows in primary-key
      order, resources by id, the next auto-increment id) and the peewee
      calls the handlers make ([get_by_id], [save], [create]).
    - [Availability]: the query and loop of [get_booked_ranges_for_resource],
      [get_day_status], [date_in_bookings]; theorems: the ranges are
      exactly the confirmed, not-yet-ended bookings; [get_day_status] is
      a first-match [find], which gives the spec's precedence ([mine]
      before [others]) only when one owner holds the day.
    - [Calendar]: the keyboard of [send_calendar] ([render_calendar],
      [day_button], [month_buttons], [chunks]); theorems: every
      selectable day is free, not past, in the displayed month and, in the
      check-out stage, after the check-in; the viewer's own days are
      drawn as the green square in their grid slot.
    - [Catalog]: the resource list of [start] and [callback_page]
      ([build_resources_keyboard]: the enabled resources by creation time,
      the page clamped into [1 .. ceil(total / RECORD_PER_PAGE)], rows of
      [RECORDS_ROWS] buttons, the navigation row); the two settings of
      [config.py] are Section parameters, assumed positive where Python
      would otherwise raise; theorems: every button is an enabled resource
      with the clamped page or a navigation button within range; the
      pages concatenate back to the list; [start] with only disabled
      resources shows an empty picker; going back from a gallery loses
      the page.
    - [Sessions]: the session record, the session dict in a [world] with
      the database, and the handlers of the date picker with their
      outcomes (new world, messages, escaped exception); theorems: a
      check-out pick reaches the summary only when the range overlaps no
      confirmed booking; an overlap resets the stage; the expiry sweep
      keeps exactly the fresh or completed sessions (the 25 h / 23 h
      example); the session invariant (check-out after check-in) is kept
      by the ordered flow and broken by a stale check-in tap.
    - [Snapshot]: [save_user_booking_state] and
      [load_user_booking_state] over a JSON tree, with the loader's error
      paths, and the class [SessionSnapshot] whose laws state the spec's
      write-once, read-once-and-clear contract, with the file as an
      instance; theorems: a restart hands every session with valid dates
      over intact and removes the file; a non-integer key makes the load
      raise and leaves the file, so every later start-up raises; an
      invalid date survives as a string.
    - [Lifecycle]: the booking status machine of the spec ([spec_step])
      and the handlers of the payment handshake and of cancellation;
      theorems: confirmation is idempotent; pre-checkout accepts exactly
      when status, dates, conflicts and amount check out; pre-checkout
      followed at once by its payment keeps confirmed bookings disjoint,
      while any two overlapping waiting bookings whose pre-checkouts both
      run before their payments are both confirmed; pre-checkout writes
      nothing or the status [failed] or [conflict] of a waiting booking;
      cancellation is allowed exactly before the
      check-in day and checks neither owner nor status; booking creation
      charges nights counted with both ends.

    - [Views]: [all_my_bookings] (the query, sorted with stdpp's
      [merge_sort] as a stand-in for [ORDER BY check_in DESC]),
      [callback_my_booking], the list redrawn after a cancellation, and
      [callback_resource]; theorems: the list is exactly the user's
      current confirmed bookings in order; the card offers cancellation
      exactly when the cancel handler performs it; a cancellation takes
      the booking off the redrawn list.
    - [Admin]: the bulk deletes of [BookingAdmin] and [ResourceView];
      theorems: the bulk booking delete keeps exactly the unticked or
      protected rows and counts the rest, it agrees with [delete_model]
      on one row, and deleting a resource deletes its protected
      bookings with it.
    - [Help]: the first-match dispatch of the seven message handlers
      ([dispatch_message]), the help relay's set and dict as [gset] and
      [gmap], its handlers, and runs of updates as the step relation
      [help_step] and the [trace] of a run; theorems: every reachable
      state keeps a prompt id for each waiting user (by induction over
      [rtc]); a user's question after /help is eventually forwarded
      whatever other users do (an inductive [eventually] on the finite
      trace); /bookings from a waiting user is swallowed; a supergroup's
      replies match no handler.
    - [Callbacks]: the [callback_data] f-strings of every button
      ([render]), the [callback_query_handler] filters in order
      ([dispatch_callback]), and each handler's [split(":", n)], [int]
      and [fromisoformat] unpacking ([parse_callback]); theorems: every
      payload the code builds reaches its own handler and unpacks to the
      fields it was built from; a card with ten photos whose message ids
      have five digits or more exceeds Telegram's 64-byte limit (a digit
      count of [str(z)] from [Iso]).
    - [Config]: the module body of [config.py] as [load_config] in the
      error monad over an environment [gmap]; theorems: the bot starts
      only with [MANAGERS_CHAT] and a non-empty [ADMIN_IDS]; [ADMIN_IDS]
      round-trips through [",".join]; a dunder [LANGUAGE] and zero page
      sizes are accepted.
    - [AdminImages]: the [Images] table and the upload directory as a
      [gmap] of [gset]s; the upload hook of [SecureImageView] (werkzeug's
      [secure_filename], [splitext], the numbering loop), [delete_file],
      image and resource deletes with their folders, the image edit, and
      the bot's gallery ([send_media_group], [remove_images]); the
      invariant [consistent] (every row names a distinct valid file of
      its folder) with a boolean test; theorems: an upload never
      overwrites and adds one fresh file and one row per file, it is
      refused exactly by its three checks, a single photo makes the card
      fail, and moving a row to another resource breaks the invariant
      and takes the photo off both cards.
    - [AdminConsole]: [is_accessible] of the views (Basic auth, IP lock,
      the plain [ModelView] of [BookingAdmin]), the console's actions and
      [admin_request], over credentials given as section parameters;
      theorems: the resource and image views act exactly for
      authenticated requests, the booking view for anyone, and every
      request but an image edit keeps rows and files consistent.
    - [Process]: the cleaner thread's loop of sweeps, each completed or
      raising; theorem: a run removes a session exactly when a completed
      sweep comes more than 24 hours after its creation (an hourly
      cleaner keeps it up to 25 hours).

    Modelling choices.  Prices and amounts are integers in minor units
    (the code's [int(float(x * price) * 100)] is [x * price]; float
    rounding is not modelled).  Clocks ([date.today()], [datetime.now()])
    and the answers of Telegram ([send_invoice] raising or not, the ids
    of a media group) are inputs of the handlers.  Two limits of the Bot
    API are constants taken from its documentation, not from the code:
    a media group has 2 to 10 items ([MEDIA_GROUP_MIN], [MEDIA_GROUP_MAX])
    and [callback_data] at most 64 bytes ([CALLBACK_DATA_MAX]); the
    theorems that use them say so.  Callback payloads are
    structured values in the handlers' models; [Callbacks] relates them
    to the colon-separated strings the buttons carry.  Handler dispatch
    is pyTelegramBotAPI's first match in registration order; texts are
    ASCII strings.  Concurrency
    is modelled as explicit interleavings of handler calls on the shared
    world.  SQL [ORDER BY] with ties is modelled by a stable sort; the
    theorems on ordered results state membership and sortedness only.
    Fuel is not needed: the only loop that is not structural
    ([execute_sql]) terminates by its measure [21 - tr].

    Not modelled: the chat I/O (message texts, photo contents; the
    help relay's and the gallery's sends are outputs, the ids Telegram
    returns inputs); [execv], thread creation and pyTelegramBotAPI's
    polling loop (process management with no state of the bot's own);
    the HTML forms of Flask-Admin, its redirects and flash texts, and
    file contents; the text format of [json] (the tree is modelled);
    [float] parsing and the translations of [language.json]; Python's
    Unicode white space and digit separators in [int]; the interleaving
    of handler threads inside one dict iteration (the cleaner's
    [RuntimeError] is an outcome of a turn).  Left for further work: the
    text of the cards and calendar buttons with their truncation bound,
    and a theorem that a user with a free range can always reach the
    invoice by a sequence of handler calls. *)

From stdpp Require Export base list gmap strings.
From Stdlib Require Export ZArith Lia.

Declare Scope booking_scope.
Delimit Scope booking_scope with booking.
Open Scope Z_scope.

Create HintDb booking discriminated.
Create Rewrite HintDb booking_rw.

(** Python exceptions that escape a handler of the bot. *)
Inductive py_exc :=
| KeyError          (** a missing key of [user_booking_state] *)
| TypeError         (** an ordering comparison with [None] *)
| DoesNotExist      (** [Model.get_by_id] on a missing row *)
| ValueError        (** an invalid [date(...)] or [int(...)] *)
| OverflowError     (** date arithmetic beyond [date.min]/[date.max] *)
| AttributeError    (** [.items()] on a JSON value that is not an object *)
| AssertionError    (** a failed [assert] *)
| ValidationError   (** [wtforms.validators.ValidationError] of an admin form *)
| ApiTelegramException  (** a request the Bot API rejects *)
| AuthException.    (** the admin console's 401 *)

#[export] Instance py_exc_eq_dec : EqDecision py_exc.
Proof. solve_decision. Defined.

(** A computation that may raise: [py_exc + A] is stdpp's monad, so
    that [x ← m; k] threads the first exception through. *)
#[export] Instance py_ret : MRet (sum py_exc) := λ A x, inr x.
#[export] Instance py_bind : MBind (sum py_exc) :=
  λ A B f m, match m with inl e => inl e | inr a => f a end.

Notation "'raise' e" := (@inl py_exc _ e) (at level 10) : booking_scope.

(** [lia] after naming quotients and remainders of [/] and [mod]. *)
Ltac zdiv_lia := Z.to_euclidean_division_equations; lia.

(** Split a boolean test of the goal into its two cases. *)
Ltac case_bool b := destruct b eqn:?; simpl in *.

(** Python's [s.startswith(p)] on strings. *)
Fixpoint startswith (s p : string) {struct p} : bool :=
  match p, s with
  | EmptyString, _ => true
  | String c p', String d s' => Ascii.eqb c d && startswith s' p'
  | String _ _, EmptyString => false
  end.

(** ** The error monad *)

Lemma bind_inr {A B} (m : py_exc + A) (f : A -> py_exc + B) b :
  (m ≫= f) = inr b -> exists a, m = inr a /\ f a = inr b.
Proof. destruct m as [e|a]; [done|]. eauto. Qed.

Lemma bind_inr_l {A B} (a : A) (f : A -> py_exc + B) : (inr a ≫= f) = f a.
Proof. done. Qed.

(** Take a successful chain of binds [H] apart, rewriting each step's
    result into the goal. *)
Ltac inv_bind H :=
  repeat (let x := fresh "x" in let Hx := fresh "Hx" in
          apply bind_inr in H as (x & Hx & H); try rewrite Hx, bind_inr_l).

(** ** Generic lemmas on lists and booleans *)

Lemma existsb_false_forall {A} (f : A -> bool) (l : list A) :
  existsb f l = false <-> (forall x, In x l -> f x = false).
Proof.
  induction l as [|y l IH]; simpl; [tauto|].
  rewrite orb_false_iff, IH. split.
  - intros [Hy Hl] x [->|Hx]; auto.
  - intros H. auto.
Qed.

Lemma filter_filter_andb {A} (f g : A -> bool) (l : list A) :
  List.filter f (List.filter g l) = List.filter (fun x => g x && f x) l.
Proof.
  induction l as [|x l IH]; cbn; [done|].
  destruct (g x); cbn; [destruct (f x); cbn|]; by rewrite IH.
Qed.

Lemma in_filter_iff {A} (f : A -> bool) (l : list A) x :
  In x (List.filter f l) <-> In x l /\ f x = true.
Proof. apply filter_In. Qed.

#[export] Hint Rewrite @in_filter_iff : booking_rw.

(** A table whose key column [f] has no duplicates: filtering keeps
    that, and two rows with the same key are the same row. *)
Lemma NoDup_map_filter {A B} (f : A -> B) (p : A -> bool) (l : list A) :
  NoDup (map f l) -> NoDup (map f (List.filter p l)).
Proof.
  induction l as [|x l IH]; cbn; [done|]. intros [Hx Hl]%NoDup_cons.
  destruct (p x); cbn; [|auto]. apply NoDup_cons. split; [|auto].
  intros Hin. apply Hx. apply list_elem_of_In, in_map_iff in Hin as (y & Hy & [Hyl _]%in_filter_iff).
  apply list_elem_of_In, in_map_iff. eauto.
Qed.

Lemma NoDup_map_eq {A B} (f : A -> B) (l : list A) x y :
  NoDup (map f l) -> In x l -> In y l -> f x = f y -> x = y.
Proof.
  induction l as [|z l IH]; cbn; [done|]. intros [Hz Hl]%NoDup_cons Hx Hy Hxy.
  destruct Hx as [<-|Hx], Hy as [<-|Hy]; auto.
  - exfalso. apply Hz, list_elem_of_In, in_map_iff. eauto.
  - exfalso. apply Hz, list_elem_of_In, in_map_iff. eauto.
Qed.
