(* ===== verification/Reconnect.v ===== *)
(** * Reconnect: [ReconnectMixin.execute_sql] of [utils.py]

    Every statement goes through [execute_sql]: when the driver raises,
    the exception is matched against [reconnect_errors] (its class must
    be a key of the table built in [__init__], and one of the class's
    lower-cased fragments must occur in the lower-cased message); a match
    closes and reopens the connection and, unless [tr >= 20], sleeps
    [tr / 10] seconds and retries with [tr + 1].  The database is an
    oracle [run : nat -> sql_result] giving the outcome of the statement
    at each attempt; the model returns the trace of actions and the
    result.  The theorems bound the attempts (21 executions at most, and
    exactly 21 when every attempt fails transiently), give the result as
    a bounded search for the first decisive attempt, show that other
    errors propagate at once, and sum the back-off. *)
From S2P Require Import Prelude.
From Equations Require Import Equations.
From Stdlib Require Import String Ascii.
Open Scope string_scope.

(** An exception raised by [super().execute_sql]: its class and [str(exc)]. *)
Record py_error := mkPyError { exc_class : string; exc_msg : string }.

Inductive sql_result := SqlOk (cursor : Z) | SqlErr (e : py_error).

(** What the mixin does, in order. *)
Inductive action :=
| AExec (tr : nat)        (** [super().execute_sql(...)] at attempt [tr] *)
| AReconnect              (** [close()] if open, then [connect()] *)
| ASleep (tenths : nat).  (** [time.sleep(tr / 10)] *)

(** [ReconnectMixin.reconnect_errors]. *)
Definition reconnect_errors : list (string * string) :=
  [("OperationalError", "2006"); ("OperationalError", "2013");
   ("OperationalError", "2003"); ("OperationalError", "2014");
   ("OperationalError", "MySQL Connection not available.")].

(** [str.lower] on the ASCII letters. *)
Definition ascii_lower (c : ascii) : ascii :=
  let n := nat_of_ascii c in
  if (65 <=? n)%nat && (n <=? 90)%nat then ascii_of_nat (n + 32) else c.

Fixpoint lower (s : string) : string :=
  match s with
  | EmptyString => EmptyString
  | String c s' => String (ascii_lower c) (lower s')
  end.

(** [fragment in text]. *)
Fixpoint contains (frag s : string) : bool :=
  match s with
  | EmptyString => String.prefix frag s
  | String _ s' => String.prefix frag s || contains frag s'
  end.

(** The dict built by [__init__]: [setdefault(exc_class, [])] then
    [append(err_fragment.lower())], as an association list. *)
Fixpoint add_fragment (cls frag : string) (tbl : list (string * list string))
  : list (string * list string) :=
  match tbl with
  | [] => [(cls, [lower frag])]
  | (c, fs) :: rest =>
      if String.eqb c cls then (c, app fs [lower frag]) :: rest
      else (c, fs) :: add_fragment cls frag rest
  end.

Definition build_reconnect_table (errs : list (string * string)) : list (string * list string) :=
  fold_left (fun tbl '(cls, frag) => add_fragment cls frag tbl) errs [].

Fixpoint table_lookup (cls : string) (tbl : list (string * list string)) : option (list string) :=
  match tbl with
  | [] => None
  | (c, fs) :: rest => if String.eqb c cls then Some fs else table_lookup cls rest
  end.

(** The two tests of the [except] block: the class is in the table and
    one of its fragments is in [str(exc).lower()]. *)
Definition is_reconnect_error (e : py_error) : bool :=
  match table_lookup (exc_class e) (build_reconnect_table reconnect_errors) with
  | None => false
  | Some frags => existsb (fun f => contains f (lower (exc_msg e))) frags
  end.

(** [execute_sql(sql, params, commit, tr)]. *)
Equations? execute_sql (run : nat -> sql_result) (tr : nat) : list action * sql_result
  by wf (21 - tr)%nat lt :=
  execute_sql run tr with run tr => {
    | SqlOk c := ([AExec tr], SqlOk c);
    | SqlErr e with Equations.Prop.Logic.inspect (is_reconnect_error e) => {
      | exist _ false _ := ([AExec tr], SqlErr e);
      | exist _ true _ with Equations.Prop.Logic.inspect (20 <=? tr)%nat => {
        | exist _ true _ := ([AExec tr; AReconnect], SqlErr e);
        | exist _ false H :=
            let '(acts, r) := execute_sql run (S tr) in
            (AExec tr :: AReconnect :: ASleep tr :: acts, r) } } }.
Proof. change ((20 <=? tr)%nat = false) in H. apply Nat.leb_gt in H. lia. Qed.

(** The attempts executed and the pauses taken, read off a trace. *)
Fixpoint execs (acts : list action) : list nat :=
  match acts with
  | [] => []
  | AExec k :: rest => k :: execs rest
  | _ :: rest => execs rest
  end.

Fixpoint sleeps (acts : list action) : list nat :=
  match acts with
  | [] => []
  | ASleep k :: rest => k :: sleeps rest
  | _ :: rest => sleeps rest
  end.

(** The contract: the outcome of the first attempt from [k] on that
    succeeds or fails with an error that is not transient, the error of
    the last attempt if all [n + 1] of them fail transiently. *)
Fixpoint first_decisive (run : nat -> sql_result) (k n : nat) : sql_result :=
  match n with
  | O => run k
  | S n' =>
      match run k with
      | SqlErr e => if is_reconnect_error e then first_decisive run (S k) n' else SqlErr e
      | r => r
      end
  end.

Lemma execute_sql_result run tr :
  (tr <= 20)%nat -> snd (execute_sql run tr) = first_decisive run tr (20 - tr).
Proof.
  funelim (execute_sql run tr); intros Htr.
  - destruct (20 - tr)%nat; simpl; by rewrite Heq.
  - destruct (20 - tr)%nat; simpl; rewrite Heq; [done|].
    match goal with E : is_reconnect_error _ = false |- _ => by rewrite E end.
  - match goal with E : (20 <=? _)%nat = true |- _ => pose proof (proj1 (Nat.leb_le _ _) E) end.
    replace (20 - tr)%nat with 0%nat by lia. simpl. by rewrite Heq.
  - match goal with E : (20 <=? _)%nat = false |- _ => pose proof (proj1 (Nat.leb_gt _ _) E) end.
    replace (20 - tr)%nat with (S (20 - S tr)) by lia. simpl. rewrite Heq.
    match goal with E : is_reconnect_error _ = true |- _ => rewrite E end.
    match goal with IH : (S tr <= 20)%nat -> _ |- _ =>
      specialize (IH ltac:(lia)); simpl in IH; rewrite <- IH end.
    by destruct (execute_sql run (S tr)).
Qed.

(** The retry bound of a [funelim] case as an arithmetic fact. *)
Ltac retry_bound :=
  match goal with
  | E : (20 <=? _)%nat = true |- _ => pose proof (proj1 (Nat.leb_le _ _) E)
  | E : (20 <=? _)%nat = false |- _ => pose proof (proj1 (Nat.leb_gt _ _) E)
  end.

(** The shape of every trace: attempts [tr, tr+1, ..., tr+k] and pauses
    [tr, ..., tr+k-1] before the retries, with [tr + k <= 20]. *)
Lemma execute_sql_trace run tr :
  (tr <= 20)%nat ->
  exists k, (tr + k <= 20)%nat /\
    execs (fst (execute_sql run tr)) = seq tr (S k) /\
    sleeps (fst (execute_sql run tr)) = seq tr k.
Proof.
  funelim (execute_sql run tr); intros Htr.
  - exists 0%nat. simpl. split_and!; [lia|done|done].
  - exists 0%nat. simpl. split_and!; [lia|done|done].
  - exists 0%nat. simpl. split_and!; [lia|done|done].
  - retry_bound. match goal with IH : (S tr <= 20)%nat -> _ |- _ =>
      destruct (IH ltac:(lia)) as (k & Hk & He & Hs) end.
    destruct (execute_sql run (S tr)) as [acts r]. simpl in *.
    exists (S k). split_and!; [lia|by rewrite He|by rewrite Hs].
Qed.

(** ** Properties *)

(** C38 The adapter is transparent: from the first call ([tr = 0]) its
    result is that of the first of the attempts 0..20 that succeeds or
    fails with an error that is not transient, and the error of attempt
    20 when all fail transiently. *)
Theorem execute_sql_refines run :
  snd (execute_sql run 0) = first_decisive run 0 20.
Proof. by rewrite execute_sql_result by lia. Qed.

(** C39 Retries are bounded and back off linearly: a call executes the
    statement at attempts 0, 1, ..., k for some k <= 20 (at most 21
    executions) and sleeps 0, 0.1, ..., (k-1)/10 seconds between them. *)
Theorem execute_sql_bounded run :
  exists k, (k <= 20)%nat /\
    execs (fst (execute_sql run 0)) = seq 0 (S k) /\
    sleeps (fst (execute_sql run 0)) = seq 0 k.
Proof.
  destruct (execute_sql_trace run 0 ltac:(lia)) as (k & Hk & He & Hs). eauto.
Qed.

Lemma execute_sql_all_transient_from run tr :
  (forall k, exists e, run k = SqlErr e /\ is_reconnect_error e = true) -> (tr <= 20)%nat ->
  execs (fst (execute_sql run tr)) = seq tr (21 - tr) /\
  sleeps (fst (execute_sql run tr)) = seq tr (20 - tr) /\
  snd (execute_sql run tr) = run 20%nat.
Proof.
  funelim (execute_sql run tr); intros Hall Htr;
    destruct (Hall tr) as (e' & He' & Ht'); rewrite Heq in He'; try discriminate.
  - injection He' as <-. congruence.
  - retry_bound. assert (tr = 20%nat) as -> by lia. simpl. by rewrite Heq.
  - retry_bound. match goal with IH : _ -> (S tr <= 20)%nat -> _ |- _ =>
      destruct (IH Hall ltac:(lia)) as (He & Hs & Hr) end.
    destruct (execute_sql run (S tr)) as [acts r]. cbn [fst snd execs sleeps] in *.
    split; [|split; [|done]].
    + rewrite He. replace (21 - tr)%nat with (S (21 - S tr)) by lia. reflexivity.
    + rewrite Hs. replace (20 - tr)%nat with (S (20 - S tr)) by lia. reflexivity.
Qed.

(** C40 When every attempt fails with a transient error the statement
    is executed 21 times, with 20 pauses of 0 to 1.9 seconds (19 seconds
    in all), and the last error is raised; the spec's "up to 20
    attempts" counts one fewer. *)
Theorem execute_sql_all_transient run :
  (forall k, exists e, run k = SqlErr e /\ is_reconnect_error e = true) ->
  execs (fst (execute_sql run 0)) = seq 0 21 /\
  sleeps (fst (execute_sql run 0)) = seq 0 20 /\
  snd (execute_sql run 0) = run 20%nat.
Proof. intros Hall. exact (execute_sql_all_transient_from run 0 Hall ltac:(lia)). Qed.

Lemma execute_sql_all_transient_witness :
  let gone := mkPyError "OperationalError" "(2006, 'MySQL server has gone away')" in
  List.length (execs (fst (execute_sql (fun _ => SqlErr gone) 0))) = 21%nat.
Proof.
  intros gone.
  destruct (execute_sql_all_transient (fun _ => SqlErr gone)) as [He _].
  - intros k. exists gone. split; [reflexivity|vm_compute; reflexivity].
  - by rewrite He.
Defined.

(** An error that is not a reconnect error (another class, or no
    fragment in its message) is raised unchanged after one execution,
    with no reconnect and no pause. *)
Theorem execute_sql_other_error run tr e :
  run tr = SqlErr e -> is_reconnect_error e = false ->
  execute_sql run tr = ([AExec tr], SqlErr e).
Proof.
  intros Hr Hn. funelim (execute_sql run tr); rewrite Hr in Heq; try discriminate;
    injection Heq as <-; congruence.
Qed.

Lemma execute_sql_other_error_witness :
  let dup := mkPyError "IntegrityError" "(1062, 'Duplicate entry')" in
  execute_sql (fun _ => SqlErr dup) 0 = ([AExec 0], SqlErr dup).
Proof. intros dup. apply execute_sql_other_error; reflexivity. Defined.

(** The transient test is a substring match on the message: an
    error about a column named [c2013] has the fragment ["2013"] of
    "lost connection" in its text, so it is retried 20 times like a
    dropped connection before it reaches the caller. *)
Example reconnect_fragment_false_positive :
  is_reconnect_error
    (mkPyError "OperationalError" "(1054, Unknown column 'c2013' in 'field list')") = true.
Proof. vm_compute. reflexivity. Qed.
