(* ===== verification/Dates.v ===== *)
(** * Dates: Python's [date] and [datetime] as the bot uses them

    The bot compares dates ([s <= day_date <= e]), subtracts them
    ([(check_out - check_in).days]), builds them ([date(year, month, day)]),
    asks [calendar.monthrange] for the first weekday and the length of a
    month, and steps one day back or forward to find the neighbouring
    month.  This file gives those operations as Python's [datetime] module
    defines them: a date is a [(year, month, day)] record compared
    lexicographically, and [toordinal] is the proleptic Gregorian day
    number of [datetime.py].  The theorems show that the lexicographic
    order is the order of day numbers on valid dates, and that the month
    navigation of [send_calendar] lands on the last day of the previous
    month and on the first day of the next one. *)
From S2P Require Import Prelude.

Record date := mkDate { year : Z; month : Z; day : Z }.

#[export] Instance date_eq_dec : EqDecision date.
Proof. solve_decision. Defined.

(** [datetime] with its time of day; [datetime.now()] in the handlers. *)
Record datetime := mkDateTime {
  dt_date : date; hour : Z; minute : Z; second : Z; microsecond : Z }.

Definition MINYEAR := 1.
Definition MAXYEAR := 9999.

(** [_is_leap] of [datetime.py]. *)
Definition is_leap (y : Z) : bool :=
  (y mod 4 =? 0) && (negb (y mod 100 =? 0) || (y mod 400 =? 0)).

(** [_DAYS_IN_MONTH] and [_DAYS_BEFORE_MONTH], index 0 unused. *)
Definition DAYS_IN_MONTH : list Z := [-1; 31; 28; 31; 30; 31; 30; 31; 31; 30; 31; 30; 31].
Definition DAYS_BEFORE_MONTH : list Z := [-1; 0; 31; 59; 90; 120; 151; 181; 212; 243; 273; 304; 334].

Definition days_in_month (y m : Z) : Z :=
  if (m =? 2) && is_leap y then 29 else nth (Z.to_nat m) DAYS_IN_MONTH 0.

Definition days_before_month (y m : Z) : Z :=
  nth (Z.to_nat m) DAYS_BEFORE_MONTH 0 + (if (2 <? m) && is_leap y then 1 else 0).

Definition days_before_year (y : Z) : Z :=
  let y' := y - 1 in y' * 365 + y' / 4 - y' / 100 + y' / 400.

(** [date.toordinal]: 0001-01-01 is day 1. *)
Definition toordinal (d : date) : Z :=
  days_before_year (year d) + days_before_month (year d) (month d) + day d.

(** [date.weekday]: Monday is 0. *)
Definition weekday (d : date) : Z := (toordinal d + 6) mod 7.

(** The checks of the [date(year, month, day)] constructor. *)
Definition valid_date (d : date) : Prop :=
  MINYEAR <= year d <= MAXYEAR /\ 1 <= month d <= 12 /\
  1 <= day d <= days_in_month (year d) (month d).

Definition valid_dateb (d : date) : bool :=
  (MINYEAR <=? year d) && (year d <=? MAXYEAR) && (1 <=? month d) && (month d <=? 12)
  && (1 <=? day d) && (day d <=? days_in_month (year d) (month d)).

(** [date(year, month, day)]: raises [ValueError] out of range. *)
Definition mk_date (y m d : Z) : py_exc + date :=
  if valid_dateb (mkDate y m d) then inr (mkDate y m d) else inl ValueError.

(** [calendar.monthrange(year, month)]: weekday of the 1st and length. *)
Definition monthrange (y m : Z) : py_exc + (Z * Z) :=
  if (1 <=? m) && (m <=? 12)
  then inr (weekday (mkDate y m 1), days_in_month y m)
  else inl ValueError.

(** [date.max]. *)
Definition date_max : date := mkDate 9999 12 31.

(** Rich comparison of two dates: tuples [(year, month, day)]. *)
Definition date_compare (a b : date) : comparison :=
  match Z.compare (year a) (year b) with
  | Eq => match Z.compare (month a) (month b) with
          | Eq => Z.compare (day a) (day b)
          | c => c
          end
  | c => c
  end.

Definition date_ltb (a b : date) : bool :=
  match date_compare a b with Lt => true | _ => false end.
Definition date_leb (a b : date) : bool :=
  match date_compare a b with Gt => false | _ => true end.

Notation "a <d b" := (date_ltb a b = true) (at level 70) : booking_scope.
Notation "a <=d b" := (date_leb a b = true) (at level 70) : booking_scope.
Open Scope booking_scope.

(** [datetime - datetime] as a count of microseconds (naive datetimes). *)
Definition to_micros (t : datetime) : Z :=
  ((((toordinal (dt_date t)) * 24 + hour t) * 60 + minute t) * 60 + second t)
    * 1000000 + microsecond t.

(** [(d2 - d1).days] for two dates. *)
Definition days_between (d1 d2 : date) : Z := toordinal d2 - toordinal d1.

(** The neighbouring months of [send_calendar]:
    [datetime(year, month, 1) - timedelta(days=1)] and
    [datetime(year, month, days_in_month) + timedelta(days=1)], of which
    the code keeps [.year] and [.month]. *)
Definition prev_month (y m : Z) : py_exc + (Z * Z) :=
  if negb ((MINYEAR <=? y) && (y <=? MAXYEAR) && (1 <=? m) && (m <=? 12)) then inl ValueError
  else if (y =? MINYEAR) && (m =? 1) then inl OverflowError
  else if m =? 1 then inr (y - 1, 12) else inr (y, m - 1).

Definition next_month (y m : Z) : py_exc + (Z * Z) :=
  if negb ((MINYEAR <=? y) && (y <=? MAXYEAR) && (1 <=? m) && (m <=? 12)) then inl ValueError
  else if (y =? MAXYEAR) && (m =? 12) then inl OverflowError
  else if m =? 12 then inr (y + 1, 1) else inr (y, m + 1).

(** ** Calendar arithmetic *)

Definition year_length (y : Z) : Z := if is_leap y then 366 else 365.

Lemma valid_dateb_spec d : valid_dateb d = true <-> valid_date d.
Proof.
  unfold valid_dateb, valid_date, MINYEAR, MAXYEAR.
  rewrite !andb_true_iff, !Z.leb_le. tauto.
Qed.

Lemma month_cases m : 1 <= m <= 12 ->
  m = 1 \/ m = 2 \/ m = 3 \/ m = 4 \/ m = 5 \/ m = 6 \/
  m = 7 \/ m = 8 \/ m = 9 \/ m = 10 \/ m = 11 \/ m = 12.
Proof. lia. Qed.

Ltac by_month m :=
  let H := fresh in
  match goal with Hm : 1 <= m <= 12 |- _ =>
    destruct (month_cases m Hm) as [H|[H|[H|[H|[H|[H|[H|[H|[H|[H|[H|H]]]]]]]]]]];
    subst m end.

Lemma days_in_month_bounds y m : 1 <= m <= 12 -> 28 <= days_in_month y m <= 31.
Proof.
  intros Hm. unfold days_in_month.
  by_month m; simpl; destruct (is_leap y); simpl; lia.
Qed.

Lemma days_before_month_succ y m : 1 <= m <= 11 ->
  days_before_month y (m + 1) = days_before_month y m + days_in_month y m.
Proof.
  intros Hm. assert (1 <= m <= 12) by lia.
  unfold days_before_month, days_in_month.
  by_month m; simpl; destruct (is_leap y); simpl; lia.
Qed.

Lemma days_before_month_end y :
  days_before_month y 12 + days_in_month y 12 = year_length y.
Proof.
  unfold days_before_month, days_in_month, year_length. simpl.
  destruct (is_leap y); reflexivity.
Qed.

Lemma days_before_month_mono y m1 m2 : 1 <= m1 < m2 -> m2 <= 12 ->
  days_before_month y m1 + days_in_month y m1 <= days_before_month y m2.
Proof.
  intros H1 H2. assert (1 <= m1 <= 12) by lia. assert (1 <= m2 <= 12) by lia.
  unfold days_before_month, days_in_month.
  destruct (is_leap y); by_month m1; by_month m2; simpl; lia.
Qed.

Lemma days_before_year_succ y :
  days_before_year (y + 1) = days_before_year y + year_length y.
Proof.
  unfold days_before_year, year_length, is_leap.
  replace (y + 1 - 1) with y by lia.
  destruct (Z.eqb_spec (y mod 4) 0), (Z.eqb_spec (y mod 100) 0),
    (Z.eqb_spec (y mod 400) 0); simpl; zdiv_lia.
Qed.

Lemma days_before_year_mono y1 y2 : y1 <= y2 ->
  days_before_year y1 <= days_before_year y2.
Proof.
  intros H. replace y2 with (y1 + Z.of_nat (Z.to_nat (y2 - y1))) by lia.
  induction (Z.to_nat (y2 - y1)) as [|k IH]; [rewrite Z.add_0_r; lia|].
  rewrite Nat2Z.inj_succ, <- Z.add_1_r, Z.add_assoc, days_before_year_succ.
  unfold year_length. destruct (is_leap _); lia.
Qed.

Lemma days_before_month_bounds y m : 1 <= m <= 12 ->
  0 <= days_before_month y m /\ days_before_month y m + days_in_month y m <= year_length y.
Proof.
  intros Hm. unfold days_before_month, days_in_month, year_length.
  destruct (is_leap y); by_month m; simpl; lia.
Qed.

(** A valid date's ordinal lies inside its year. *)
Lemma toordinal_in_year d : valid_date d ->
  days_before_year (year d) < toordinal d <= days_before_year (year d) + year_length (year d).
Proof.
  intros (Hy & Hm & Hd). unfold toordinal.
  pose proof (days_before_month_bounds (year d) (month d) Hm). lia.
Qed.

Lemma date_compare_eq a b : date_compare a b = Eq -> a = b.
Proof.
  destruct a as [ya ma da], b as [yb mb db]; unfold date_compare; simpl.
  destruct (Z.compare_spec ya yb); try discriminate.
  destruct (Z.compare_spec ma mb); try discriminate.
  destruct (Z.compare_spec da db); try discriminate. congruence.
Qed.

Lemma date_compare_antisym a b : date_compare b a = CompOpp (date_compare a b).
Proof.
  unfold date_compare.
  rewrite (Z.compare_antisym (year a)), (Z.compare_antisym (month a)),
    (Z.compare_antisym (day a)).
  destruct (year a ?= year b), (month a ?= month b); reflexivity.
Qed.

(** The lexicographic order implies the order of day numbers. *)
Lemma date_compare_lt_toordinal a b : valid_date a -> valid_date b ->
  date_compare a b = Lt -> toordinal a < toordinal b.
Proof.
  intros Ha Hb. pose proof (toordinal_in_year a Ha) as Ia.
  pose proof (toordinal_in_year b Hb) as Ib.
  destruct Ha as (_ & Hma & Hda), Hb as (_ & Hmb & Hdb).
  unfold date_compare.
  destruct (Z.compare_spec (year a) (year b)) as [Ey|Ly|]; try discriminate.
  - unfold toordinal. rewrite Ey in *.
    destruct (Z.compare_spec (month a) (month b)) as [Em|Lm|]; try discriminate.
    + rewrite Em. rewrite Z.compare_lt_iff. lia.
    + intros _. pose proof (days_before_month_mono (year b) (month a) (month b)). lia.
  - intros _. pose proof (days_before_year_succ (year a)).
    pose proof (days_before_year_mono (year a + 1) (year b)). lia.
Qed.

(** On valid dates, comparing [(year, month, day)] tuples is comparing
    day numbers: Python's date order is the calendar order. *)
Lemma date_compare_toordinal a b : valid_date a -> valid_date b ->
  date_compare a b = Z.compare (toordinal a) (toordinal b).
Proof.
  intros Ha Hb. destruct (date_compare a b) eqn:E.
  - apply date_compare_eq in E. subst. symmetry. apply Z.compare_refl.
  - symmetry. apply Z.compare_lt_iff. by apply date_compare_lt_toordinal.
  - assert (date_compare b a = Lt) as E' by (rewrite date_compare_antisym, E; reflexivity).
    symmetry. apply Z.compare_gt_iff. by apply date_compare_lt_toordinal.
Qed.

(** On valid dates Python's ordering of [date] objects (tuples
    [(year, month, day)]) is the order of their proleptic day numbers. *)
Lemma date_order_is_calendar_order a b : valid_date a -> valid_date b ->
  date_ltb a b = (toordinal a <? toordinal b) /\ date_leb a b = (toordinal a <=? toordinal b).
Proof.
  intros Ha Hb. unfold date_ltb, date_leb, Z.ltb, Z.leb.
  by rewrite date_compare_toordinal.
Qed.

Lemma valid_first_of_month y m :
  valid_date (mkDate y m 1) <-> MINYEAR <= y <= MAXYEAR /\ 1 <= m <= 12.
Proof.
  unfold valid_date; simpl. split; [tauto|].
  intros [Hy Hm]. pose proof (days_in_month_bounds y m Hm). lia.
Qed.

Lemma valid_last_of_month y m :
  valid_date (mkDate y m (days_in_month y m)) <-> MINYEAR <= y <= MAXYEAR /\ 1 <= m <= 12.
Proof.
  unfold valid_date; simpl. split; [tauto|].
  intros [Hy Hm]. pose proof (days_in_month_bounds y m Hm). lia.
Qed.

(** The last day of a month is the day before the 1st of the next. *)
Lemma toordinal_month_boundary y m : 1 <= m <= 11 ->
  toordinal (mkDate y m (days_in_month y m)) + 1 = toordinal (mkDate y (m + 1) 1).
Proof.
  intros Hm. unfold toordinal; simpl.
  pose proof (days_before_month_succ y m Hm). lia.
Qed.

Lemma toordinal_year_boundary y :
  toordinal (mkDate y 12 (days_in_month y 12)) + 1 = toordinal (mkDate (y + 1) 1 1).
Proof.
  unfold toordinal; simpl.
  rewrite days_before_year_succ. pose proof (days_before_month_end y).
  assert (days_before_month (y + 1) 1 = 0) as ->
    by (unfold days_before_month; simpl; by destruct (is_leap (y + 1))).
  lia.
Qed.

(** The "previous month" arrow of the calendar: when
    [datetime(year, month, 1) - timedelta(days=1)] does not overflow,
    the displayed month was valid and the month it yields is the one
    whose last day is the day before the 1st of the displayed month. *)
Lemma prev_month_spec y m py pm :
  prev_month y m = inr (py, pm) ->
  valid_date (mkDate y m 1) /\ valid_date (mkDate py pm (days_in_month py pm)) /\
  toordinal (mkDate py pm (days_in_month py pm)) + 1 = toordinal (mkDate y m 1).
Proof.
  unfold prev_month. rewrite !valid_first_of_month, !valid_last_of_month.
  unfold MINYEAR, MAXYEAR.
  destruct (1 <=? y) eqn:Y1, (y <=? 9999) eqn:Y2, (1 <=? m) eqn:M1, (m <=? 12) eqn:M2;
    simpl; try discriminate.
  apply Z.leb_le in Y1, Y2, M1, M2.
  destruct (Z.eqb_spec y 1), (Z.eqb_spec m 1); simpl; intros E; try discriminate;
    injection E as <- <-; (split; [lia|]); (split; [lia|]).
  - replace m with (m - 1 + 1) at 3 by lia. apply toordinal_month_boundary. lia.
  - subst m. replace y with (y - 1 + 1) at 3 by lia. apply toordinal_year_boundary.
  - replace m with (m - 1 + 1) at 3 by lia. apply toordinal_month_boundary. lia.
Qed.

(** The "next month" arrow: the month it yields starts the day
    after the last day of the displayed month. *)
Lemma next_month_spec y m ny nm :
  next_month y m = inr (ny, nm) ->
  valid_date (mkDate y m 1) /\ valid_date (mkDate ny nm 1) /\
  toordinal (mkDate y m (days_in_month y m)) + 1 = toordinal (mkDate ny nm 1).
Proof.
  unfold next_month. rewrite !valid_first_of_month. unfold MINYEAR, MAXYEAR.
  destruct (1 <=? y) eqn:Y1, (y <=? 9999) eqn:Y2, (1 <=? m) eqn:M1, (m <=? 12) eqn:M2;
    simpl; try discriminate.
  apply Z.leb_le in Y1, Y2, M1, M2.
  destruct (Z.eqb_spec y 9999), (Z.eqb_spec m 12); simpl; intros E; try discriminate;
    injection E as <- <-; (split; [lia|]); (split; [lia|]).
  - apply toordinal_month_boundary. lia.
  - subst m. apply toordinal_year_boundary.
  - apply toordinal_month_boundary. lia.
Qed.

Lemma prev_month_spec_witness :
  toordinal (mkDate 2023 12 (days_in_month 2023 12)) + 1 = toordinal (mkDate 2024 1 1).
Proof.
  destruct (prev_month_spec 2024 1 2023 12 eq_refl) as (_ & _ & H). exact H.
Defined.

Lemma next_month_spec_witness :
  toordinal (mkDate 2024 2 (days_in_month 2024 2)) + 1 = toordinal (mkDate 2024 3 1).
Proof.
  destruct (next_month_spec 2024 2 2024 3 eq_refl) as (_ & _ & H). exact H.
Defined.
