(* ===== verification/Iso.v ===== *)
(** * Iso: the text forms of integers, dates and datetimes

    The session snapshot of [main.py] ([save_user_booking_state],
    [load_user_booking_state]) writes dates with [isoformat()], reads them
    back with [datetime.fromisoformat], and turns the user ids of the
    session dict into JSON keys with [str] and back with [int].  This file
    holds those conversions: [str] and [int] on integers (the decimal
    strings of the Standard Library's [DecimalString]), [date.isoformat]
    and [datetime.isoformat] ([%04d-%02d-%02d], then
    [T%02d:%02d:%02d] and [.%06d] when there are microseconds), and the
    parser [fromisoformat] for the extended format
    [YYYY-MM-DD[*HH[:MM[:SS[.fff[fff]]]]]] with any separator [*], with
    the range checks of the [datetime] constructor.  Python's [int]
    also accepts [+], surrounding blanks and [_] separators, and 3.11's
    [fromisoformat] also the basic format, week dates and UTC offsets;
    these are rejected here (the snapshot never holds them).  The
    theorems are the round trips the snapshot relies on. *)
From S2P Require Import Prelude Dates.
From Stdlib Require Import String Ascii DecimalString DecimalZ DecimalPos.

(** [str(z)] on an [int]. *)
Definition py_str_int (z : Z) : string := NilZero.string_of_int (Z.to_int z).

(** [int(s)] on an optional [-] followed by ASCII digits. *)
Definition py_int (s : string) : option Z := option_map Z.of_int (NilZero.int_of_string s).

Definition digit_char (d : Z) : ascii := ascii_of_nat (48 + Z.to_nat d).

Definition digit_val (c : ascii) : option Z :=
  let n := nat_of_ascii c in
  if (48 <=? n)%nat && (n <=? 57)%nat then Some (Z.of_nat n - 48) else None.

(** ["%0<w>d" % n] for [0 <= n < 10 ^ w]: [w] digits, the most
    significant first. *)
Fixpoint zfill (w : nat) (n : Z) : string :=
  match w with
  | O => EmptyString
  | S w' => String (digit_char (n / 10 ^ Z.of_nat w')) (zfill w' (n mod 10 ^ Z.of_nat w'))
  end.

(** Read exactly [w] ASCII digits in front of [s]. *)
Fixpoint read_digits (w : nat) (acc : Z) (s : string) : option (Z * string) :=
  match w with
  | O => Some (acc, s)
  | S w' =>
      match s with
      | EmptyString => None
      | String c s' =>
          match digit_val c with
          | Some d => read_digits w' (10 * acc + d) s'
          | None => None
          end
      end
  end.

(** [date.isoformat()]. *)
Definition date_isoformat (d : date) : string :=
  (zfill 4 (year d) ++ "-" ++ zfill 2 (month d) ++ "-" ++ zfill 2 (day d))%string.

(** [datetime.isoformat()]: the fraction only when [microsecond != 0]. *)
Definition datetime_isoformat (t : datetime) : string :=
  (date_isoformat (dt_date t) ++ "T" ++ zfill 2 (hour t) ++ ":" ++ zfill 2 (minute t) ++ ":" ++
   zfill 2 (second t) ++
   (if (microsecond t =? 0)%Z then "" else "." ++ zfill 6 (microsecond t)))%string.

Definition expect (c : ascii) (s : string) : option string :=
  match s with
  | String c' s' => if Ascii.eqb c c' then Some s' else None
  | EmptyString => None
  end.

(** [YYYY-MM-DD] in front of the string. *)
Definition parse_date_part (s : string) : option (date * string) :=
  '(y, s) ← read_digits 4 0 s; s ← expect "-" s;
  '(m, s) ← read_digits 2 0 s; s ← expect "-" s;
  '(d, s) ← read_digits 2 0 s; Some (mkDate y m d, s).

(** [.fff] or [.ffffff], the whole rest of the string. *)
Definition parse_fraction (s : string) : option Z :=
  match read_digits 6 0 s with
  | Some (us, EmptyString) => Some us
  | _ => match read_digits 3 0 s with
         | Some (ms, EmptyString) => Some (ms * 1000)
         | _ => None
         end
  end.

(** [HH[:MM[:SS[.fff[fff]]]]], the whole rest of the string. *)
Definition parse_time (s : string) : option (Z * Z * Z * Z) :=
  '(hh, s) ← read_digits 2 0 s;
  match s with
  | EmptyString => Some (hh, 0, 0, 0)
  | String c s =>
      if negb (Ascii.eqb c ":") then None else
      '(mm, s) ← read_digits 2 0 s;
      match s with
      | EmptyString => Some (hh, mm, 0, 0)
      | String c s =>
          if negb (Ascii.eqb c ":") then None else
          '(ss, s) ← read_digits 2 0 s;
          match s with
          | EmptyString => Some (hh, mm, ss, 0)
          | String c s =>
              if negb (Ascii.eqb c ".") then None else
              us ← parse_fraction s; Some (hh, mm, ss, us)
          end
      end
  end.

(** The range checks of [datetime(...)]. *)
Definition valid_datetime (t : datetime) : Prop :=
  valid_date (dt_date t) /\ 0 <= hour t < 24 /\ 0 <= minute t < 60 /\
  0 <= second t < 60 /\ 0 <= microsecond t < 1000000.

Definition valid_datetimeb (t : datetime) : bool :=
  valid_dateb (dt_date t) && (0 <=? hour t) && (hour t <? 24) && (0 <=? minute t) &&
  (minute t <? 60) && (0 <=? second t) && (second t <? 60) && (0 <=? microsecond t) &&
  (microsecond t <? 1000000).

(** [datetime.fromisoformat(s)]; [None] is the [ValueError]. *)
Definition fromisoformat (s : string) : option datetime :=
  '(d, rest) ← parse_date_part s;
  t ← match rest with
      | EmptyString => Some (mkDateTime d 0 0 0 0)
      | String _ r => '(hh, mm, ss, us) ← parse_time r; Some (mkDateTime d hh mm ss us)
      end;
  if valid_datetimeb t then Some t else None.

(** Midnight of a date: [datetime.fromisoformat(d.isoformat())]. *)
Definition midnight (d : date) : datetime := mkDateTime d 0 0 0 0.

(** ** Lemmas *)

Lemma append_String c s r : (String c s ++ r)%string = String c (s ++ r)%string.
Proof. reflexivity. Qed.

Lemma append_EmptyString s : (EmptyString ++ s)%string = s.
Proof. reflexivity. Qed.

Lemma append_assoc_str (a b c : string) : ((a ++ b) ++ c)%string = (a ++ (b ++ c))%string.
Proof. induction a as [|x a IH]; [done|]. rewrite !append_String. by rewrite IH. Qed.

Lemma digit_val_char d : 0 <= d < 10 -> digit_val (digit_char d) = Some d.
Proof.
  intros Hd. unfold digit_val, digit_char.
  rewrite nat_ascii_embedding by lia.
  replace ((48 <=? 48 + Z.to_nat d)%nat && (48 + Z.to_nat d <=? 57)%nat) with true
    by (symmetry; apply andb_true_iff; split; apply Nat.leb_le; lia).
  f_equal. lia.
Qed.

Lemma read_digits_zfill w acc n rest : 0 <= n < 10 ^ Z.of_nat w ->
  read_digits w acc (zfill w n ++ rest)%string = Some (acc * 10 ^ Z.of_nat w + n, rest).
Proof.
  revert acc n. induction w as [|w IH]; intros acc n Hn.
  - cbn in *. f_equal. f_equal. lia.
  - rewrite Nat2Z.inj_succ, Z.pow_succ_r in * by lia.
    cbn [zfill read_digits String.append].
    set (p := 10 ^ Z.of_nat w) in *.
    rewrite append_String.
    assert (Hp : 0 < p) by (apply Z.pow_pos_nonneg; lia).
    rewrite digit_val_char by (split; [apply Z.div_pos|apply Z.div_lt_upper_bound]; lia).
    rewrite IH by (apply Z.mod_pos_bound; lia).
    pose proof (Z.div_mod n p ltac:(lia)) as Hdm.
    do 2 f_equal. rewrite Hdm at 3. ring.
Qed.

Lemma valid_datetimeb_spec t : valid_datetimeb t = true <-> valid_datetime t.
Proof.
  unfold valid_datetimeb, valid_datetime. rewrite <- valid_dateb_spec.
  rewrite !andb_true_iff, !Z.leb_le, !Z.ltb_lt. tauto.
Qed.

Lemma valid_date_fits d : valid_date d ->
  0 <= year d < 10 ^ Z.of_nat 4 /\ 0 <= month d < 10 ^ Z.of_nat 2 /\ 0 <= day d < 10 ^ Z.of_nat 2.
Proof.
  intros (Hy & Hm & Hd). pose proof (days_in_month_bounds (year d) (month d) Hm).
  unfold MINYEAR, MAXYEAR in Hy. simpl. lia.
Qed.

Lemma read_zfill_bind {B} w n rest (f : Z * string -> option B) : 0 <= n < 10 ^ Z.of_nat w ->
  (read_digits w 0 (zfill w n ++ rest)%string ≫= f) = f (n, rest).
Proof. intros Hn. rewrite read_digits_zfill by done. cbn. by rewrite Z.mul_0_l, Z.add_0_l. Qed.

Lemma expect_bind {B} (c : ascii) s (f : string -> option B) :
  (expect c (String c s) ≫= f) = f s.
Proof. cbn. by rewrite Ascii.eqb_refl. Qed.

Lemma parse_date_part_isoformat d rest : valid_date d ->
  parse_date_part (date_isoformat d ++ rest)%string = Some (d, rest).
Proof.
  intros Hd. destruct (valid_date_fits d Hd) as (Hy & Hm & Hdd).
  unfold parse_date_part, date_isoformat. rewrite !append_assoc_str.
  rewrite read_zfill_bind by done. rewrite append_String, append_EmptyString, expect_bind.
  rewrite read_zfill_bind by done. rewrite append_String, append_EmptyString, expect_bind.
  rewrite read_zfill_bind by done. by destruct d.
Qed.

Lemma append_EmptyString_r s : (s ++ EmptyString)%string = s.
Proof. induction s as [|c s IH]; [done|]. by rewrite append_String, IH. Qed.

Lemma parse_time_isoformat h mi se us :
  0 <= h < 100 -> 0 <= mi < 100 -> 0 <= se < 100 -> 0 <= us < 1000000 ->
  parse_time (zfill 2 h ++ ":" ++ zfill 2 mi ++ ":" ++ zfill 2 se ++
              (if (us =? 0)%Z then "" else "." ++ zfill 6 us))%string = Some (h, mi, se, us).
Proof.
  intros Hh Hm Hs Hu. unfold parse_time.
  rewrite read_zfill_bind by (simpl; lia). cbv beta iota.
  rewrite append_String, append_EmptyString, Ascii.eqb_refl. cbn [negb].
  rewrite read_zfill_bind by (simpl; lia). cbv beta iota.
  rewrite append_String, append_EmptyString, Ascii.eqb_refl. cbn [negb].
  destruct (us =? 0)%Z eqn:Hu0; [apply Z.eqb_eq in Hu0 as ->|].
  - by rewrite read_zfill_bind by (simpl; lia).
  - rewrite read_zfill_bind by (simpl; lia). cbv beta iota.
    rewrite append_String, append_EmptyString, Ascii.eqb_refl. cbn [negb].
    unfold parse_fraction. rewrite <- (append_EmptyString_r (zfill 6 us)).
    rewrite read_digits_zfill by (simpl; lia). by rewrite Z.mul_0_l, Z.add_0_l.
Qed.

Lemma to_int_not_nil z : Z.to_int z <> Decimal.Pos Decimal.Nil /\ Z.to_int z <> Decimal.Neg Decimal.Nil.
Proof.
  destruct z as [|p|p]; cbn; split; try discriminate;
    intros [=E]; by apply (DecimalPos.Unsigned.to_uint_nonnil p).
Qed.

(** ** Round trips *)

(** [int(str(z))] gives back [z]: the JSON keys of the snapshot,
    written with [str], are read back to the same user ids. *)
Theorem py_int_str z : py_int (py_str_int z) = Some z.
Proof.
  unfold py_int, py_str_int. destruct (to_int_not_nil z) as [H1 H2].
  rewrite NilZero.isi by done. cbn. by rewrite DecimalZ.of_to.
Qed.

Lemma length_append_str (a b : string) :
  String.length (a ++ b) = (String.length a + String.length b)%nat.
Proof. induction a as [|x a IH]; [done|]. rewrite append_String. cbn. by rewrite IH. Qed.

Lemma length_string_of_uint d : String.length (NilEmpty.string_of_uint d) = Decimal.nb_digits d.
Proof. induction d; cbn; congruence. Qed.

Lemma of_uint_acc_lt d acc :
  Z.pos (Pos.of_uint_acc d acc) < (Z.pos acc + 1) * 10 ^ Z.of_nat (Decimal.nb_digits d).
Proof.
  revert acc. induction d; intros acc; cbn [Pos.of_uint_acc Decimal.nb_digits];
    [rewrite Z.pow_0_r; lia|..];
  (eapply Z.lt_le_trans; [apply IHd|]);
  rewrite Nat2Z.inj_succ, Z.pow_succ_r by lia; rewrite ?Pos2Z.inj_add, Pos2Z.inj_mul;
  pose proof (Z.pow_pos_nonneg 10 (Z.of_nat (Decimal.nb_digits d)) ltac:(lia) ltac:(lia));
  generalize dependent (10 ^ Z.of_nat (Decimal.nb_digits d)); intros X HX; nia.
Qed.

Lemma of_uint_lt d : Z.of_uint d < 10 ^ Z.of_nat (Decimal.nb_digits d).
Proof.
  unfold Z.of_uint. induction d; cbn [Pos.of_uint Decimal.nb_digits Z.of_N]; [cbn; lia|..];
    rewrite Nat2Z.inj_succ, Z.pow_succ_r by lia;
    pose proof (Z.pow_pos_nonneg 10 (Z.of_nat (Decimal.nb_digits d)) ltac:(lia) ltac:(lia));
    [lia|..];
    (eapply Z.lt_le_trans; [apply of_uint_acc_lt|]);
    generalize dependent (10 ^ Z.of_nat (Decimal.nb_digits d)); intros X HX; nia.
Qed.

(** [str(z)] of a non-negative [z] has enough digits to hold it. *)
Lemma py_str_int_length_bound z : 0 <= z -> z < 10 ^ Z.of_nat (String.length (py_str_int z)).
Proof.
  intros Hz. unfold py_str_int. rewrite <- (DecimalZ.of_to z) at 1.
  destruct z as [|p|p]; [cbn; lia| |lia]. cbn [Z.to_int NilZero.string_of_int Z.of_int].
  destruct (Pos.to_uint p); [cbn; lia|..]; cbv beta iota delta [NilZero.string_of_uint];
    rewrite length_string_of_uint; apply of_uint_lt.
Qed.

(** A number of at least [10 ^ n] is written with more than [n] digits. *)
Lemma py_str_int_length_ge n z :
  10 ^ Z.of_nat n <= z -> (n < String.length (py_str_int z))%nat.
Proof.
  intros Hn. pose proof (Z.pow_pos_nonneg 10 (Z.of_nat n) ltac:(lia) ltac:(lia)).
  pose proof (py_str_int_length_bound z ltac:(lia)) as Hb.
  apply Nat2Z.inj_lt, (Z.pow_lt_mono_r_iff 10); lia.
Qed.

(** [datetime.fromisoformat(t.isoformat())] gives back [t] for
    every valid [datetime], with or without microseconds. *)
Theorem fromisoformat_datetime_isoformat t : valid_datetime t ->
  fromisoformat (datetime_isoformat t) = Some t.
Proof.
  intros Ht. pose proof Ht as (Hd & Hh & Hm & Hs & Hu).
  unfold fromisoformat, datetime_isoformat.
  rewrite parse_date_part_isoformat by done. cbn [mbind option_bind].
  rewrite append_String, append_EmptyString.
  rewrite parse_time_isoformat by lia. cbn [mbind option_bind].
  assert (E : mkDateTime (dt_date t) (hour t) (minute t) (second t) (microsecond t) = t)
    by (by destruct t).
  by rewrite E, (proj2 (valid_datetimeb_spec _) Ht).
Qed.

Lemma fromisoformat_datetime_isoformat_witness :
  fromisoformat (datetime_isoformat (mkDateTime (mkDate 2024 2 29) 23 5 9 120)) =
  Some (mkDateTime (mkDate 2024 2 29) 23 5 9 120).
Proof.
  apply fromisoformat_datetime_isoformat. apply valid_datetimeb_spec. reflexivity.
Defined.

(** [datetime.fromisoformat(d.isoformat()).date()] gives back [d]
    for every valid [date]: the string is read as midnight of [d]. *)
Theorem fromisoformat_date_isoformat d : valid_date d ->
  fromisoformat (date_isoformat d) = Some (midnight d).
Proof.
  intros Hd. unfold fromisoformat.
  rewrite <- (append_EmptyString_r (date_isoformat d)).
  rewrite parse_date_part_isoformat by done. cbn [mbind option_bind].
  replace (valid_datetimeb (mkDateTime d 0 0 0 0)) with true; [done|].
  symmetry. apply valid_datetimeb_spec. split; [done|cbn; lia].
Qed.

Lemma fromisoformat_date_isoformat_witness :
  fromisoformat (date_isoformat (mkDate 2024 6 10)) = Some (midnight (mkDate 2024 6 10)).
Proof. apply fromisoformat_date_isoformat. apply valid_dateb_spec. reflexivity. Defined.
