(* ===== verification/Models.v ===== *)
(** * Models: the relational tables of [models.py]

    [Resource] and [Booking] rows as records, the [status] column as the
    closed set of strings the bot writes, and the booking table as the
    list of its rows in primary-key order (peewee's [select()] without
    [order_by] returns them in that order on MySQL's clustered index,
    which is the order [get_day_status] scans).  Prices and amounts are
    kept in minor units (hundredths): [int(float(x * price) * 100)] of the
    code is [x * price] here, with the float rounding not modelled. *)
From S2P Require Import Prelude Dates.

(** [Booking.status]: the strings the bot and its payment handlers write. *)
Inductive status :=
| Pending | WaitingPayment | Failed | Conflict | Cancelled | Confirmed.

#[export] Instance status_eq_dec : EqDecision status.
Proof. solve_decision. Defined.

(** [class Resource(BaseModel)]. *)
Record resource := mkResource {
  r_location : string;
  r_price : Z;              (** [price], in minor units *)
  r_description : option string;
  r_status : Z;             (** 1: shown in the catalogue *)
  r_created : datetime;
  r_updated : datetime }.

(** [class Booking(BaseModel)]. *)
Record booking := mkBooking {
  b_id : Z;
  b_telegram_id : Z;
  b_resource : Z;
  b_check_in : option date;
  b_check_out : option date;
  b_created : datetime;
  b_status : status;
  b_amount : Z }.           (** [amount], in minor units *)

(** The database: the [Booking] table in primary-key order, the
    [Resource] table by id, and MySQL's next auto-increment id. *)
Record db := mkDb {
  db_bookings : list booking;
  db_resources : gmap Z resource;
  db_next_id : Z }.

(** [Booking.get_by_id(i)]: the row, or [DoesNotExist]. *)
Definition booking_get_by_id (d : db) (i : Z) : py_exc + booking :=
  match List.find (fun b => b_id b =? i) (db_bookings d) with
  | Some b => inr b
  | None => inl DoesNotExist
  end.

(** [Resource.get_by_id(i)]. *)
Definition resource_get_by_id (d : db) (i : Z) : py_exc + resource :=
  match db_resources d !! i with
  | Some r => inr r
  | None => inl DoesNotExist
  end.

(** [booking.save()]: the row with the same primary key is replaced. *)
Definition booking_save (d : db) (b : booking) : db :=
  mkDb (map (fun b' => if b_id b' =? b_id b then b else b') (db_bookings d))
       (db_resources d) (db_next_id d).

(** [Booking.create(...)]: a row with the next id, appended. *)
Definition booking_create (d : db) (mk : Z -> booking) : db * booking :=
  let b := mk (db_next_id d) in
  (mkDb (db_bookings d ++ [b]) (db_resources d) (db_next_id d + 1), b).

(** [model.delete_instance()]. *)
Definition booking_delete (d : db) (i : Z) : db :=
  mkDb (List.filter (fun b => negb (b_id b =? i)) (db_bookings d))
       (db_resources d) (db_next_id d).
