(* ===== verification/Availability.v ===== *)
(** * Availability: the booked ranges of a resource and a day's status

    [utils.py]: [get_booked_ranges_for_resource] (the query of confirmed
    bookings that have not ended, turned into [(telegram_id, start, end)]
    triples), [get_day_status] (the owner of the first range that holds
    a day) and [date_in_bookings].  The theorems characterise the triples
    returned, give [get_day_status] as a [find] over the ranges, and show
    where its first-match rule differs from the precedence of the spec. *)
From S2P Require Import Prelude Dates Models.

Section Availability.

Implicit Types (today day : date) (res_id user : Z).

(** A booked range: [(telegram_id, start_date, end_date)]. *)
Definition range : Type := Z * date * date.

(** The [where] clause of the query:
    [resource == res_id & (check_out IS NULL | check_out >= today)
     & status == "confirmed"]. *)
Definition booked_query_cond today res_id (b : booking) : bool :=
  (b_resource b =? res_id) &&
  match b_check_out b with None => true | Some co => date_leb today co end &&
  bool_decide (b_status b = Confirmed).

(** The loop over the query result, with its two [continue]s. *)
Fixpoint collect_ranges today (q : list booking) : list range :=
  match q with
  | [] => []
  | b :: q' =>
      match b_check_in b with
      | None => collect_ranges today q'
      | Some starts =>
          let end_ := match b_check_out b with Some co => co | None => starts end in
          if date_ltb end_ today then collect_ranges today q'
          else (b_telegram_id b, starts, end_) :: collect_ranges today q'
      end
  end.

(** [get_booked_ranges_for_resource(res_id, model)]. *)
Definition get_booked_ranges_for_resource today res_id (rows : list booking) : list range :=
  collect_ranges today (List.filter (booked_query_cond today res_id) rows).

(** [s <= day_date <= e]. *)
Definition in_range day (s e : date) : bool := date_leb s day && date_leb day e.

(** [date_in_bookings(day_date, booked_ranges)]. *)
Fixpoint date_in_bookings day (booked : list (date * date)) : bool :=
  match booked with
  | [] => false
  | (s, e) :: rest => if in_range day s e then true else date_in_bookings day rest
  end.

(** The three answers of [get_day_status]. *)
Inductive day_status := Mine | Others | Free.

#[export] Instance day_status_eq_dec : EqDecision day_status.
Proof. solve_decision. Defined.

(** [get_day_status(day_date, bookings, current_user_id)]. *)
Fixpoint get_day_status day (bookings : list range) user : day_status :=
  match bookings with
  | [] => Free
  | (t, s, e) :: rest =>
      if in_range day s e then (if t =? user then Mine else Others)
      else get_day_status day rest user
  end.

(** [get_day_status] is a [find] of the first range holding the day. *)
Definition first_holding day (bs : list range) : option range :=
  List.find (fun r => in_range day r.1.2 r.2) bs.

(** ** The ranges returned *)

Lemma date_ltb_negb_leb a b : date_ltb a b = negb (date_leb b a).
Proof.
  unfold date_ltb, date_leb. rewrite (date_compare_antisym a b).
  by destruct (date_compare a b).
Qed.

Lemma collect_ranges_In today q t s e :
  In (t, s, e) (collect_ranges today q) <->
  exists b, In b q /\ b_check_in b = Some s /\
    e = default s (b_check_out b) /\ date_leb today e = true /\ t = b_telegram_id b.
Proof.
  induction q as [|b q IH]; simpl; [firstorder|].
  destruct (b_check_in b) as [starts|] eqn:Ci.
  - change (match b_check_out b with Some co => co | None => starts end)
      with (default starts (b_check_out b)).
    rewrite date_ltb_negb_leb.
    destruct (date_leb today (default starts (b_check_out b))) eqn:Le; simpl;
      rewrite IH; split.
    + intros [E|(b' & Hin & Hrest)].
      * injection E as <- <- <-. exists b. repeat split; auto.
      * exists b'. auto.
    + intros (b' & [<-|Hin] & Hci & He & Hl & Ht).
      * left. rewrite Ci in Hci. injection Hci as <-. by subst.
      * right. exists b'. auto.
    + intros (b' & Hin & Hrest). exists b'. auto.
    + intros (b' & [<-|Hin] & Hci & He & Hl & Ht).
      * rewrite Ci in Hci. injection Hci as <-. subst. congruence.
      * exists b'. auto.
  - rewrite IH. split; [intros (b' & Hin & Hrest); exists b'; auto|].
    intros (b' & [<-|Hin] & Hci & Hrest); [congruence|]. exists b'. auto.
Qed.


Lemma get_day_status_find day bs user :
  get_day_status day bs user =
  match first_holding day bs with
  | None => Free
  | Some (t, _, _) => if t =? user then Mine else Others
  end.
Proof.
  unfold first_holding. induction bs as [|[[t s] e] bs IH]; simpl; [done|].
  by destruct (in_range day s e).
Qed.

Lemma get_day_status_free day bs user :
  get_day_status day bs user = Free <->
  forall t s e, In (t, s, e) bs -> in_range day s e = false.
Proof.
  induction bs as [|[[t s] e] bs IH]; simpl; [naive_solver|].
  destruct (in_range day s e) eqn:R.
  - split; [by destruct (t =? user)|]. intros H. by rewrite (H t s e (or_introl eq_refl)) in R.
  - rewrite IH. split; [|naive_solver].
    intros H t' s' e' [E|Hin]; [by inv E|eauto].
Qed.

Lemma get_day_status_held day bs user st :
  get_day_status day bs user = st -> st <> Free ->
  exists t s e, In (t, s, e) bs /\ in_range day s e = true /\
    st = (if t =? user then Mine else Others).
Proof.
  rewrite get_day_status_find. unfold first_holding.
  destruct (List.find (fun r => in_range day r.1.2 r.2) bs) as [[[t s] e]|] eqn:F;
    [|congruence].
  intros <- _. apply find_some in F as [Hin Hr]. simpl in Hr. by exists t, s, e.
Qed.
End Availability.

#[export] Hint Resolve get_day_status_held : booking.

(** ** Properties *)

(** C35 The ranges of [get_booked_ranges_for_resource] are exactly the
    confirmed bookings of the resource that have a check-in date and
    whose end (the check-out, or the check-in when the check-out is
    unset) is today or later, tagged with their owner. *)
Theorem get_booked_ranges_spec today res_id rows t s e :
  In (t, s, e) (get_booked_ranges_for_resource today res_id rows) <->
  exists b, In b rows /\ b_resource b = res_id /\ b_status b = Confirmed /\
    b_check_in b = Some s /\ e = default s (b_check_out b) /\
    today <=d e /\ t = b_telegram_id b.
Proof.
  unfold get_booked_ranges_for_resource. rewrite collect_ranges_In.
  setoid_rewrite in_filter_iff. unfold booked_query_cond.
  split.
  - intros (b & [Hin Hc] & Hci & He & Hl & Ht).
    apply andb_true_iff in Hc as [Hc Hst]. apply andb_true_iff in Hc as [Hr _].
    apply Z.eqb_eq in Hr. apply bool_decide_eq_true in Hst. naive_solver.
  - intros (b & Hin & Hr & Hst & Hci & He & Hl & Ht). exists b.
    repeat split; auto.
    rewrite Hr, Z.eqb_refl, bool_decide_eq_true_2 by done.
    destruct (b_check_out b); simpl in *; subst; by rewrite ?Hl.
Qed.

(** When the ranges holding a day all have one owner (as they do
    when confirmed bookings do not overlap), [get_day_status] answers
    [Mine] exactly when the viewer owns a range holding the day. *)
Theorem get_day_status_mine_single_owner day (bs : list range) user :
  (forall t1 s1 e1 t2 s2 e2, In (t1, s1, e1) bs -> In (t2, s2, e2) bs ->
     in_range day s1 e1 = true -> in_range day s2 e2 = true -> t1 = t2) ->
  get_day_status day bs user = Mine <->
  exists s e, In (user, s, e) bs /\ in_range day s e = true.
Proof.
  intros Hown. split.
  - intros H. destruct (get_day_status_held day bs user Mine H) as (t & s & e & Hin & Hr & Ht);
      [done|].
    destruct (Z.eqb_spec t user); [subst|done]. eauto.
  - intros (s & e & Hin & Hr).
    destruct (get_day_status day bs user) eqn:St.
    + done.
    + destruct (get_day_status_held day bs user Others St) as (t & s' & e' & Hin' & Hr' & Ht);
        [done|].
      destruct (Z.eqb_spec t user); [done|].
      by pose proof (Hown _ _ _ _ _ _ Hin Hin' Hr Hr').
    + by rewrite (proj1 (get_day_status_free day bs user) St _ _ _ Hin) in Hr.
Qed.

Lemma get_day_status_mine_single_owner_witness :
  get_day_status (mkDate 2024 6 11) [(7, mkDate 2024 6 10, mkDate 2024 6 12)] 7 = Mine.
Proof.
  apply (proj2 (get_day_status_mine_single_owner (mkDate 2024 6 11)
                  [(7, mkDate 2024 6 10, mkDate 2024 6 12)] 7
                  ltac:(intros ? ? ? ? ? ? [E1|[]] [E2|[]] _ _; inversion E1; inversion E2; subst; reflexivity))).
  exists (mkDate 2024 6 10), (mkDate 2024 6 12). split; [left; reflexivity|reflexivity].
Defined.

(** With overlapping ranges the first range in query order wins:
    a day held by both another user's range and the viewer's own range
    is reported [Others] when the other range comes first, although the
    spec gives the viewer's own booking precedence ([mine] before
    [others]). *)
Example get_day_status_overlap_first_wins :
  let d := mkDate 2024 6 11 in
  let bs := [(8, mkDate 2024 6 10, mkDate 2024 6 12); (7, mkDate 2024 6 11, mkDate 2024 6 13)] in
  In (7, mkDate 2024 6 11, mkDate 2024 6 13) bs /\
  in_range d (mkDate 2024 6 11) (mkDate 2024 6 13) = true /\
  get_day_status d bs 7 = Others.
Proof. simpl. split; [right; left; reflexivity|split; reflexivity]. Qed.

(** The chained comparison [s <= day_date <= e] of the code, on
    valid dates, tests that the day's position in the calendar lies
    between those of [s] and [e]: a booked range is the closed interval
    of day numbers from its start to its end. *)
Theorem in_range_ordinal day s e : valid_date day -> valid_date s -> valid_date e ->
  in_range day s e = (toordinal s <=? toordinal day) && (toordinal day <=? toordinal e).
Proof.
  intros Hd Hs He. unfold in_range.
  rewrite (proj2 (date_order_is_calendar_order s day Hs Hd)),
          (proj2 (date_order_is_calendar_order day e Hd He)).
  reflexivity.
Qed.

Lemma in_range_ordinal_witness :
  in_range (mkDate 2024 3 1) (mkDate 2024 2 28) (mkDate 2024 3 2) =
  (toordinal (mkDate 2024 2 28) <=? toordinal (mkDate 2024 3 1)) &&
  (toordinal (mkDate 2024 3 1) <=? toordinal (mkDate 2024 3 2)).
Proof.
  apply in_range_ordinal; apply valid_dateb_spec; reflexivity.
Defined.

(** [date_in_bookings] on the [(start, end)] pairs of the ranges
    says whether [get_day_status] finds the day booked. *)
Theorem date_in_bookings_status day (bs : list range) user :
  date_in_bookings day (map (fun r => (r.1.2, r.2)) bs) =
  negb (bool_decide (get_day_status day bs user = Free)).
Proof.
  induction bs as [|[[t s] e] bs IH]; simpl; [done|].
  destruct (in_range day s e); [|done].
  by destruct (t =? user).
Qed.
