(* ===== verification/Calendar.v ===== *)
(** * Calendar: the inline keyboard of [send_calendar]

    [main.py], [send_calendar]: the month/year header, the weekday row,
    one cell per day of the displayed month after [first_weekday] blank
    cells, in rows of seven, and the footer with "go back" and the two
    month arrows.  A day is classified in the code's order: past days
    are a dash, then [get_day_status] gives the green ([mine]) and red
    ([others]) squares, then in the check-out stage the days up to the
    check-in are a dash, and every other day is a [datepick] button.
    This file models the pure rendering; reading the session and the
    database is [Sessions.send_calendar]. *)
From S2P Require Import Prelude Dates Models Availability.
From Equations Require Import Equations.

(** [select_type]: ['check_in'] or ['check_out']. *)
Inductive stage := CheckIn | CheckOut.

#[export] Instance stage_eq_dec : EqDecision stage.
Proof. solve_decision. Defined.

(** The [callback_data] payloads the calendar emits, as structured values
    of the colon-separated strings: ["null"],
    ["datepick:<select_type>:<iso_date>:<page>"],
    ["month:<year>:<month>:<select_type>:<page>"], ["res:<res_id>:<page>"]. *)
Inductive callback :=
| CbNull
| CbDatepick (st : stage) (d : date) (page : string)
| CbMonth (y m : Z) (st : stage) (page : string)
| CbRes (res_id : Z) (page : string).

(** Button texts. *)
Inductive label :=
| LMonthYear (y m : Z)      (** [f"{month_name[month]} {year}"] *)
| LWeekday (i : nat)        (** [day_abbr[i]] *)
| LBlank                    (** [" "] *)
| LDash                     (** ["—"] *)
| LMine                     (** the green square *)
| LOthers                   (** the red square *)
| LDay (n : Z)              (** [str(day)] *)
| LGoBack | LPrev | LNext.

Record button := mkButton { b_label : label; b_cb : callback }.
Definition keyboard := list (list button).

(** [utils.chunks(lst, n)]: slices of [n] elements; [InlineKeyboardMarkup.add]
    with [row_width=n] lays its buttons out the same way. *)
Equations? chunks {A} (n : nat) (l : list A) : list (list A) by wf (length l) lt :=
  chunks 0 l := [];
  chunks (S k) [] := [];
  chunks (S k) (x :: l') := firstn (S k) (x :: l') :: chunks (S k) (skipn (S k) (x :: l')).
Proof. rewrite length_skipn. simpl. lia. Qed.

Section Render.
Context (today : date) (user : Z) (ranges : list range) (page : string).

(** [min_date]: today for the check-in stage, the stored check-in (or
    [date.max] when there is none) for the check-out stage. *)
Definition min_date (st : stage) (check_in : option date) : date :=
  match st with
  | CheckIn => today
  | CheckOut => match check_in with None => date_max | Some c => c end
  end.

(** The body of the [for day in range(1, days_in_month + 1)] loop. *)
Definition day_button (st : stage) (check_in : option date) (d : date) : button :=
  if date_ltb d today then mkButton LDash CbNull
  else match get_day_status d ranges user with
       | Mine => mkButton LMine CbNull
       | Others => mkButton LOthers CbNull
       | Free =>
           if bool_decide (st = CheckOut) && date_leb d (min_date st check_in)
           then mkButton LDash CbNull
           else mkButton (LDay (day d)) (CbDatepick st d page)
       end.

(** [1 .. n] as the [range(1, n + 1)] of the loop. *)
Definition days_upto (n : Z) : list Z := map (fun i => Z.of_nat i + 1) (seq 0 (Z.to_nat n)).

(** [month_buttons]: the blank cells, then one cell per day. *)
Definition month_buttons (y m first_weekday dim : Z) (st : stage) (check_in : option date)
  : list button :=
  repeat (mkButton LBlank CbNull) (Z.to_nat first_weekday) ++
  map (fun n => day_button st check_in (mkDate y m n)) (days_upto dim).

(** The whole keyboard, or the exception [send_calendar] raises:
    [monthrange] and [date(year, month, day)] on an invalid month or year,
    the [OverflowError] of a month step beyond year 1 or 9999. *)
Definition render_calendar (y m res_id : Z) (st : stage) (check_in : option date)
  : py_exc + keyboard :=
  match monthrange y m with
  | inl e => inl e
  | inr (fw, dim) =>
      if negb ((MINYEAR <=? y) && (y <=? MAXYEAR)) then inl ValueError else
      match prev_month y m, next_month y m with
      | inl e, _ => inl e
      | _, inl e => inl e
      | inr (py, pm), inr (ny, nm) =>
          inr ([[mkButton (LMonthYear y m) CbNull]] ++
               [map (fun i => mkButton (LWeekday i) CbNull) (seq 0 7)] ++
               chunks 7 (month_buttons y m fw dim st check_in) ++
               [[mkButton LGoBack (CbRes res_id page);
                 mkButton LPrev (CbMonth py pm st page);
                 mkButton LNext (CbMonth ny nm st page)]])
      end
  end.

End Render.

(** ** Layout lemmas *)

Lemma chunks_concat {A} (n : nat) (l : list A) : n <> 0%nat -> concat (chunks n l) = l.
Proof.
  funelim (chunks n l); simp chunks; [done|done|].
  intros _. cbn [concat]. rewrite H by done. apply take_drop.
Qed.

Lemma In_chunks {A} (n : nat) (l : list A) row x :
  In row (chunks n l) -> In x row -> In x l.
Proof.
  destruct n as [|k]; [simp chunks; done|].
  intros Hr Hx. rewrite <- (chunks_concat (S k) l) by done.
  apply in_concat. eauto.
Qed.

Lemma chunks_row_length {A} (n : nat) (l : list A) row :
  In row (chunks n l) -> (0 < length row <= n)%nat.
Proof.
  funelim (chunks n l); simp chunks; [done|done|].
  intros [<-|Hin]; [|auto]. rewrite length_firstn. simpl. lia.
Qed.

Lemma In_days_upto n x : In x (days_upto n) <-> 1 <= x <= n.
Proof.
  unfold days_upto. rewrite in_map_iff. split.
  - intros (i & <- & Hi). apply in_seq in Hi. lia.
  - intros Hx. exists (Z.to_nat (x - 1)). rewrite in_seq. lia.
Qed.

Lemma date_leb_ltb_false a b : date_ltb a b = false -> date_leb b a = true.
Proof. rewrite date_ltb_negb_leb. by destruct (date_leb b a). Qed.

(** Every valid date is at most [date.max]. *)
Lemma date_leb_max d : valid_date d -> date_leb d date_max = true.
Proof.
  intros (Hy & Hm & Hd). pose proof (days_in_month_bounds (year d) (month d) Hm).
  unfold date_leb, date_compare, date_max, MINYEAR, MAXYEAR in *; simpl.
  destruct (Z.compare_spec (year d) 9999); [|done|lia].
  destruct (Z.compare_spec (month d) 12); [|done|lia].
  destruct (Z.compare_spec (day d) 31); [done|done|lia].
Qed.

Section RenderFacts.
Context (today : date) (user : Z) (ranges : list range) (page : string).

(** What a [datepick] button of one day says about that day. *)
Lemma day_button_pick st ci d st' d' pg :
  valid_date d ->
  b_cb (day_button today user ranges page st ci d) = CbDatepick st' d' pg ->
  st' = st /\ d' = d /\ pg = page /\ today <=d d /\
  get_day_status d ranges user = Free /\
  (st = CheckOut -> exists c, ci = Some c /\ c <d d).
Proof.
  intros Hv. unfold day_button. destruct (date_ltb d today) eqn:Past; [done|].
  destruct (get_day_status d ranges user) eqn:St; try done.
  destruct (bool_decide (st = CheckOut) && date_leb d (min_date today st ci)) eqn:Dis;
    [done|]. simpl. intros E. injection E as <- <- <-.
  do 3 (split; [done|]). split; [by apply date_leb_ltb_false|]. split; [done|].
  intros ->. simpl in Dis. destruct ci as [c|].
  - exists c. split; [done|]. rewrite date_ltb_negb_leb. by rewrite Dis.
  - by rewrite date_leb_max in Dis.
Qed.

End RenderFacts.

Lemma monthrange_inr y m fw dim :
  monthrange y m = inr (fw, dim) ->
  1 <= m <= 12 /\ fw = weekday (mkDate y m 1) /\ dim = days_in_month y m.
Proof.
  unfold monthrange. destruct ((1 <=? m) && (m <=? 12)) eqn:M; [|done].
  intros E. injection E as <- <-. apply andb_true_iff in M as [M1 M2].
  apply Z.leb_le in M1, M2. auto.
Qed.

Lemma In_month_buttons y m fw dim st ci b today user ranges page :
  In b (month_buttons today user ranges page y m fw dim st ci) ->
  b = mkButton LBlank CbNull \/
  exists n, 1 <= n <= dim /\ b = day_button today user ranges page st ci (mkDate y m n).
Proof.
  unfold month_buttons. rewrite in_app_iff, in_map_iff.
  intros [Hb|(n & <- & Hn)].
  - left. by apply repeat_spec in Hb.
  - right. exists n. split; [by apply In_days_upto|done].
Qed.

(** C4 Every selectable day of a rendered calendar is a day of the
    displayed month that is not in the past, is not held by any booked
    range (neither the viewer's nor another user's), carries the stage
    and page the calendar was drawn for, and, in the check-out stage,
    comes strictly after the stored check-in. *)
Theorem calendar_pick_sound today user ranges page y m res_id st ci kb row b st' d pg :
  render_calendar today user ranges page y m res_id st ci = inr kb ->
  In row kb -> In b row -> b_cb b = CbDatepick st' d pg ->
  st' = st /\ pg = page /\ year d = y /\ month d = m /\ valid_date d /\
  today <=d d /\ get_day_status d ranges user = Free /\
  (st = CheckOut -> exists c, ci = Some c /\ c <d d).
Proof.
  unfold render_calendar.
  destruct (monthrange y m) as [|[fw dim]] eqn:MR; [done|].
  apply monthrange_inr in MR as (Hm & -> & ->).
  destruct (negb _) eqn:Y; [done|].
  apply negb_false_iff, andb_true_iff in Y as [Y1 Y2]. apply Z.leb_le in Y1, Y2.
  destruct (prev_month y m) as [|[py pm]]; [done|].
  destruct (next_month y m) as [|[ny nm]]; [done|].
  intros E. injection E as <-.
  intros Hrow Hb Hcb. simpl in Hrow. rewrite in_app_iff in Hrow.
  destruct Hrow as [<-|[<-|[Hrow|[<-|[]]]]].
  - destruct Hb as [<-|[]]. done.
  - repeat destruct Hb as [<-|Hb]; done.
  - apply (In_chunks _ _ _ _ Hrow), In_month_buttons in Hb as [->|(n & Hn & ->)]; [done|].
    assert (valid_date (mkDate y m n)) as Hv by (repeat split; simpl; lia).
    destruct (day_button_pick today user ranges page st ci _ st' d pg Hv Hcb)
      as (-> & -> & -> & H1 & H2 & H3). simpl. split_and!; auto.
  - destruct Hb as [<-|[<-|[<-|[]]]]; done.
Qed.

Lemma nth_error_days_upto dim n : 1 <= n <= dim ->
  nth_error (days_upto dim) (Z.to_nat (n - 1)) = Some n.
Proof.
  intros Hn. unfold days_upto. rewrite nth_error_map, nth_error_seq.
  replace (Z.to_nat (n - 1) <? Z.to_nat dim)%nat with true by (symmetry; apply Nat.ltb_lt; lia).
  simpl. f_equal. lia.
Qed.

Lemma nth_error_month_buttons today user ranges page y m fw dim st ci n :
  0 <= fw -> 1 <= n <= dim ->
  nth_error (month_buttons today user ranges page y m fw dim st ci) (Z.to_nat (fw + n - 1)) =
  Some (day_button today user ranges page st ci (mkDate y m n)).
Proof.
  intros Hfw Hn. unfold month_buttons.
  rewrite nth_error_app2 by (rewrite repeat_length; lia).
  rewrite repeat_length, nth_error_map.
  replace (Z.to_nat (fw + n - 1) - Z.to_nat fw)%nat with (Z.to_nat (n - 1)) by lia.
  by rewrite nth_error_days_upto.
Qed.

(** Calendar precedence: a day of the displayed month that is not in
    the past and that [get_day_status] reports as the viewer's own is
    drawn, in its slot of the grid, as the green square with no action,
    in either stage. *)
Theorem calendar_mine_cell today user ranges page y m fw dim st ci n :
  0 <= fw -> 1 <= n <= dim -> today <=d mkDate y m n ->
  get_day_status (mkDate y m n) ranges user = Mine ->
  nth_error (month_buttons today user ranges page y m fw dim st ci) (Z.to_nat (fw + n - 1)) =
  Some (mkButton LMine CbNull).
Proof.
  intros Hfw Hn Hle Hmine. rewrite nth_error_month_buttons by done.
  unfold day_button. rewrite date_ltb_negb_leb, Hle, Hmine. reflexivity.
Qed.

Lemma calendar_mine_cell_witness :
  nth_error (month_buttons (mkDate 2024 6 5) 7 [(7, mkDate 2024 6 10, mkDate 2024 6 12)] "1"
               2024 6 5 30 CheckOut (Some (mkDate 2024 6 8))) 15 =
  Some (mkButton LMine CbNull).
Proof.
  apply (calendar_mine_cell (mkDate 2024 6 5) 7 [(7, mkDate 2024 6 10, mkDate 2024 6 12)] "1"
           2024 6 5 30 CheckOut (Some (mkDate 2024 6 8)) 11); try lia; reflexivity.
Defined.

Lemma calendar_pick_sound_witness :
  get_day_status (mkDate 2024 6 20) [(8, mkDate 2024 6 10, mkDate 2024 6 12)] 7 = Free /\
  mkDate 2024 6 5 <=d mkDate 2024 6 20.
Proof.
  pose (r := render_calendar (mkDate 2024 6 5) 7 [(8, mkDate 2024 6 10, mkDate 2024 6 12)] "1"
               2024 6 3 CheckIn None).
  pose (kb := match r with inr kb => kb | inl _ => [] end).
  pose (row := nth 5 kb []).
  pose (b := nth 3 row (mkButton LBlank CbNull)).
  destruct (calendar_pick_sound (mkDate 2024 6 5) 7 [(8, mkDate 2024 6 10, mkDate 2024 6 12)] "1"
              2024 6 3 CheckIn None kb row b CheckIn (mkDate 2024 6 20) "1")
    as (_ & _ & _ & _ & _ & Hle & Hfree & _).
  - vm_compute. reflexivity.
  - apply nth_In. vm_compute. lia.
  - apply nth_In. vm_compute. lia.
  - vm_compute. reflexivity.
  - split; assumption.
Defined.
