(* ===== verification/Catalog.v ===== *)
(** * Catalog: the paginated list of resources

    [utils.py], [build_resources_keyboard]: the enabled resources
    ([status == 1]) ordered by creation time, [RECORD_PER_PAGE] per page,
    [RECORDS_ROWS] buttons per row, the requested page clamped into
    [1 .. ceil(total / RECORD_PER_PAGE)], and a navigation row with
    "back", "page p/n" and "next".  [main.py]: [start] (the /start
    command) and [callback_page] (the page buttons, which go back to the
    first page when a photo gallery has to be removed first, via
    [remove_images]).  The two settings of [config.py] are the Section's
    parameters; the theorems assume them positive, as Python needs
    ([math.ceil(total / 0)] and [range(0, n, 0)] raise). *)
From S2P Require Import Prelude Dates Models Calendar.
From stdpp Require Import sorting.
Open Scope Z_scope.

(** Buttons of the catalogue. *)
Inductive cat_label :=
| CatLocation (loc : string)   (** [str(res.location)] *)
| CatGoBack | CatGoNext
| CatPageOf (p n : Z).         (** [f"{texts.page} {page}/{total_pages}"] *)

Inductive cat_callback :=
| CatRes (res_id page : Z)     (** ["res:<id>:<page>"] *)
| CatPage (page : Z)           (** ["page:<page>:"] *)
| CatNull.

Record cat_button := mkCatButton { cat_label_of : cat_label; cat_cb : cat_callback }.

(** What [start] and [callback_page] show. *)
Inductive cat_view :=
| NoRecords                                  (** [texts.no_records] *)
| PickAddress (kb : list (list cat_button)). (** [texts.pick_address] with the keyboard *)

Section Catalog.
Context (RECORD_PER_PAGE RECORDS_ROWS : Z).

Definition enabled (r : resource) : bool := r_status r =? 1.

(** [ORDER BY created]. *)
Definition created_le (a b : Z * resource) : Prop :=
  to_micros (r_created a.2) <= to_micros (r_created b.2).

#[local] Instance created_le_dec : RelDecision created_le.
Proof. intros a b. unfold created_le. apply Z.le_dec. Defined.

(** [model.select().where(model.status == 1).order_by(model.created)]:
    rows with equal [created] keep the table's order. *)
Definition enabled_by_created (rs : gmap Z resource) : list (Z * resource) :=
  merge_sort created_le (List.filter (fun kv => enabled kv.2) (map_to_list rs)).

(** [math.ceil(total / RECORD_PER_PAGE)] on integers. *)
Definition total_pages (total : Z) : Z := (total + RECORD_PER_PAGE - 1) / RECORD_PER_PAGE.

(** [max(1, min(page, total_pages))]. *)
Definition clamp_page (page tp : Z) : Z := Z.max 1 (Z.min page tp).

(** [.paginate(page, n)]: [OFFSET (page - 1) * n LIMIT n]. *)
Definition paginate {A} (l : list A) (page : Z) : list A :=
  firstn (Z.to_nat RECORD_PER_PAGE) (skipn (Z.to_nat ((page - 1) * RECORD_PER_PAGE)) l).

(** The navigation row. *)
Definition nav_buttons (p tp : Z) : list cat_button :=
  (if 1 <? p then [mkCatButton CatGoBack (CatPage (p - 1))] else []) ++
  [mkCatButton (CatPageOf p tp) CatNull] ++
  (if p <? tp then [mkCatButton CatGoNext (CatPage (p + 1))] else []).

(** [build_resources_keyboard(model, page)]. *)
Definition build_resources_keyboard (rs : gmap Z resource) (page : Z) : list (list cat_button) :=
  let l := enabled_by_created rs in
  let total := Z.of_nat (length l) in
  if total =? 0 then [] else
  let tp := total_pages total in
  let p := clamp_page page tp in
  map (map (fun '(i, r) => mkCatButton (CatLocation (r_location r)) (CatRes i p)))
      (chunks (Z.to_nat RECORDS_ROWS) (paginate l p)) ++
  [nav_buttons p tp].

(** [start(message)]: [Resource.select().count()] counts every resource,
    enabled or not. *)
Definition start (rs : gmap Z resource) : cat_view :=
  if (size rs =? 0)%nat then NoRecords else PickAddress (build_resources_keyboard rs 1).

(** [s_page.isdigit()] and [int(s_page)]: [None] unless all digits. *)
Fixpoint parse_digits_from (acc : Z) (s : string) : option Z :=
  match s with
  | EmptyString => Some acc
  | String c s' =>
      let n := Ascii.nat_of_ascii c in
      if (48 <=? n)%nat && (n <=? 57)%nat
      then parse_digits_from (10 * acc + Z.of_nat (n - 48)) s' else None
  end.

Definition parse_page (s : string) : option Z :=
  match s with EmptyString => None | _ => parse_digits_from 0 s end.

(** [callback_page]: with gallery messages to remove, [remove_images]
    redraws the first page; otherwise the requested page (1 when it is
    not a number). *)
Definition callback_page (rs : gmap Z resource) (s_page remove_ids : string) : cat_view :=
  if negb (String.eqb remove_ids "") then PickAddress (build_resources_keyboard rs 1)
  else PickAddress (build_resources_keyboard rs
                      (match parse_page s_page with Some p => p | None => 1 end)).

End Catalog.

(** [RECORD_PER_PAGE = 6], [RECORDS_ROWS = 2]: the defaults of [config.py]. *)
Definition cat_sc_now : datetime := mkDateTime (mkDate 2024 6 1) 12 0 0 0.

Definition cat_sc_resources (n : nat) : gmap Z resource :=
  list_to_map (map (fun i => (Z.of_nat i + 1,
     mkResource "Main st." 10000 None 1
       (mkDateTime (mkDate 2024 6 1) 12 (Z.of_nat i) 0 0) cat_sc_now)) (seq 0 n)).

(** ** Lemmas *)

Section CatalogFacts.
Context (RECORD_PER_PAGE RECORDS_ROWS : Z) (Hrpp : 0 < RECORD_PER_PAGE).

Lemma total_pages_spec total : 0 < total ->
  1 <= total_pages RECORD_PER_PAGE total /\
  (total_pages RECORD_PER_PAGE total - 1) * RECORD_PER_PAGE < total <=
    total_pages RECORD_PER_PAGE total * RECORD_PER_PAGE.
Proof. intros Ht. unfold total_pages. zdiv_lia. Qed.

Lemma In_enabled_by_created rs i r :
  In (i, r) (enabled_by_created rs) <-> rs !! i = Some r /\ enabled r = true.
Proof.
  unfold enabled_by_created. rewrite <- list_elem_of_In.
  rewrite (merge_sort_Permutation _ _). rewrite list_elem_of_In, in_filter_iff.
  rewrite <- list_elem_of_In, elem_of_map_to_list. done.
Qed.

(** The pages [a+1 .. a+m] of a list, laid end to end. *)
Lemma concat_pages {A} (l : list A) a m :
  concat (map (fun i => paginate RECORD_PER_PAGE l (Z.of_nat i + 1)) (seq a m)) =
  take (m * Z.to_nat RECORD_PER_PAGE) (drop (a * Z.to_nat RECORD_PER_PAGE) l).
Proof.
  revert a. induction m as [|m IH]; intros a; simpl; [by rewrite take_0|].
  rewrite IH. unfold paginate.
  replace (Z.to_nat ((Z.of_nat a + 1 - 1) * RECORD_PER_PAGE))
    with (a * Z.to_nat RECORD_PER_PAGE)%nat by lia.
  replace (S a * Z.to_nat RECORD_PER_PAGE)%nat
    with (a * Z.to_nat RECORD_PER_PAGE + Z.to_nat RECORD_PER_PAGE)%nat by lia.
  by rewrite <- drop_drop, take_take_drop.
Qed.

Lemma In_paginate {A} (l : list A) page x :
  In x (paginate RECORD_PER_PAGE l page) -> In x l.
Proof.
  rewrite <- !list_elem_of_In. intros H. eapply elem_of_sublist; [exact H|].
  unfold paginate. etrans; [apply sublist_take|apply sublist_drop].
Qed.

Lemma clamp_page_bounds page tp : 1 <= tp -> 1 <= clamp_page page tp <= tp.
Proof. unfold clamp_page. lia. Qed.

Lemma In_nav_buttons p tp b : 1 <= p <= tp -> In b (nav_buttons p tp) ->
  (exists q, cat_cb b = CatPage q /\ 1 <= q <= tp) \/ cat_cb b = CatNull.
Proof.
  intros Hp. unfold nav_buttons. rewrite !in_app_iff.
  destruct (Z.ltb_spec 1 p), (Z.ltb_spec p tp); simpl; intros Hb;
    repeat match goal with H : _ \/ _ |- _ => destruct H | H : False |- _ => destruct H end;
    subst; simpl; auto; left; eexists; (split; [reflexivity|lia]).
Qed.

End CatalogFacts.

(** ** Properties *)

(** C36 Every button of the catalogue keyboard is either the button of
    an enabled resource of the table, labelled with its location and
    carrying the clamped page, or a navigation button whose target page
    lies within [1 .. total_pages], or the inert page counter. *)
Theorem build_resources_keyboard_sound RECORD_PER_PAGE RECORDS_ROWS rs page row b :
  0 < RECORD_PER_PAGE ->
  In row (build_resources_keyboard RECORD_PER_PAGE RECORDS_ROWS rs page) -> In b row ->
  let tp := total_pages RECORD_PER_PAGE (Z.of_nat (length (enabled_by_created rs))) in
  (exists i r, rs !! i = Some r /\ enabled r = true /\
     b = mkCatButton (CatLocation (r_location r)) (CatRes i (clamp_page page tp)) /\
     1 <= clamp_page page tp <= tp) \/
  (exists q, cat_cb b = CatPage q /\ 1 <= q <= tp) \/
  cat_cb b = CatNull.
Proof.
  intros Hrpp Hrow Hb tp. unfold build_resources_keyboard in Hrow.
  destruct (Z.eqb_spec (Z.of_nat (length (enabled_by_created rs))) 0) as [|Hne]; [done|].
  destruct (total_pages_spec RECORD_PER_PAGE Hrpp (Z.of_nat (length (enabled_by_created rs))))
    as [Htp _]; [lia|].
  pose proof (clamp_page_bounds page tp Htp) as Hp.
  apply in_app_iff in Hrow as [Hrow|[<-|[]]]; [|right; exact (In_nav_buttons _ _ _ Hp Hb)].
  left. apply in_map_iff in Hrow as (c & <- & Hc).
  apply in_map_iff in Hb as ([i r] & <- & Hir).
  pose proof (In_paginate _ _ _ _ (In_chunks _ _ _ _ Hc Hir)) as Hin.
  apply In_enabled_by_created in Hin as [Hl He]. by exists i, r.
Qed.

Lemma build_resources_keyboard_sound_witness :
  In (mkCatButton (CatLocation "Main st.") (CatRes 7 2))
     (concat (build_resources_keyboard 6 2 (cat_sc_resources 8) 5)) /\
  ((exists i r, cat_sc_resources 8 !! i = Some r /\ enabled r = true /\
     mkCatButton (CatLocation "Main st.") (CatRes 7 2) =
       mkCatButton (CatLocation (r_location r)) (CatRes i (clamp_page 5 2)) /\
     1 <= clamp_page 5 2 <= 2) \/
   (exists q, CatRes 7 2 = CatPage q /\ 1 <= q <= 2) \/ CatRes 7 2 = CatNull).
Proof.
  assert (Hin : In (mkCatButton (CatLocation "Main st.") (CatRes 7 2))
     (concat (build_resources_keyboard 6 2 (cat_sc_resources 8) 5))) by (vm_compute; tauto).
  split; [exact Hin|].
  apply in_concat in Hin as (row & Hrow & Hb).
  exact (build_resources_keyboard_sound 6 2 (cat_sc_resources 8) 5 row _ ltac:(lia) Hrow Hb).
Defined.

(** C37 Pagination loses and repeats nothing: the pages [1 .. total_pages]
    of the enabled resources, laid end to end, are the enabled resources
    in creation order. *)
Theorem pages_partition RECORD_PER_PAGE rs : 0 < RECORD_PER_PAGE ->
  let l := enabled_by_created rs in
  concat (map (fun i => paginate RECORD_PER_PAGE l (Z.of_nat i + 1))
              (seq 0 (Z.to_nat (total_pages RECORD_PER_PAGE (Z.of_nat (length l)))))) = l.
Proof.
  intros Hrpp l. rewrite concat_pages by done. rewrite drop_0. apply take_ge.
  destruct (decide (length l = 0%nat)) as [E|Hne]; [rewrite E; lia|].
  destruct (total_pages_spec RECORD_PER_PAGE Hrpp (Z.of_nat (length l))) as [H1 [_ H2]]; [lia|].
  nia.
Qed.

Lemma pages_partition_witness :
  let l := enabled_by_created (cat_sc_resources 8) in
  concat (map (fun i => paginate 6 l (Z.of_nat i + 1))
              (seq 0 (Z.to_nat (total_pages 6 (Z.of_nat (length l)))))) = l.
Proof. apply pages_partition. lia. Defined.

(** [start] counts every resource, enabled or not: with only disabled
    resources it shows the "pick an address" prompt with an empty
    keyboard instead of the "no records" message. *)
Example start_disabled_only_empty_picker :
  start 6 2 {[1 := mkResource "Main st." 10000 None 0 cat_sc_now cat_sc_now]} = PickAddress [].
Proof. vm_compute. reflexivity. Qed.

(** "Go back" from a resource's photo gallery carries the page the
    user came from, but [remove_images] redraws the first page: with
    eight resources the button [page:2:<ids>] shows page 1, while the
    same button without a gallery shows page 2. *)
Example gallery_back_loses_page :
  callback_page 6 2 (cat_sc_resources 8) "2" "15,16" = callback_page 6 2 (cat_sc_resources 8) "1" "" /\
  callback_page 6 2 (cat_sc_resources 8) "2" "" <> callback_page 6 2 (cat_sc_resources 8) "1" "".
Proof. vm_compute. split; [reflexivity|discriminate]. Qed.
