(* ===== verification/Sessions.v ===== *)
(** * Sessions: [user_booking_state] and the handlers of the date picker

    [main.py] keeps one dict entry per user in the middle of a booking
    ([res_id], [check_in], [check_out], [calendar_year],
    [calendar_month], [created]).  [callback_book] creates it,
    [callback_datepick] and [callback_change_month] mutate it and redraw
    the calendar through [send_calendar], [callback_confirm_booking]
    (in [Lifecycle]) removes it, and the hourly
    [clean_expired_booking_states] drops entries older than 24 hours that
    have no check-out.  A handler here maps the world (the session dict
    and the database) and its inputs to an [outcome]: the new world, the
    messages shown, and the Python exception that escaped, if any (the
    mutations made before the exception stay, as in the code). *)
From S2P Require Import Prelude Dates Models Availability Calendar.

(** One entry of [user_booking_state]. *)
Record session := mkSession {
  s_res_id : Z;
  s_check_in : option date;
  s_check_out : option date;
  s_calendar_year : Z;
  s_calendar_month : Z;
  s_created : datetime }.

(** Texts of [language.json] the booking flow shows. *)
Inductive msg :=
| MsgLongSessionError | MsgSessionError | MsgDateRangeError | MsgOverlapsError
| MsgPaymentError | MsgPreCheckoutError2 | MsgPreCheckoutError3 | MsgPreCheckoutError4
| MsgWrongAmount | MsgPaymentErrorNotification | MsgErrorAfterPayment
| MsgAlreadyConfirmed | MsgSuccessBooking | MsgBookingCompleted | MsgBookingCanceled
| MsgCancelError | MsgCancelApply | MsgMyBookings.

(** What a handler shows in the chat. *)
Inductive ui :=
| UiText (m : msg)                                (** [send_message] / [edit_message_text] *)
| UiCalendar (prefix : option msg) (st : stage) (kb : keyboard)
| UiSummary (res_id : Z) (check_in check_out : date) (page : string)
| UiAlert (m : msg)                               (** [answer_callback_query(show_alert=True)] *)
| UiInvoice (booking_id : Z) (amount : Z)         (** [send_invoice] *)
| UiDeleteMessage
| UiPreCheckout (ok : bool) (err : option msg)    (** [answer_pre_checkout_query] *)
| UiNotifyManagers (m : msg) (booking_id : Z).

Record world := mkWorld { w_sessions : gmap Z session; w_db : db }.

Record outcome := mkOutcome { o_world : world; o_ui : list ui; o_exc : option py_exc }.

Definition set_sessions (w : world) (ss : gmap Z session) : world := mkWorld ss (w_db w).

(** The session with a field replaced: [state['check_in'] = ...] etc. *)
Definition with_check_in (s : session) (ci : option date) : session :=
  mkSession (s_res_id s) ci (s_check_out s) (s_calendar_year s) (s_calendar_month s) (s_created s).
Definition with_check_out (s : session) (co : option date) : session :=
  mkSession (s_res_id s) (s_check_in s) co (s_calendar_year s) (s_calendar_month s) (s_created s).
Definition with_calendar (s : session) (y m : Z) : session :=
  mkSession (s_res_id s) (s_check_in s) (s_check_out s) y m (s_created s).

(** [send_calendar(message, user_id, page, select_type, prefix_text)].
    With no session it shows the session error and then fails on
    [user_booking_state[user_id]] with [KeyError]. *)
Definition send_calendar (w : world) (today : date) (user : Z) (page : string)
    (st : stage) (prefix : option msg) : list ui * option py_exc :=
  match w_sessions w !! user with
  | None => ([UiText MsgLongSessionError], Some KeyError)
  | Some s =>
      let booked := get_booked_ranges_for_resource today (s_res_id s) (db_bookings (w_db w)) in
      match render_calendar today user booked page (s_calendar_year s) (s_calendar_month s)
              (s_res_id s) st (s_check_in s) with
      | inl e => ([], Some e)
      | inr kb => ([UiCalendar prefix st kb], None)
      end
  end.

(** Run [send_calendar] after a mutation of the world. *)
Definition then_calendar (w : world) (ui0 : list ui) (today : date) (user : Z) (page : string)
    (st : stage) (prefix : option msg) : outcome :=
  let '(u, e) := send_calendar w today user page st prefix in mkOutcome w (ui0 ++ u) e.

(** [callback_book]: a fresh session for the resource, showing the month
    of [now], then the check-in calendar. *)
Definition callback_book (w : world) (now : datetime) (user res_id : Z) (page : string) : outcome :=
  let s := mkSession res_id None None (year (dt_date now)) (month (dt_date now)) now in
  then_calendar (set_sessions w (<[user := s]> (w_sessions w))) [] (dt_date now) user page CheckIn None.

(** [callback_change_month]: set the displayed month, redraw. *)
Definition callback_change_month (w : world) (today : date) (user y m : Z) (st : stage)
    (page : string) : outcome :=
  match w_sessions w !! user with
  | None => mkOutcome w [UiText MsgLongSessionError] (Some KeyError)
  | Some s =>
      then_calendar (set_sessions w (<[user := with_calendar s y m]> (w_sessions w)))
        [] today user page st None
  end.

(** The fresh query of [callback_datepick]: [(check_in, check_out)] of the
    confirmed bookings of the resource. *)
Definition confirmed_ranges (d : db) (res_id : Z) : list (option date * option date) :=
  map (fun b => (b_check_in b, b_check_out b))
    (List.filter (fun b => (b_resource b =? res_id) && bool_decide (b_status b = Confirmed))
       (db_bookings d)).

(** The loop [for s, e in booked_ranges]: the first range, with both
    dates set, such that [check_in <= e and date_obj >= s]. *)
Fixpoint overlapping (ci d : date) (rs : list (option date * option date)) : bool :=
  match rs with
  | [] => false
  | (Some s, Some e) :: rest => if date_leb ci e && date_leb s d then true else overlapping ci d rest
  | _ :: rest => overlapping ci d rest
  end.

(** [callback_datepick] for ["check_in"] and ["check_out"]. *)
Definition callback_datepick (w : world) (today : date) (user : Z) (st : stage) (d : date)
    (page : string) : outcome :=
  match w_sessions w !! user with
  | None => mkOutcome w [] (Some KeyError)
  | Some s =>
      match st with
      | CheckIn =>
          then_calendar (set_sessions w (<[user := with_check_in s (Some d)]> (w_sessions w)))
            [] today user page CheckOut None
      | CheckOut =>
          match s_check_in s with
          | None => mkOutcome w [] (Some TypeError)
          | Some ci =>
              if date_leb d ci then mkOutcome w [UiAlert MsgDateRangeError] None
              else if overlapping ci d (confirmed_ranges (w_db w) (s_res_id s)) then
                then_calendar (set_sessions w (<[user := with_check_in s None]> (w_sessions w)))
                  [] today user page CheckIn (Some MsgOverlapsError)
              else
                let w' := set_sessions w (<[user := with_check_out s (Some d)]> (w_sessions w)) in
                match resource_get_by_id (w_db w) (s_res_id s) with
                | inl e => mkOutcome w' [] (Some e)
                | inr _ => mkOutcome w' [UiSummary (s_res_id s) ci d page] None
                end
          end
      end
  end.

(** [timedelta(hours=24)] in microseconds. *)
Definition DAY_MICROS : Z := 24 * 3600 * 1000000.

(** The test of [clean_expired_booking_states] for one entry. *)
Definition expired (now : datetime) (s : session) : bool :=
  match s_check_out s with
  | None => DAY_MICROS <? to_micros now - to_micros (s_created s)
  | Some _ => false
  end.

(** [clean_expired_booking_states()]: the expired users are collected,
    then popped. *)
Definition clean_expired_booking_states (ss : gmap Z session) (now : datetime) : gmap Z session :=
  filter (fun kv => expired now kv.2 = false) ss.

(** The invariant of a session in the spec: a check-out is always
    preceded by a check-in strictly before it. *)
Definition session_wf (s : session) : Prop :=
  forall co, s_check_out s = Some co -> exists ci, s_check_in s = Some ci /\ ci <d co.

Definition store_wf (ss : gmap Z session) : Prop := map_Forall (fun _ s => session_wf s) ss.

(** ** Scenario data of the spec

    Resource 1 at 100.00 a night; user 100 (A) holds a confirmed booking
    2024-06-10 .. 2024-06-12; user 200 (B) has picked check-in
    2024-06-11 for the same resource. *)
Definition sc_now : datetime := mkDateTime (mkDate 2024 6 1) 12 0 0 0.
Definition sc_booking_A : booking :=
  mkBooking 1 100 1 (Some (mkDate 2024 6 10)) (Some (mkDate 2024 6 12)) sc_now Confirmed 20000.
Definition sc_db : db := mkDb [sc_booking_A] {[1 := mkResource "Main st. 1" 10000 None 1 sc_now sc_now]} 2.
Definition sc_session_B : session := mkSession 1 (Some (mkDate 2024 6 11)) None 2024 6 sc_now.
Definition sc_world : world := mkWorld {[200 := sc_session_B]} sc_db.
Definition sc_session_B2 : session := mkSession 1 (Some (mkDate 2024 6 13)) None 2024 6 sc_now.
Definition sc_world2 : world := mkWorld {[200 := sc_session_B2]} sc_db.

(** ** Lemmas *)

Lemma overlapping_false_iff ci d rs :
  overlapping ci d rs = false <->
  forall s e, In (Some s, Some e) rs -> ~ (ci <=d e /\ s <=d d).
Proof.
  induction rs as [|[[s|] [e|]] rs IH]; simpl; [naive_solver| |rewrite IH; naive_solver..].
  destruct (date_leb ci e && date_leb s d) eqn:E.
  - split; [done|]. intros H. exfalso. apply (H s e (or_introl eq_refl)).
    by apply andb_true_iff in E.
  - rewrite IH. split; [|naive_solver].
    intros H s' e' [Eq|Hin]; [|eauto]. injection Eq as <- <-.
    rewrite andb_false_iff in E. intros [H1 H2]. destruct E; congruence.
Qed.

Lemma In_confirmed_ranges d res_id ci co :
  In (ci, co) (confirmed_ranges d res_id) <->
  exists b, In b (db_bookings d) /\ b_resource b = res_id /\ b_status b = Confirmed /\
    b_check_in b = ci /\ b_check_out b = co.
Proof.
  unfold confirmed_ranges. rewrite in_map_iff. setoid_rewrite in_filter_iff.
  split.
  - intros (b & E & Hin & Hc). injection E as <- <-.
    apply andb_true_iff in Hc as [Hr Hs]. apply Z.eqb_eq in Hr.
    apply bool_decide_eq_true in Hs. eauto 10.
  - intros (b & Hin & Hr & Hs & <- & <-). exists b. split; [done|]. split; [done|].
    rewrite Hr, Z.eqb_refl. by rewrite bool_decide_eq_true_2.
Qed.

Lemma then_calendar_world w ui0 today user page st prefix :
  o_world (then_calendar w ui0 today user page st prefix) = w.
Proof. unfold then_calendar. by destruct (send_calendar _ _ _ _ _ _). Qed.

Lemma then_calendar_no_summary w ui0 today user page st prefix res ci co pg :
  In (UiSummary res ci co pg) (o_ui (then_calendar w ui0 today user page st prefix)) ->
  In (UiSummary res ci co pg) ui0.
Proof.
  unfold then_calendar, send_calendar.
  destruct (w_sessions w !! user) as [s|].
  - destruct (render_calendar _ _ _ _ _ _ _ _ _); simpl; rewrite in_app_iff; simpl;
      intuition congruence.
  - simpl. rewrite in_app_iff. simpl. intuition congruence.
Qed.

#[export] Hint Rewrite then_calendar_world : booking_rw.

Lemma overlapping_true ci d rs s e :
  In (Some s, Some e) rs -> ci <=d e -> s <=d d -> overlapping ci d rs = true.
Proof.
  intros Hin H1 H2. destruct (overlapping ci d rs) eqn:O; [done|].
  exfalso. by apply (proj1 (overlapping_false_iff ci d rs) O s e Hin).
Qed.

(** ** Properties of the date picker *)

(** C3 The range selector never lets an overlapping range through: when
    a check-out pick leads to the booking summary (the step before
    payment), the session had a check-in strictly before the picked day,
    the session now holds both dates, and no confirmed booking of the
    resource with both dates set overlaps [check_in, check_out]. *)
Theorem datepick_summary_no_overlap w today user d page res ci co pg :
  In (UiSummary res ci co pg) (o_ui (callback_datepick w today user CheckOut d page)) ->
  exists s, w_sessions w !! user = Some s /\ s_res_id s = res /\ s_check_in s = Some ci /\
    co = d /\ ci <d d /\
    w_sessions (o_world (callback_datepick w today user CheckOut d page)) !! user =
      Some (with_check_out s (Some d)) /\
    forall b bs be, In b (db_bookings (w_db w)) -> b_resource b = res ->
      b_status b = Confirmed -> b_check_in b = Some bs -> b_check_out b = Some be ->
      ~ (ci <=d be /\ bs <=d d).
Proof.
  unfold callback_datepick.
  destruct (w_sessions w !! user) as [s|] eqn:Hs; [|done].
  destruct (s_check_in s) as [ci0|] eqn:Hci; [|done].
  destruct (date_leb d ci0) eqn:Hle; [simpl; intuition congruence|].
  destruct (overlapping ci0 d (confirmed_ranges (w_db w) (s_res_id s))) eqn:Ho.
  { intros H. by apply then_calendar_no_summary in H. }
  destruct (resource_get_by_id (w_db w) (s_res_id s)); simpl; [done|].
  intros [E|[]]. injection E as <- <- <- <-.
  exists s. split_and!; try done.
  - by rewrite date_ltb_negb_leb, Hle.
  - by rewrite lookup_insert_eq.
  - intros b bs be Hin Hr Hst Hbi Hbo.
    apply (proj1 (overlapping_false_iff _ _ _) Ho).
    apply In_confirmed_ranges. eauto 10.
Qed.

(** A stale grid is caught at the tap: when the picked check-out
    makes [check_in, check_out] overlap a confirmed booking of the
    resource, the check-in is cleared and the check-in calendar is shown
    again with the overlap warning. *)
Theorem datepick_overlap_resets w today user d page s ci b bs be :
  w_sessions w !! user = Some s -> s_check_in s = Some ci -> ci <d d ->
  In b (db_bookings (w_db w)) -> b_resource b = s_res_id s -> b_status b = Confirmed ->
  b_check_in b = Some bs -> b_check_out b = Some be -> ci <=d be -> bs <=d d ->
  let o := callback_datepick w today user CheckOut d page in
  w_sessions (o_world o) !! user = Some (with_check_in s None) /\
  (o_ui o, o_exc o) = send_calendar (o_world o) today user page CheckIn (Some MsgOverlapsError).
Proof.
  intros Hs Hci Hlt Hin Hr Hst Hbi Hbo H1 H2. simpl.
  unfold callback_datepick. rewrite Hs, Hci.
  rewrite date_ltb_negb_leb in Hlt. destruct (date_leb d ci); [done|].
  rewrite (overlapping_true ci d _ bs be); [|by apply In_confirmed_ranges; eauto 10|done|done].
  unfold then_calendar. simpl.
  destruct (send_calendar _ _ _ _ _ _) eqn:Sc. simpl. by rewrite lookup_insert_eq.
Qed.

Lemma datepick_overlap_resets_witness :
  w_sessions (o_world (callback_datepick sc_world (mkDate 2024 6 1) 200 CheckOut
                         (mkDate 2024 6 13) "1")) !! 200 = Some (with_check_in sc_session_B None).
Proof.
  apply (datepick_overlap_resets sc_world (mkDate 2024 6 1) 200 (mkDate 2024 6 13) "1"
           sc_session_B (mkDate 2024 6 11) sc_booking_A (mkDate 2024 6 10) (mkDate 2024 6 12));
    try reflexivity. left. reflexivity.
Defined.

Lemma datepick_summary_no_overlap_witness :
  w_sessions (o_world (callback_datepick sc_world2 (mkDate 2024 6 1) 200 CheckOut
                         (mkDate 2024 6 15) "1")) !! 200 =
  Some (with_check_out sc_session_B2 (Some (mkDate 2024 6 15))).
Proof.
  destruct (datepick_summary_no_overlap sc_world2 (mkDate 2024 6 1) 200 (mkDate 2024 6 15) "1"
              1 (mkDate 2024 6 13) (mkDate 2024 6 15) "1")
    as (s & Hs & _ & _ & _ & _ & Hw & _).
  - vm_compute. left. reflexivity.
  - vm_compute in Hs. injection Hs as <-. exact Hw.
Defined.

(** ** The expiry sweep *)

(** C23 The sweep keeps exactly the sessions that are not expired: an
    entry survives iff it has a check-out or is at most 24 hours old. *)
Theorem clean_expired_lookup ss now u s :
  clean_expired_booking_states ss now !! u = Some s <->
  ss !! u = Some s /\
  (s_check_out s <> None \/ to_micros now - to_micros (s_created s) <= DAY_MICROS).
Proof.
  unfold clean_expired_booking_states. rewrite map_lookup_filter_Some. simpl.
  unfold expired. destruct (s_check_out s); [naive_solver|].
  rewrite Z.ltb_ge. naive_solver.
Qed.

Lemma clean_expired_removed ss now u s :
  ss !! u = Some s -> s_check_out s = None ->
  clean_expired_booking_states ss now !! u = None <->
  DAY_MICROS < to_micros now - to_micros (s_created s).
Proof.
  intros Hs Hco. unfold clean_expired_booking_states.
  rewrite map_lookup_filter_None. simpl.
  split.
  - intros [Hn|H]; [congruence|]. specialize (H s Hs). unfold expired in H.
    rewrite Hco in H. apply Z.ltb_lt. by destruct (DAY_MICROS <? _).
  - intros Hlt. right. intros s' Hs'. rewrite Hs in Hs'. injection Hs' as <-.
    unfold expired. rewrite Hco. by apply Z.ltb_lt in Hlt as ->.
Qed.

(** Session expiry, the spec's example: of two sessions with no
    check-out, the one created 25 hours before the sweep is removed and
    the one created 23 hours before is kept (as is one created exactly
    24 hours before: the test is strict). *)
Example clean_expired_25h_23h :
  let now := mkDateTime (mkDate 2024 6 2) 13 0 0 0 in
  let s25 := mkSession 1 (Some (mkDate 2024 6 10)) None 2024 6 (mkDateTime (mkDate 2024 6 1) 12 0 0 0) in
  let s23 := mkSession 1 None None 2024 6 (mkDateTime (mkDate 2024 6 1) 14 0 0 0) in
  let s24 := mkSession 1 None None 2024 6 (mkDateTime (mkDate 2024 6 1) 13 0 0 0) in
  let ss := {[1 := s25; 2 := s23; 3 := s24]} in
  clean_expired_booking_states ss now !! 1 = None /\
  clean_expired_booking_states ss now !! 2 = Some s23 /\
  clean_expired_booking_states ss now !! 3 = Some s24.
Proof.
  intros now s25 s23 s24 ss. split_and!.
  - apply (clean_expired_removed ss now 1 s25); [reflexivity|reflexivity|vm_compute; reflexivity].
  - vm_compute. reflexivity.
  - vm_compute. reflexivity.
Qed.

(** ** The session invariant *)

Lemma store_wf_insert ss u s : store_wf ss -> session_wf s -> store_wf (<[u := s]> ss).
Proof. intros. by apply map_Forall_insert_2. Qed.

Lemma session_wf_fresh res y m t : session_wf (mkSession res None None y m t).
Proof. by intros co. Qed.

Lemma session_wf_with_calendar s y m : session_wf s -> session_wf (with_calendar s y m).
Proof. done. Qed.

#[export] Hint Resolve store_wf_insert session_wf_fresh session_wf_with_calendar : booking.

(** C26 Picking a date keeps the invariant on a session that has no
    check-out yet, which is the order the calendar offers: check-in,
    then check-out. *)
Theorem datepick_preserves_wf w today user st d page s :
  store_wf (w_sessions w) -> w_sessions w !! user = Some s -> s_check_out s = None ->
  store_wf (w_sessions (o_world (callback_datepick w today user st d page))).
Proof.
  intros Hwf Hs Hco. unfold callback_datepick. rewrite Hs.
  assert (forall ci, session_wf (with_check_in s ci)) as Hci.
  { intros ci co. simpl. congruence. }
  destruct st.
  - rewrite then_calendar_world. simpl. auto with booking.
  - destruct (s_check_in s) as [ci|] eqn:Hi; [|done].
    destruct (date_leb d ci) eqn:Hle; [done|].
    destruct (overlapping _ _ _).
    + rewrite then_calendar_world. simpl. auto with booking.
    + assert (session_wf (with_check_out s (Some d))).
      { intros co E. injection E as <-. exists ci. split; [done|].
        by rewrite date_ltb_negb_leb, Hle. }
      destruct (resource_get_by_id _ _); simpl; auto with booking.
Qed.

Lemma datepick_preserves_wf_witness :
  store_wf (w_sessions (o_world (callback_datepick sc_world (mkDate 2024 6 1) 200 CheckOut
                                   (mkDate 2024 6 13) "1"))).
Proof.
  apply (datepick_preserves_wf sc_world (mkDate 2024 6 1) 200 CheckOut (mkDate 2024 6 13) "1"
           sc_session_B); [|reflexivity|reflexivity].
  intros u s Hs. unfold sc_world in Hs. cbn [w_sessions] in Hs.
  apply lookup_singleton_Some in Hs as [_ <-]. by intros co.
Defined.

(** C25 The invariant is not kept by the handlers: for every session
    that already holds a check-out, a check-in picked on or after that
    check-out (a tap on a second, older calendar message, whose buttons
    still carry [check_in]) replaces the check-in and keeps the old
    check-out, since [callback_datepick] does not reset [check_out]; the
    session then holds a check-in that is not before its check-out. *)
Theorem stale_checkin_breaks_session_wf w today user page s co d :
  w_sessions w !! user = Some s -> s_check_out s = Some co -> co <=d d ->
  w_sessions (o_world (callback_datepick w today user CheckIn d page)) !! user =
    Some (with_check_in s (Some d)) /\
  ~ store_wf (w_sessions (o_world (callback_datepick w today user CheckIn d page))).
Proof.
  intros Hs Hco Hle. unfold callback_datepick. rewrite Hs, then_calendar_world. cbn [w_sessions set_sessions].
  rewrite lookup_insert_eq. split; [done|]. intros Hwf.
  destruct (Hwf user _ (lookup_insert_eq _ _ _) co Hco) as (ci & E & Hlt).
  injection E as <-. rewrite date_ltb_negb_leb, Hle in Hlt. discriminate.
Qed.

Lemma stale_checkin_breaks_session_wf_witness :
  let s := mkSession 1 (Some (mkDate 2024 6 20)) (Some (mkDate 2024 6 22)) 2024 6 sc_now in
  let w := mkWorld {[300 := s]} sc_db in
  w_sessions (o_world (callback_datepick w (mkDate 2024 6 1) 300 CheckIn (mkDate 2024 6 25) "1")) !! 300 =
    Some (with_check_in s (Some (mkDate 2024 6 25))) /\
  ~ store_wf (w_sessions (o_world (callback_datepick w (mkDate 2024 6 1) 300 CheckIn
                                     (mkDate 2024 6 25) "1"))).
Proof.
  intros s w. apply (stale_checkin_breaks_session_wf w (mkDate 2024 6 1) 300 "1" s (mkDate 2024 6 22));
    reflexivity.
Defined.
