(* ===== verification/Snapshot.v ===== *)
(** * Snapshot: the one-shot hand-off of the session dict across a restart

    [main.py]: [restart_bot] (the admins' [/restart]) writes the session
    dict [user_booking_state] to [STATE_FILE] with
    [save_user_booking_state] and replaces the process with [execv]; at
    start-up [__main__] calls [load_user_booking_state], which reads the
    file back, turns the ISO strings of ['created'], ['check_in'] and
    ['check_out'] into [datetime] and [date] again, and deletes the file.

    The session dict holds Python values ([pyval]: what [json.load]
    gives, or a [date] / [datetime]); a session of [Sessions] is the dict
    [session_dict] that [callback_book] creates and the date picker
    updates.  The file holds a JSON tree ([json]); [json.dump] and
    [json.load] are taken to be inverse on it (the library's text
    format is not modelled, nor the duplicate keys of a hand-edited
    file).  The load is fallible: a value that is not an object raises
    [AttributeError] and a key that is not an integer [ValueError],
    both before the file is removed.

    The contract the spec gives this hand-off (write once, read once and
    clear) is the class [SessionSnapshot] with its laws
    [SessionSnapshotOk]; the file implementation is an instance, and the
    restart theorem is proved against the class. *)
From S2P Require Import Prelude Dates Iso Sessions.
From Stdlib Require Import String.

(** The JSON values of the snapshot. *)
Inductive json :=
| JNull
| JInt (z : Z)
| JStr (s : string)
| JObj (fields : list (string * json)).

(** A value of a session dict. *)
Inductive pyval :=
| PyJson (j : json)        (** [None], an [int], a [str] *)
| PyDate (d : date)
| PyDatetime (t : datetime).

(** A session dict, in insertion order. *)
Definition pydict : Type := list (string * pyval).

Definition opt_date (o : option date) : pyval :=
  match o with None => PyJson JNull | Some d => PyDate d end.

(** The dict of [callback_book], with the date picker's updates. *)
Definition session_dict (s : session) : pydict :=
  [("res_id", PyJson (JInt (s_res_id s)));
   ("check_in", opt_date (s_check_in s));
   ("check_out", opt_date (s_check_out s));
   ("calendar_year", PyJson (JInt (s_calendar_year s)));
   ("calendar_month", PyJson (JInt (s_calendar_month s)));
   ("created", PyDatetime (s_created s))].

(** [v.isoformat() if isinstance(v, (datetime, date)) else v]. *)
Definition save_value (v : pyval) : json :=
  match v with
  | PyJson j => j
  | PyDate d => JStr (date_isoformat d)
  | PyDatetime t => JStr (datetime_isoformat t)
  end.

(** [save_user_booking_state()]: the tree [json.dump] writes; the int
    keys of the dict become their [str]. *)
Definition save_user_booking_state (ss : gmap Z pydict) : json :=
  JObj (map (fun '(u, st) => (py_str_int u, JObj (map (fun '(k, v) => (k, save_value v)) st)))
            (map_to_list ss)).

Definition date_keys : list string := ["created"; "check_in"; "check_out"].

(** The body of the inner loop of [load_user_booking_state]: a date key
    with a value other than [None] goes through [fromisoformat]; when
    that raises (not a string, or not an ISO date) the value is kept. *)
Definition restore_value (k : string) (v : json) : pyval :=
  if bool_decide (k ∈ date_keys) then
    match v with
    | JNull => PyJson JNull
    | JStr s =>
        match fromisoformat s with
        | Some t => if String.eqb k "created" then PyDatetime t else PyDate (dt_date t)
        | None => PyJson v
        end
    | _ => PyJson v
    end
  else PyJson v.

Definition restore_state (fields : list (string * json)) : pydict :=
  map (fun '(k, v) => (k, restore_value k v)) fields.

(** The outer loop: [state.items()] raises on a non-object before
    [int(user_id)] is evaluated; a later key overwrites an earlier one. *)
Fixpoint load_users (l : list (string * json)) (acc : gmap Z pydict) : py_exc + gmap Z pydict :=
  match l with
  | [] => inr acc
  | (k, v) :: l' =>
      match v with
      | JObj fields =>
          match py_int k with
          | Some u => load_users l' (<[u := restore_state fields]> acc)
          | None => inl ValueError
          end
      | _ => inl AttributeError
      end
  end.

(** [load_user_booking_state()] on the file ([None]: it does not
    exist): the restored dict, or the exception that escapes, and the
    file afterwards ([remove] runs only after a successful load). *)
Definition load_user_booking_state (file : option json) : (py_exc + gmap Z pydict) * option json :=
  match file with
  | None => (inr ∅, None)
  | Some (JObj users) =>
      match load_users users ∅ with
      | inl e => (inl e, file)
      | inr m => (inr m, None)
      end
  | Some _ => (inl AttributeError, file)
  end.

(** [restart_bot] followed by the start-up of the new process: the file
    [save_user_booking_state] writes is what [load_user_booking_state]
    reads. *)
Definition restart (ss : gmap Z pydict) : (py_exc + gmap Z pydict) * option json :=
  load_user_booking_state (Some (save_user_booking_state ss)).

(** The dates of a session are values the constructors accept. *)
Definition session_dates_valid (s : session) : Prop :=
  match s_check_in s with Some d => valid_date d | None => True end /\
  match s_check_out s with Some d => valid_date d | None => True end /\
  valid_datetime (s_created s).

(** ** The hand-off contract *)

(** What the spec asks of the snapshot: a state written at shutdown, and
    a load at start-up that gives it back and clears it. *)
Class SessionSnapshot (F : Type) := {
  snap_save : gmap Z pydict -> F;
  snap_load : option F -> (py_exc + gmap Z pydict) * option F
}.

Class SessionSnapshotOk (F : Type) `{SessionSnapshot F} (ok : pydict -> Prop) : Prop := {
  snap_load_save : forall ss, map_Forall (fun _ d => ok d) ss ->
    snap_load (Some (snap_save ss)) = (inr ss, None);
  snap_load_absent : snap_load None = (inr ∅, None)
}.

#[export] Instance file_snapshot : SessionSnapshot json := {
  snap_save := save_user_booking_state;
  snap_load := load_user_booking_state
}.

(** A dict the file carries unchanged. *)
Definition snapshot_safe (d : pydict) : Prop :=
  NoDup d.*1 /\ Forall (fun '(k, v) => restore_value k (save_value v) = v) d.

(** ** Lemmas *)

Definition save_state (st : pydict) : list (string * json) :=
  map (fun '(k, v) => (k, save_value v)) st.

Lemma restore_save_state d : snapshot_safe d -> restore_state (save_state d) = d.
Proof.
  intros [_ Hf]. induction Hf as [|[k v] d Hkv _ IH]; [done|].
  unfold restore_state, save_state in *. cbn [map]. by rewrite Hkv, IH.
Qed.

Lemma py_str_int_inj u1 u2 : py_str_int u1 = py_str_int u2 -> u1 = u2.
Proof. intros E. apply (inj Some). by rewrite <- !py_int_str, E. Qed.

Lemma load_users_saved (l : list (Z * pydict)) acc :
  NoDup l.*1 -> Forall (fun '(_, d) => snapshot_safe d) l ->
  load_users (map (fun '(u, st) => (py_str_int u, JObj (save_state st))) l) acc =
  inr (list_to_map l ∪ acc).
Proof.
  revert acc. induction l as [|[u d] l IH]; intros acc Hnd Hf; cbn [map load_users].
  - by rewrite list_to_map_nil, map_empty_union.
  - apply NoDup_cons in Hnd as [Hu Hnd]. apply Forall_cons in Hf as [Hd Hf].
    rewrite py_int_str, restore_save_state by done. rewrite IH by done.
    f_equal. rewrite <- insert_union_r, insert_union_l; [done|].
    by apply not_elem_of_list_to_map_1.
Qed.

Lemma restart_safe ss : map_Forall (fun _ d => snapshot_safe d) ss -> restart ss = (inr ss, None).
Proof.
  intros Hss. unfold restart, load_user_booking_state, save_user_booking_state.
  fold save_state. rewrite load_users_saved.
  - by rewrite list_to_map_to_list, map_union_empty.
  - apply NoDup_fst_map_to_list.
  - apply Forall_forall. intros [u d] Hin. apply elem_of_map_to_list in Hin.
    by apply (Hss u d).
Qed.

#[export] Instance file_snapshot_ok : SessionSnapshotOk json snapshot_safe.
Proof. split; [apply restart_safe|done]. Qed.

Lemma date_key_In k : In k date_keys -> bool_decide (k ∈ date_keys) = true.
Proof. intros Hk. apply bool_decide_eq_true_2, list_elem_of_In, Hk. Qed.

Lemma restore_value_date k d : k = "check_in" \/ k = "check_out" -> valid_date d ->
  restore_value k (save_value (PyDate d)) = PyDate d.
Proof.
  intros Hk Hd. destruct Hk as [->| ->]; unfold restore_value; cbn [save_value];
    rewrite date_key_In by (cbn; tauto); by rewrite fromisoformat_date_isoformat.
Qed.

Lemma session_dict_safe s : session_dates_valid s -> snapshot_safe (session_dict s).
Proof.
  intros (Hci & Hco & Hcr). split; [unfold session_dict; cbn; by repeat constructor; set_solver|].
  repeat constructor; unfold session_dict, opt_date.
  - destruct (s_check_in s); [by apply restore_value_date; [tauto|]|done].
  - destruct (s_check_out s); [by apply restore_value_date; [tauto|]|done].
  - unfold restore_value. cbn [save_value].
    rewrite date_key_In by (cbn; tauto).
    by rewrite fromisoformat_datetime_isoformat.
Qed.

(** The hand-off seen by a client of the contract. *)
Section Handoff.
Context {F : Type} `{SessionSnapshotOk F snapshot_safe}.

Lemma handoff_sessions (ss : gmap Z session) :
  map_Forall (fun _ s => session_dates_valid s) ss ->
  snap_load (Some (snap_save (session_dict <$> ss))) = (inr (session_dict <$> ss), None) /\
  snap_load None = (inr ∅, None).
Proof.
  intros Hss. split; [|apply snap_load_absent].
  apply snap_load_save. intros u d Hd. apply lookup_fmap_Some in Hd as (s & <- & Hs).
  apply session_dict_safe, (Hss u s Hs).
Qed.
End Handoff.

(** ** Properties *)

(** C27 A restart hands the sessions over intact: for every session dict
    whose dates are valid, the file written by [restart_bot]
    ([save_user_booking_state]) is loaded by the new process into the
    same dicts, and the file is removed. *)
Theorem restart_restores_sessions (ss : gmap Z session) :
  map_Forall (fun _ s => session_dates_valid s) ss ->
  restart (session_dict <$> ss) = (inr (session_dict <$> ss), None).
Proof. intros Hss. exact (proj1 (handoff_sessions ss Hss)). Qed.

Lemma restart_restores_sessions_witness :
  restart (session_dict <$> ({[200 := sc_session_B]} : gmap Z session)) =
  (inr (session_dict <$> ({[200 := sc_session_B]} : gmap Z session)), None).
Proof.
  apply restart_restores_sessions. apply map_Forall_singleton.
  split_and!; cbn; [apply valid_dateb_spec; reflexivity|done|apply valid_datetimeb_spec; reflexivity].
Defined.





(** A check-in that is not a valid date (here 30 February) is kept
    as a string and the file is removed: the restored dict is the dict
    of no session, so the date picker later compares a [date] with a
    [str]. *)
Example invalid_date_kept_as_string :
  let st := [("res_id", JInt 1); ("check_in", JStr "2024-02-30"); ("check_out", JNull);
             ("calendar_year", JInt 2024); ("calendar_month", JInt 2);
             ("created", JStr "2024-02-01T10:00:00")] in
  exists d, load_user_booking_state (Some (JObj [("5", JObj st)])) = (inr {[5 := d]}, None) /\
    In ("check_in", PyJson (JStr "2024-02-30")) d /\
    forall s, session_dict s <> d.
Proof.
  eexists. split; [vm_compute; reflexivity|]. split; [cbn; tauto|].
  intros s E. unfold session_dict, opt_date in E.
  destruct (s_check_in s); discriminate E.
Qed.
