(* ===== verification/Lifecycle.v ===== *)
(** * Lifecycle: the status of a [Booking] row and the payment handshake

    [main.py]: [callback_confirm_booking] creates the row in
    ["waiting_payment"] and sends the invoice (or marks the row
    ["failed"]), [handle_pre_checkout_query] validates the payment before
    money moves (status, dates, conflicting confirmed bookings, amount),
    [handle_successful_payment] confirms the row and stamps the amount,
    [callback_cancel_my_booking] cancels a booking whose check-in is in
    the future; [admin.py], [BookingAdmin.delete_model], refuses to
    delete a confirmed booking whose check-out is in the future.  The
    status state machine of the spec is [spec_step]; the theorems relate
    each handler to it, give the pre-checkout checks and the idempotence
    of confirmation, show that a pre-checkout followed at once by its
    payment keeps confirmed bookings disjoint, and exhibit the
    interleaving of two payments that confirms two overlapping ones. *)
From S2P Require Import Prelude Dates Models Availability Calendar Sessions.

(** The status transitions the spec allows. *)
Inductive spec_step : status -> status -> Prop :=
| step_failed : spec_step WaitingPayment Failed
| step_conflict : spec_step WaitingPayment Conflict
| step_confirmed : spec_step WaitingPayment Confirmed
| step_cancelled : spec_step Confirmed Cancelled.

Definition with_status (b : booking) (st : status) : booking :=
  mkBooking (b_id b) (b_telegram_id b) (b_resource b) (b_check_in b) (b_check_out b)
    (b_created b) st (b_amount b).

Definition with_paid (b : booking) (amount : Z) : booking :=
  mkBooking (b_id b) (b_telegram_id b) (b_resource b) (b_check_in b) (b_check_out b)
    (b_created b) Confirmed amount.

Definition set_db (w : world) (d : db) : world := mkWorld (w_sessions w) d.

(** [((check_out - check_in).days + 1) * price]: nights counted with
    both end points, in minor units. *)
Definition booking_amount (ci co : date) (price : Z) : Z := (days_between ci co + 1) * price.

(** [callback_confirm_booking]; [invoice_ok] is whether [send_invoice]
    returned (it raises on a refused invoice).  [telegram_id] is the
    chat id, the user's id in the private chat. *)
Definition callback_confirm_booking (w : world) (now : datetime) (user : Z) (invoice_ok : bool)
  : outcome :=
  match w_sessions w !! user with
  | None => mkOutcome w [UiText MsgLongSessionError; UiText MsgSessionError] None
  | Some s =>
      match s_check_in s, s_check_out s with
      | Some ci, Some co =>
          match resource_get_by_id (w_db w) (s_res_id s) with
          | inl e => mkOutcome w [] (Some e)
          | inr r =>
              let '(d1, b) := booking_create (w_db w)
                   (fun i => mkBooking i user (s_res_id s) (Some ci) (Some co) now WaitingPayment 0) in
              let amount := booking_amount ci co (r_price r) in
              let ss := delete user (w_sessions w) in
              if invoice_ok
              then mkOutcome (mkWorld ss d1) [UiInvoice (b_id b) amount; UiDeleteMessage] None
              else mkOutcome (mkWorld ss (booking_save d1 (with_status b Failed)))
                     [UiText MsgPaymentError; UiDeleteMessage] None
          end
      | _, _ => mkOutcome w [UiText MsgSessionError] None
      end
  end.

(** The [conflict_q] of the pre-checkout: another confirmed booking of
    the same resource with [check_in <= booking.check_out] and
    [check_out >= booking.check_in] (a [NULL] date satisfies neither). *)
Definition conflicts_with (b : booking) (ci co : date) (b' : booking) : bool :=
  (b_resource b' =? b_resource b) && negb (b_id b' =? b_id b) &&
  bool_decide (b_status b' = Confirmed) &&
  match b_check_in b', b_check_out b' with
  | Some s, Some e => date_leb s co && date_leb ci e
  | _, _ => false
  end.

(** [handle_pre_checkout_query]; [total] is [pre_q.total_amount]. The
    amount check sits in a [try] whose [except] passes, so a failing
    [booking.resource] lookup lets the payment through. *)
Definition handle_pre_checkout_query (w : world) (bid user : Z) (total : option Z) : outcome :=
  match booking_get_by_id (w_db w) bid with
  | inl e => mkOutcome w [] (Some e)
  | inr b =>
      if negb (bool_decide (b_status b = WaitingPayment))
      then mkOutcome w [UiPreCheckout false (Some MsgPreCheckoutError2)] None
      else match b_check_in b, b_check_out b with
      | Some ci, Some co =>
          if existsb (conflicts_with b ci co) (db_bookings (w_db w)) then
            mkOutcome (set_db w (booking_save (w_db w) (with_status b Conflict)))
              [UiPreCheckout false (Some MsgPreCheckoutError4); UiText MsgPaymentErrorNotification]
              None
          else match total, resource_get_by_id (w_db w) (b_resource b) with
               | Some t, inr r =>
                   if negb (t =? booking_amount ci co (r_price r))
                   then mkOutcome w [UiPreCheckout false (Some MsgWrongAmount)] None
                   else mkOutcome w [UiPreCheckout true None] None
               | _, _ => mkOutcome w [UiPreCheckout true None] None
               end
      | _, _ =>
          mkOutcome (set_db w (booking_save (w_db w) (with_status b Failed)))
            [UiPreCheckout false (Some MsgPreCheckoutError3)] None
      end
  end.

(** [handle_successful_payment]; [total] is [successful_payment.total_amount]
    and the stored [amount] is [total / 100] units, i.e. [total] minor
    units. *)
Definition handle_successful_payment (w : world) (bid user total : Z) : outcome :=
  match booking_get_by_id (w_db w) bid with
  | inl _ => mkOutcome w [UiText MsgErrorAfterPayment] None
  | inr b =>
      if bool_decide (b_status b = Confirmed)
      then mkOutcome w [UiText MsgAlreadyConfirmed] None
      else
        let w' := set_db w (booking_save (w_db w) (with_paid b total)) in
        match resource_get_by_id (w_db w) (b_resource b) with
        | inl e => mkOutcome w' [] (Some e)
        | inr _ => mkOutcome w' [UiNotifyManagers MsgBookingCompleted bid; UiText MsgSuccessBooking]
                     None
        end
  end.

(** [callback_cancel_my_booking]: refused when the check-in is today or
    earlier ([None <= today] raises [TypeError]). *)
Definition callback_cancel_my_booking (w : world) (today : date) (bid user : Z) : outcome :=
  match booking_get_by_id (w_db w) bid with
  | inl e => mkOutcome w [] (Some e)
  | inr b =>
      match b_check_in b with
      | None => mkOutcome w [] (Some TypeError)
      | Some ci =>
          if date_leb ci today then mkOutcome w [UiText MsgCancelError] None
          else
            let w' := set_db w (booking_save (w_db w) (with_status b Cancelled)) in
            match resource_get_by_id (w_db w) (b_resource b) with
            | inl e => mkOutcome w' [] (Some e)
            | inr _ => mkOutcome w' [UiNotifyManagers MsgBookingCanceled bid; UiText MsgCancelApply]
                         None
            end
      end
  end.

(** [BookingAdmin.delete_model]: [None] is the raised exception. *)
Definition admin_delete_model (d : db) (today : date) (b : booking) : option db :=
  if bool_decide (b_status b = Confirmed) &&
     match b_check_out b with Some co => date_ltb today co | None => false end
  then None
  else Some (booking_delete d (b_id b)).

(** ** Rows, saves and lookups *)

(** Every id in the table is below MySQL's next auto-increment id. *)
Definition ids_fresh (d : db) : Prop := Forall (fun b => b_id b < db_next_id d) (db_bookings d).

(** Two date ranges [ci1..co1] and [ci2..co2] share a day. *)
Definition overlap (ci1 co1 ci2 co2 : date) : bool := date_leb ci2 co1 && date_leb ci1 co2.

(** No two distinct confirmed bookings of a resource overlap. *)
Definition confirmed_disjoint (d : db) : Prop :=
  forall b1 b2 ci1 co1 ci2 co2,
    In b1 (db_bookings d) -> In b2 (db_bookings d) -> b_id b1 <> b_id b2 ->
    b_resource b1 = b_resource b2 -> b_status b1 = Confirmed -> b_status b2 = Confirmed ->
    b_check_in b1 = Some ci1 -> b_check_out b1 = Some co1 ->
    b_check_in b2 = Some ci2 -> b_check_out b2 = Some co2 ->
    overlap ci1 co1 ci2 co2 = false.

Definition ids_unique (d : db) : Prop := NoDup (map b_id (db_bookings d)).

Lemma booking_get_by_id_In d i b :
  booking_get_by_id d i = inr b -> In b (db_bookings d) /\ b_id b = i.
Proof.
  unfold booking_get_by_id. destruct (List.find _ _) eqn:F; [|done].
  intros E. injection E as <-. apply find_some in F as [Hin Hi].
  by apply Z.eqb_eq in Hi.
Qed.

Lemma In_booking_save d b x :
  In x (db_bookings (booking_save d b)) <->
  (x = b /\ exists y, In y (db_bookings d) /\ b_id y = b_id b) \/
  (In x (db_bookings d) /\ b_id x <> b_id b).
Proof.
  unfold booking_save. simpl. rewrite in_map_iff. split.
  - intros (y & <- & Hy). destruct (Z.eqb_spec (b_id y) (b_id b)); eauto.
  - intros [[-> (y & Hy & Hid)]|[Hx Hid]].
    + exists y. rewrite Hid, Z.eqb_refl. auto.
    + exists x. apply Z.eqb_neq in Hid. by rewrite Hid.
Qed.

Lemma find_save_map rows b' :
  (exists y, In y rows /\ b_id y = b_id b') ->
  List.find (fun x => b_id x =? b_id b')
    (map (fun x => if b_id x =? b_id b' then b' else x) rows) = Some b'.
Proof.
  induction rows as [|z rows IH]; simpl; [naive_solver|].
  intros (y & Hy & Hid). destruct (Z.eqb_spec (b_id z) (b_id b')) as [E|E]; simpl.
  - by rewrite Z.eqb_refl.
  - rewrite (proj2 (Z.eqb_neq _ _) E). apply IH.
    destruct Hy as [<-|Hy]; [done|eauto].
Qed.

(** After [save], reading the row back by its id gives the saved row. *)
Lemma booking_get_by_id_save d b b' :
  booking_get_by_id d (b_id b') = inr b ->
  booking_get_by_id (booking_save d b') (b_id b') = inr b'.
Proof.
  intros F. apply booking_get_by_id_In in F as [Hin Hid].
  unfold booking_get_by_id, booking_save. simpl.
  rewrite find_save_map; eauto.
Qed.

Lemma overlap_sym a b c e : overlap a b c e = overlap c e a b.
Proof. unfold overlap. apply andb_comm. Qed.

#[export] Hint Resolve booking_get_by_id_In : booking.

(** ** The payment handshake *)

(** After a successful-payment notification for an existing booking the
    row reads back as confirmed: the old row if it already was, the row
    with the paid amount otherwise. *)
Lemma successful_payment_confirms w bid user t b :
  booking_get_by_id (w_db w) bid = inr b ->
  exists b1, booking_get_by_id (w_db (o_world (handle_successful_payment w bid user t))) bid = inr b1 /\
    b_status b1 = Confirmed /\
    b1 = (if bool_decide (b_status b = Confirmed) then b else with_paid b t).
Proof.
  intros Hb. unfold handle_successful_payment. rewrite Hb.
  destruct (bool_decide (b_status b = Confirmed)) eqn:Hc.
  - apply bool_decide_eq_true in Hc. exists b. auto.
  - exists (with_paid b t).
    assert (booking_get_by_id (booking_save (w_db w) (with_paid b t)) bid = inr (with_paid b t))
      as Hget.
    { pose proof (booking_get_by_id_In _ _ _ Hb) as [_ <-].
      exact (booking_get_by_id_save (w_db w) b (with_paid b t) Hb). }
    by destruct (resource_get_by_id (w_db w) (b_resource b)).
Qed.

(** C6 Final confirmation is idempotent: after a successful-payment
    notification for an existing booking, a second notification for the
    same booking changes nothing (the amount stays as stamped), sends no
    notification to the managers and only tells the payer the booking is
    already confirmed. *)
Theorem successful_payment_idempotent w bid user t1 t2 b :
  booking_get_by_id (w_db w) bid = inr b ->
  let w1 := o_world (handle_successful_payment w bid user t1) in
  handle_successful_payment w1 bid user t2 = mkOutcome w1 [UiText MsgAlreadyConfirmed] None.
Proof.
  intros Hb w1.
  destruct (successful_payment_confirms w bid user t1 b Hb) as (b1 & Hb1 & Hc1 & _).
  subst w1. unfold handle_successful_payment at 1. rewrite Hb1.
  by rewrite bool_decide_eq_true_2.
Qed.

Lemma successful_payment_idempotent_witness :
  let w := mkWorld ∅ (mkDb [with_status sc_booking_A WaitingPayment] (db_resources sc_db) 2) in
  let w1 := o_world (handle_successful_payment w 1 100 30000) in
  handle_successful_payment w1 1 100 30000 = mkOutcome w1 [UiText MsgAlreadyConfirmed] None.
Proof.
  intros w w1. apply (successful_payment_idempotent w 1 100 30000 30000
                        (with_status sc_booking_A WaitingPayment)).
  reflexivity.
Defined.

(** What an accepted pre-checkout has checked. *)
Lemma pre_checkout_accepted_facts w bid user total b :
  booking_get_by_id (w_db w) bid = inr b ->
  In (UiPreCheckout true None) (o_ui (handle_pre_checkout_query w bid user total)) ->
  b_status b = WaitingPayment /\
  exists ci co, b_check_in b = Some ci /\ b_check_out b = Some co /\
    existsb (conflicts_with b ci co) (db_bookings (w_db w)) = false /\
    match total, resource_get_by_id (w_db w) (b_resource b) with
    | Some t, inr r => t = booking_amount ci co (r_price r)
    | _, _ => True
    end.
Proof.
  intros Hb. unfold handle_pre_checkout_query. rewrite Hb.
  destruct (bool_decide (b_status b = WaitingPayment)) eqn:Hw; simpl;
    [|intuition congruence].
  apply bool_decide_eq_true in Hw.
  destruct (b_check_in b) as [ci|], (b_check_out b) as [co|]; simpl; try intuition congruence.
  destruct (existsb _ _) eqn:Hx; simpl; [intuition congruence|].
  intros Hacc. split; [done|]. exists ci, co. split_and!; try done.
  destruct total as [t|], (resource_get_by_id (w_db w) (b_resource b)) as [|r]; try done.
  destruct (Z.eqb_spec t (booking_amount ci co (r_price r))); simpl in *; [done|].
  intuition congruence.
Qed.

(** The checks a pre-checkout makes, all passed: it accepts. *)
Lemma pre_checkout_accepts_of w bid user total b :
  booking_get_by_id (w_db w) bid = inr b -> b_status b = WaitingPayment ->
  forall ci co, b_check_in b = Some ci -> b_check_out b = Some co ->
  existsb (conflicts_with b ci co) (db_bookings (w_db w)) = false ->
  match total, resource_get_by_id (w_db w) (b_resource b) with
  | Some t, inr r => t = booking_amount ci co (r_price r)
  | _, _ => True
  end ->
  In (UiPreCheckout true None) (o_ui (handle_pre_checkout_query w bid user total)).
Proof.
  intros Hb Hw ci co Hci Hco Hx Ht.
  unfold handle_pre_checkout_query. rewrite Hb, bool_decide_eq_true_2 by done. simpl.
  rewrite Hci, Hco, Hx.
  destruct total as [t|], (resource_get_by_id (w_db w) (b_resource b)) as [|r]; simpl; auto.
  subst t. rewrite Z.eqb_refl. simpl. auto.
Qed.

(** C5 Pre-checkout validation accepts a payment exactly when the
    booking is waiting for payment, both dates are set, no other
    confirmed booking of the resource overlaps it, and the proposed
    amount equals nights (both ends counted) times the nightly price,
    or the amount cannot be checked (no amount in the query, or the
    resource row is gone: the [except: pass]); acceptance leaves the
    database unchanged. *)
Theorem pre_checkout_accepts_iff w bid user total b :
  booking_get_by_id (w_db w) bid = inr b ->
  In (UiPreCheckout true None) (o_ui (handle_pre_checkout_query w bid user total)) <->
  b_status b = WaitingPayment /\
  exists ci co, b_check_in b = Some ci /\ b_check_out b = Some co /\
    existsb (conflicts_with b ci co) (db_bookings (w_db w)) = false /\
    match total, resource_get_by_id (w_db w) (b_resource b) with
    | Some t, inr r => t = booking_amount ci co (r_price r)
    | _, _ => True
    end.
Proof.
  intros Hb. split; [by apply pre_checkout_accepted_facts|].
  intros (Hw & ci & co & Hci & Hco & Hx & Ht). by eapply pre_checkout_accepts_of.
Qed.

Lemma pre_checkout_accepts_iff_witness :
  let w := mkWorld ∅ (mkDb [with_status sc_booking_A WaitingPayment] (db_resources sc_db) 2) in
  In (UiPreCheckout true None) (o_ui (handle_pre_checkout_query w 1 100 (Some 30000))).
Proof.
  intros w. apply (pre_checkout_accepts_iff w 1 100 (Some 30000) (with_status sc_booking_A WaitingPayment));
    [reflexivity|].
  split; [reflexivity|]. exists (mkDate 2024 6 10), (mkDate 2024 6 12).
  split_and!; vm_compute; reflexivity.
Defined.

(** An accepted pre-checkout writes nothing. *)
Lemma pre_checkout_accepted_world w bid user total :
  In (UiPreCheckout true None) (o_ui (handle_pre_checkout_query w bid user total)) ->
  o_world (handle_pre_checkout_query w bid user total) = w.
Proof.
  unfold handle_pre_checkout_query.
  destruct (booking_get_by_id (w_db w) bid) as [|b]; [done|].
  destruct (negb _); [done|].
  destruct (b_check_in b), (b_check_out b); simpl; try intuition congruence.
  destruct (existsb _ _); simpl; [intuition congruence|].
  destruct total, (resource_get_by_id (w_db w) (b_resource b)); try done.
  by destruct (negb _).
Qed.

(** A row that passed the conflict query overlaps no other confirmed row. *)
Lemma no_conflict_no_overlap b ci co rows b2 s e :
  existsb (conflicts_with b ci co) rows = false -> In b2 rows -> b_id b2 <> b_id b ->
  b_resource b2 = b_resource b -> b_status b2 = Confirmed ->
  b_check_in b2 = Some s -> b_check_out b2 = Some e -> overlap ci co s e = false.
Proof.
  intros Hx Hin Hid Hr Hst Hs He.
  pose proof (proj1 (existsb_false_forall _ _) Hx b2 Hin) as Hc.
  unfold conflicts_with in Hc. rewrite Hr, Z.eqb_refl, (proj2 (Z.eqb_neq _ _) Hid),
    bool_decide_eq_true_2, Hs, He in Hc by done.
  exact Hc.
Qed.

(** C1 Pre-checkout and payment as one step keep confirmed bookings
    disjoint: if no two confirmed bookings of a resource overlap, a
    pre-checkout that accepts a booking followed directly by the
    successful-payment notification for it leaves them so. *)
Theorem precheckout_then_payment_disjoint w bid user total t b :
  confirmed_disjoint (w_db w) -> booking_get_by_id (w_db w) bid = inr b ->
  In (UiPreCheckout true None) (o_ui (handle_pre_checkout_query w bid user total)) ->
  confirmed_disjoint
    (w_db (o_world (handle_successful_payment
                      (o_world (handle_pre_checkout_query w bid user total)) bid user t))).
Proof.
  intros Hdis Hb Hacc.
  pose proof (pre_checkout_accepted_world _ _ _ _ Hacc) as ->.
  apply (pre_checkout_accepted_facts w bid user total b Hb) in Hacc
    as (Hw & ci & co & Hci & Hco & Hx & _).
  pose proof (booking_get_by_id_In _ _ _ Hb) as [Hin Hid].
  assert (w_db (o_world (handle_successful_payment w bid user t)) =
          booking_save (w_db w) (with_paid b t)) as ->.
  { unfold handle_successful_payment. rewrite Hb, bool_decide_eq_false_2 by congruence.
    by destruct (resource_get_by_id _ _). }
  intros b1 b2 ci1 co1 ci2 co2 H1 H2 Hne Hr Hs1 Hs2 Hi1 Ho1 Hi2 Ho2.
  apply In_booking_save in H1 as [[-> _]|[H1 Hn1]];
  apply In_booking_save in H2 as [[-> _]|[H2 Hn2]]; simpl in *.
  - done.
  - rewrite Hci in Hi1. rewrite Hco in Ho1. injection Hi1 as <-. injection Ho1 as <-.
    eapply no_conflict_no_overlap; eauto.
  - rewrite Hci in Hi2. rewrite Hco in Ho2. injection Hi2 as <-. injection Ho2 as <-.
    rewrite overlap_sym. eapply no_conflict_no_overlap; eauto.
  - eauto.
Qed.

Lemma precheckout_then_payment_disjoint_witness :
  let w := mkWorld ∅ (mkDb [with_status sc_booking_A WaitingPayment] (db_resources sc_db) 2) in
  confirmed_disjoint
    (w_db (o_world (handle_successful_payment
                      (o_world (handle_pre_checkout_query w 1 100 (Some 30000))) 1 100 30000))).
Proof.
  intros w. apply (precheckout_then_payment_disjoint w 1 100 (Some 30000) 30000
                     (with_status sc_booking_A WaitingPayment)).
  - intros b1 b2 ? ? ? ? [<-|[]] [<-|[]] Hne. done.
  - reflexivity.
  - vm_compute. left. reflexivity.
Defined.

(** Saving a row leaves the rows with other ids as they were read. *)
Lemma booking_get_by_id_save_ne d b' i :
  b_id b' <> i -> booking_get_by_id (booking_save d b') i = booking_get_by_id d i.
Proof.
  intros Hne. unfold booking_get_by_id, booking_save. cbn [db_bookings].
  assert (forall rows, List.find (fun b => b_id b =? i)
            (map (fun x => if b_id x =? b_id b' then b' else x) rows) =
          List.find (fun b => b_id b =? i) rows) as ->; [|done].
  induction rows as [|x rows IH]; [done|]. cbn [map List.find].
  destruct (Z.eqb_spec (b_id x) (b_id b')) as [E|E]; cbn [List.find].
  - rewrite (proj2 (Z.eqb_neq (b_id b') i) Hne), (proj2 (Z.eqb_neq (b_id x) i)) by congruence.
    exact IH.
  - by rewrite IH.
Qed.

(** A payment notification for a booking that is not yet confirmed
    saves it as confirmed with the amount, touching no other row. *)
Lemma successful_payment_db w bid user t b :
  booking_get_by_id (w_db w) bid = inr b -> b_status b <> Confirmed ->
  w_db (o_world (handle_successful_payment w bid user t)) = booking_save (w_db w) (with_paid b t).
Proof.
  intros Hb Hc. unfold handle_successful_payment. rewrite Hb, bool_decide_eq_false_2 by done.
  by destruct (resource_get_by_id (w_db w) (b_resource b)).
Qed.

(** C2 Optimistic concurrency lets an overlap through: for any two
    bookings of one resource waiting for payment with overlapping dates,
    neither of which overlaps a confirmed booking, when both
    pre-checkouts (with the right amounts) run before either payment
    lands, both are accepted, and the two successful-payment
    notifications then confirm both, so two confirmed bookings of the
    resource overlap: [handle_successful_payment] does not re-check. *)
Theorem concurrent_payments_confirm_overlap w bA bB uA uB r ciA coA ciB coB :
  booking_get_by_id (w_db w) (b_id bA) = inr bA -> booking_get_by_id (w_db w) (b_id bB) = inr bB ->
  b_id bA <> b_id bB -> b_resource bA = b_resource bB ->
  resource_get_by_id (w_db w) (b_resource bA) = inr r ->
  b_status bA = WaitingPayment -> b_status bB = WaitingPayment ->
  b_check_in bA = Some ciA -> b_check_out bA = Some coA ->
  b_check_in bB = Some ciB -> b_check_out bB = Some coB ->
  overlap ciA coA ciB coB = true ->
  existsb (conflicts_with bA ciA coA) (db_bookings (w_db w)) = false ->
  existsb (conflicts_with bB ciB coB) (db_bookings (w_db w)) = false ->
  let tA := booking_amount ciA coA (r_price r) in
  let tB := booking_amount ciB coB (r_price r) in
  let o1 := handle_pre_checkout_query w (b_id bA) uA (Some tA) in
  let o2 := handle_pre_checkout_query (o_world o1) (b_id bB) uB (Some tB) in
  let o3 := handle_successful_payment (o_world o2) (b_id bA) uA tA in
  let o4 := handle_successful_payment (o_world o3) (b_id bB) uB tB in
  In (UiPreCheckout true None) (o_ui o1) /\ In (UiPreCheckout true None) (o_ui o2) /\
  ~ confirmed_disjoint (w_db (o_world o4)).
Proof.
  intros HA HB Hne Hr Hres HwA HwB HiA HoA HiB HoB Hov HxA HxB tA tB o1 o2 o3 o4.
  assert (In (UiPreCheckout true None) (o_ui o1)) as Acc1.
  { apply (pre_checkout_accepts_of w _ uA (Some tA) bA HA HwA ciA coA HiA HoA HxA).
    by rewrite Hres. }
  assert (o_world o1 = w) as W1 by apply (pre_checkout_accepted_world _ _ _ _ Acc1).
  assert (In (UiPreCheckout true None) (o_ui o2)) as Acc2.
  { subst o2. rewrite W1. apply (pre_checkout_accepts_of w _ uB (Some tB) bB HB HwB ciB coB HiB HoB HxB).
    by rewrite <- Hr, Hres. }
  assert (o_world o2 = w) as W2 by (subst o2; rewrite W1 in Acc2 |- *;
                                    apply (pre_checkout_accepted_world _ _ _ _ Acc2)).
  split_and!; [done|done|]. intros Hdis.
  assert (w_db (o_world o3) = booking_save (w_db w) (with_paid bA tA)) as D3.
  { subst o3. rewrite W2. apply successful_payment_db; [done|by rewrite HwA]. }
  assert (w_db (o_world o4) = booking_save (w_db (o_world o3)) (with_paid bB tB)) as D4.
  { apply successful_payment_db; [|by rewrite HwB].
    rewrite D3, booking_get_by_id_save_ne by done. exact HB. }
  apply booking_get_by_id_In in HA as [HinA _]. apply booking_get_by_id_In in HB as [HinB _].
  assert (overlap ciA coA ciB coB = false) as Hf; [|congruence].
  apply (Hdis (with_paid bA tA) (with_paid bB tB)); try done; rewrite D4, In_booking_save.
  - right. split; [|done]. rewrite D3, In_booking_save. left. eauto.
  - left. split; [done|]. exists bB. split; [|done].
    rewrite D3, In_booking_save. right. split; [done|]. cbn. congruence.
Qed.

Lemma concurrent_payments_confirm_overlap_witness :
  let bA := mkBooking 1 100 1 (Some (mkDate 2024 6 10)) (Some (mkDate 2024 6 12)) sc_now
              WaitingPayment 0 in
  let bB := mkBooking 2 200 1 (Some (mkDate 2024 6 11)) (Some (mkDate 2024 6 13)) sc_now
              WaitingPayment 0 in
  let w := mkWorld ∅ (mkDb [bA; bB] (db_resources sc_db) 3) in
  let r := mkResource "Main st. 1" 10000 None 1 sc_now sc_now in
  let tA := booking_amount (mkDate 2024 6 10) (mkDate 2024 6 12) (r_price r) in
  let tB := booking_amount (mkDate 2024 6 11) (mkDate 2024 6 13) (r_price r) in
  let o1 := handle_pre_checkout_query w 1 100 (Some tA) in
  let o2 := handle_pre_checkout_query (o_world o1) 2 200 (Some tB) in
  let o3 := handle_successful_payment (o_world o2) 1 100 tA in
  let o4 := handle_successful_payment (o_world o3) 2 200 tB in
  In (UiPreCheckout true None) (o_ui o1) /\ In (UiPreCheckout true None) (o_ui o2) /\
  ~ confirmed_disjoint (w_db (o_world o4)).
Proof.
  intros bA bB w r tA tB o1 o2 o3 o4.
  apply (concurrent_payments_confirm_overlap w bA bB 100 200 r (mkDate 2024 6 10) (mkDate 2024 6 12)
           (mkDate 2024 6 11) (mkDate 2024 6 13)); try reflexivity; discriminate.
Defined.

(** ** Cancellation *)

(** C9 A booking is cancelled exactly when its check-in is strictly
    after today: then the row reads back with status [cancelled] and the
    managers are told; otherwise nothing is written and the user sees the
    cancellation error. *)
Theorem cancel_spec w today bid user b ci :
  booking_get_by_id (w_db w) bid = inr b -> b_check_in b = Some ci ->
  let o := callback_cancel_my_booking w today bid user in
  (today <d ci ->
     booking_get_by_id (w_db (o_world o)) bid = inr (with_status b Cancelled)) /\
  (ci <=d today -> o = mkOutcome w [UiText MsgCancelError] None).
Proof.
  intros Hb Hci o. subst o. unfold callback_cancel_my_booking. rewrite Hb, Hci.
  rewrite date_ltb_negb_leb. split.
  - destruct (date_leb ci today); [done|]. intros _.
    pose proof (booking_get_by_id_In _ _ _ Hb) as [_ <-].
    pose proof (booking_get_by_id_save (w_db w) b (with_status b Cancelled) Hb) as Hs.
    by destruct (resource_get_by_id (w_db w) (b_resource b)).
  - by intros ->.
Qed.

Lemma cancel_spec_witness :
  let w := mkWorld ∅ sc_db in
  booking_get_by_id (w_db (o_world (callback_cancel_my_booking w (mkDate 2024 6 9) 1 100))) 1 =
    inr (with_status sc_booking_A Cancelled) /\
  callback_cancel_my_booking w (mkDate 2024 6 10) 1 100 = mkOutcome w [UiText MsgCancelError] None.
Proof.
  intros w. split.
  - apply (cancel_spec w (mkDate 2024 6 9) 1 100 sc_booking_A (mkDate 2024 6 10));
      reflexivity.
  - apply (cancel_spec w (mkDate 2024 6 10) 1 100 sc_booking_A (mkDate 2024 6 10));
      reflexivity.
Defined.

(** ** Creating the booking *)

Lemma save_map_fresh rows k (b : booking) :
  Forall (fun x => b_id x < k) rows ->
  map (fun x => if b_id x =? k then b else x) rows = rows.
Proof.
  induction 1 as [|x rows Hx _ IH]; [done|]. simpl.
  rewrite (proj2 (Z.eqb_neq _ _)) by lia. by rewrite IH.
Qed.

(** C8 Confirming a completed selection creates exactly one booking
    row, with the next id, the session's resource and dates, status
    [waiting_payment] (or [failed] when the invoice cannot be sent), and
    removes the session; when the invoice is sent it charges nights
    (both ends counted) times the nightly price. *)
Theorem confirm_booking_creates w now user ok s ci co r :
  ids_fresh (w_db w) ->
  w_sessions w !! user = Some s -> s_check_in s = Some ci -> s_check_out s = Some co ->
  resource_get_by_id (w_db w) (s_res_id s) = inr r ->
  let o := callback_confirm_booking w now user ok in
  let nb := mkBooking (db_next_id (w_db w)) user (s_res_id s) (Some ci) (Some co) now
              (if ok then WaitingPayment else Failed) 0 in
  w_sessions (o_world o) = delete user (w_sessions w) /\
  db_bookings (w_db (o_world o)) = db_bookings (w_db w) ++ [nb] /\
  ids_fresh (w_db (o_world o)) /\
  (ok = true ->
   o_ui o = [UiInvoice (db_next_id (w_db w)) (booking_amount ci co (r_price r)); UiDeleteMessage]).
Proof.
  intros Hf Hs Hci Hco Hr o nb. subst o nb.
  unfold callback_confirm_booking. rewrite Hs, Hci, Hco, Hr. simpl.
  assert (ids_fresh (mkDb (db_bookings (w_db w) ++
            [mkBooking (db_next_id (w_db w)) user (s_res_id s) (Some ci) (Some co) now
               (if ok then WaitingPayment else Failed) 0])
            (db_resources (w_db w)) (db_next_id (w_db w) + 1))) as Hf'.
  { unfold ids_fresh in *. simpl. apply Forall_app. split; [|repeat constructor; simpl; lia].
    eapply Forall_impl; [exact Hf|]. simpl. lia. }
  destruct ok; simpl; [done|].
  unfold booking_save. simpl. rewrite map_app, save_map_fresh by done. simpl.
  rewrite Z.eqb_refl. done.
Qed.

Lemma confirm_booking_creates_witness :
  let s := mkSession 1 (Some (mkDate 2024 6 10)) (Some (mkDate 2024 6 12)) 2024 6 sc_now in
  let w := mkWorld {[100 := s]} (mkDb [] (db_resources sc_db) 1) in
  o_ui (callback_confirm_booking w sc_now 100 true) = [UiInvoice 1 30000; UiDeleteMessage].
Proof.
  intros s w.
  refine (proj2 (proj2 (proj2 (confirm_booking_creates w sc_now 100 true s (mkDate 2024 6 10)
            (mkDate 2024 6 12) (mkResource "Main st. 1" 10000 None 1 sc_now sc_now) _ _ _ _ _))) eq_refl);
    [constructor|reflexivity..].
Defined.

(** The charge of the spec's scenario: a stay from 2024-06-10 to
    2024-06-12 at 100.00 a night is invoiced 30000 minor units, three
    nights counted with both ends as in the pre-checkout rule, while the
    spec's scenario expects two nights (20000). *)
Example scenario_charge_three_nights :
  booking_amount (mkDate 2024 6 10) (mkDate 2024 6 12) 10000 = 30000 /\
  booking_amount (mkDate 2024 6 10) (mkDate 2024 6 12) 10000 <> 2 * 10000.
Proof. split; [reflexivity|discriminate]. Qed.

(** ** The status state machine *)


Lemma ids_unique_eq d b1 b2 :
  ids_unique d -> In b1 (db_bookings d) -> In b2 (db_bookings d) -> b_id b1 = b_id b2 -> b1 = b2.
Proof.
  unfold ids_unique. induction (db_bookings d) as [|x rows IH]; simpl; [done|].
  intros Hnd H1 H2 Hid. inversion Hnd as [|? ? Hx Hnd']; subst.
  destruct H1 as [<-|H1], H2 as [<-|H2]; auto.
  - exfalso. apply Hx. rewrite Hid. apply list_elem_of_In. by apply in_map.
  - exfalso. apply Hx. rewrite <- Hid. apply list_elem_of_In. by apply in_map.
Qed.

(** C7 Pre-checkout validation writes at most one status change, and
    only along the spec's state machine: either the world is left as it
    was, or the booking asked about was waiting for payment and is saved
    with status [failed] (a date missing) or [conflict] (an overlapping
    confirmed booking), every other column and row unchanged. *)
Theorem pre_checkout_follows_spec w bid user total :
  let o := handle_pre_checkout_query w bid user total in
  o_world o = w \/
  exists b st, booking_get_by_id (w_db w) bid = inr b /\ b_status b = WaitingPayment /\
    (st = Failed \/ st = Conflict) /\ spec_step (b_status b) st /\
    o_world o = set_db w (booking_save (w_db w) (with_status b st)).
Proof.
  unfold handle_pre_checkout_query.
  destruct (booking_get_by_id (w_db w) bid) as [|b] eqn:Hb; [by left|].
  destruct (negb (bool_decide (b_status b = WaitingPayment))) eqn:Hw; [by left|].
  apply negb_false_iff, bool_decide_eq_true in Hw.
  destruct (b_check_in b), (b_check_out b);
    try (right; exists b, Failed; rewrite Hw; split_and!; auto; constructor).
  destruct (existsb _ _); [right; exists b, Conflict; rewrite Hw; split_and!; auto; constructor|].
  left. destruct total, (resource_get_by_id (w_db w) (b_resource b)); try done.
  by destruct (negb _).
Qed.
