(* ===== verification/Views.v ===== *)
(** * Views: the user's booking list and the booking card

    [main.py]: [all_my_bookings] (the /bookings command, and the list
    redrawn after [callback_my_booking] and [callback_cancel_my_booking])
    lists the user's confirmed bookings whose check-out is after today,
    latest check-in first, one button per booking leading to
    ["res:<booking id>:!"]; [callback_resource] with the page ["!"] shows
    the card of that booking, with a cancel button when its check-in is
    after today, and otherwise (a page of the catalogue) the card of a
    resource with "back" and "book" buttons.  The texts of the card and
    the photo gallery are I/O; the message ids of the gallery that
    Telegram returns are an input.  The theorems give the list as a
    query, show that the card offers cancellation exactly when
    [callback_cancel_my_booking] would perform it, and that a performed
    cancellation takes the booking off the redrawn list. *)
From S2P Require Import Prelude Dates Iso Models Availability Sessions Lifecycle.
From stdpp Require Import sorting.
Open Scope Z_scope.

(** [order_by(Booking.check_in.desc())]; MySQL sorts [NULL] first in
    ascending order, hence last in descending order. *)
Definition check_in_desc (a b : booking) : Prop :=
  match b_check_in a, b_check_in b with
  | Some x, Some y => date_leb y x = true
  | Some _, None => True
  | None, Some _ => False
  | None, None => True
  end.

#[export] Instance check_in_desc_dec : RelDecision check_in_desc.
Proof.
  intros a b. unfold check_in_desc.
  destruct (b_check_in a), (b_check_in b); apply _.
Defined.

(** The [where] clause: [telegram_id == user_id & status == "confirmed"
    & check_out > today]; a [NULL] check-out compares as unknown. *)
Definition my_bookings_cond (today : date) (user : Z) (b : booking) : bool :=
  (b_telegram_id b =? user) && bool_decide (b_status b = Confirmed) &&
  match b_check_out b with Some co => date_ltb today co | None => false end.

Definition my_bookings (d : db) (today : date) (user : Z) : list booking :=
  merge_sort check_in_desc (List.filter (my_bookings_cond today user) (db_bookings d)).

(** A button of the list: [f"{b.resource.location} ({b.check_in} →
    {b.check_out})"] with [callback_data=f"res:{b.id}:!"]. *)
Record booking_button := mkBookingButton {
  bb_location : string; bb_check_in : option date; bb_check_out : option date; bb_booking : Z }.

(** [b.resource] loads the resource row and raises when it is gone. *)
Fixpoint booking_buttons (d : db) (bs : list booking) : py_exc + list booking_button :=
  match bs with
  | [] => inr []
  | b :: bs' =>
      match resource_get_by_id d (b_resource b) with
      | inl e => inl e
      | inr r =>
          match booking_buttons d bs' with
          | inl e => inl e
          | inr rest => inr (mkBookingButton (r_location r) (b_check_in b) (b_check_out b) (b_id b) :: rest)
          end
      end
  end.

(** What [all_my_bookings] shows: [edit_msg_text], when given, is the
    text of the edited message. *)
Inductive bookings_view :=
| BookingsNotFound (prefix : option msg)     (** [f"{edit_msg_text or ''}{texts.bookings_not_found}"] *)
| BookingsList (text : option msg) (buttons : list booking_button).
                                             (** [None]: [texts.my_bookings] *)

(** [all_my_bookings(message, edit_msg_text)]. *)
Definition all_my_bookings (d : db) (today : date) (user : Z) (edit : option msg) : py_exc + bookings_view :=
  match my_bookings d today user with
  | [] => inr (BookingsNotFound edit)
  | bs =>
      match booking_buttons d bs with
      | inl e => inl e
      | inr bbs => inr (BookingsList edit bbs)
      end
  end.

(** [callback_my_booking]: the gallery is removed and the list redrawn. *)
Definition callback_my_booking (d : db) (today : date) (user : Z) : py_exc + bookings_view :=
  all_my_bookings d today user (Some MsgMyBookings).

(** [callback_cancel_my_booking] with the list it redraws: the text is
    [texts.cancel_error] when the check-in has come, [texts.cancel_apply]
    after a cancellation. *)
Definition cancel_my_booking_view (w : world) (today : date) (bid user : Z) :
    outcome * option (py_exc + bookings_view) :=
  let o := callback_cancel_my_booking w today bid user in
  match o_exc o, o_ui o with
  | None, [UiText MsgCancelError] =>
      (o, Some (all_my_bookings (w_db (o_world o)) today user (Some MsgCancelError)))
  | None, _ => (o, Some (all_my_bookings (w_db (o_world o)) today user (Some MsgCancelApply)))
  | Some _, _ => (o, None)
  end.

(** The buttons of a card. *)
Inductive card_button :=
| CardMyBookings (remove_ids : list Z)              (** ["my_booking:<ids>"] *)
| CardCancel (booking_id : Z) (remove_ids : list Z) (** ["cancel_my_booking:<id>:<ids>"] *)
| CardPage (page : string) (remove_ids : list Z)    (** ["page:<page>:<ids>"] *)
| CardBook (res_id : Z) (page : string) (remove_ids : list Z).  (** ["book:<id>:<page>:<ids>"] *)

(** What [callback_resource] shows. *)
Inductive card_view :=
| CardWrongId                                       (** [texts.wrong_id] *)
| CardNotFound                                      (** [texts.not_found] *)
| Card (res : resource) (dates : option (option date * option date)) (buttons : list card_button).

(** [callback_resource] on ["res:<sid>:<page>"]; [gallery] is the list
    of message ids of the media group Telegram returns (empty when the
    resource has no image file).  With the page ["!"], [sid] is a
    booking id and [Booking.get_by_id] raises when there is no such
    booking (outside the [try]); [int(sid)] raises [ValueError], which is
    caught; the check-in test raises [TypeError] on [None]. *)
Definition callback_resource (d : db) (today : date) (sid page : string) (gallery : list Z) :
    py_exc + card_view :=
  let booking :=
    if String.eqb page "!" then
      match py_int sid with
      | Some i => match booking_get_by_id d i with inl e => inl e | inr b => inr (Some b) end
      | None => inl DoesNotExist
      end
    else inr None in
  match booking with
  | inl e => inl e
  | inr ob =>
      let res_id := match ob with Some b => Some (b_resource b) | None => py_int sid end in
      match res_id with
      | None => inr CardWrongId
      | Some rid =>
          match resource_get_by_id d rid with
          | inl _ => inr CardNotFound
          | inr r =>
              match ob with
              | Some b =>
                  match b_check_in b with
                  | None => inl TypeError
                  | Some ci =>
                      inr (Card r (Some (b_check_in b, b_check_out b))
                             (CardMyBookings gallery ::
                              if date_ltb today ci then [CardCancel (b_id b) gallery] else []))
                  end
              | None => inr (Card r None [CardPage page gallery; CardBook rid page gallery])
              end
          end
      end
  end.

(** ** Lemmas *)

#[export] Instance check_in_desc_total : Total check_in_desc.
Proof.
  intros a b. unfold check_in_desc.
  destruct (b_check_in a) as [x|], (b_check_in b) as [y|]; auto.
  unfold date_leb. rewrite (date_compare_antisym y x).
  destruct (date_compare y x); cbn; auto.
Qed.

Lemma my_bookings_In d today user b :
  In b (my_bookings d today user) <-> In b (db_bookings d) /\ my_bookings_cond today user b = true.
Proof.
  unfold my_bookings. rewrite <- list_elem_of_In, (merge_sort_Permutation _ _), list_elem_of_In.
  apply in_filter_iff.
Qed.

Lemma my_bookings_cond_cancelled today user b :
  my_bookings_cond today user (with_status b Cancelled) = false.
Proof. unfold my_bookings_cond. cbn. by rewrite andb_false_r, andb_false_l. Qed.

Lemma booking_card d today bid gallery b r ci :
  booking_get_by_id d bid = inr b -> resource_get_by_id d (b_resource b) = inr r ->
  b_check_in b = Some ci ->
  callback_resource d today (py_str_int bid) "!" gallery =
  inr (Card r (Some (Some ci, b_check_out b))
         (CardMyBookings gallery :: if date_ltb today ci then [CardCancel (b_id b) gallery] else [])).
Proof.
  intros Hb Hr Hci. unfold callback_resource. cbn [String.eqb Ascii.eqb Bool.eqb].
  rewrite py_int_str, Hb. cbn iota beta. by rewrite Hr, Hci.
Qed.

(** The outcome of a cancellation that goes through. *)
Lemma cancel_goes_through w today bid user b ci r :
  booking_get_by_id (w_db w) bid = inr b -> b_check_in b = Some ci -> date_ltb today ci = true ->
  resource_get_by_id (w_db w) (b_resource b) = inr r ->
  callback_cancel_my_booking w today bid user =
  mkOutcome (set_db w (booking_save (w_db w) (with_status b Cancelled)))
    [UiNotifyManagers MsgBookingCanceled bid; UiText MsgCancelApply] None.
Proof.
  intros Hb Hci Hlt Hr. unfold callback_cancel_my_booking. rewrite Hb, Hci.
  rewrite date_ltb_negb_leb in Hlt. apply negb_true_iff in Hlt. by rewrite Hlt, Hr.
Qed.

(** A refused cancellation changes nothing. *)
Lemma cancel_refused w today bid user b ci :
  booking_get_by_id (w_db w) bid = inr b -> b_check_in b = Some ci -> date_ltb today ci = false ->
  callback_cancel_my_booking w today bid user = mkOutcome w [UiText MsgCancelError] None.
Proof.
  intros Hb Hci Hlt. unfold callback_cancel_my_booking. rewrite Hb, Hci.
  rewrite date_ltb_negb_leb in Hlt. apply negb_false_iff in Hlt. by rewrite Hlt.
Qed.

(** ** Properties *)

(** C11 The booking list of [all_my_bookings] holds exactly the user's
    confirmed bookings whose check-out is after today, latest check-in
    first (bookings without a check-in last). *)
Theorem my_bookings_spec d today user :
  (forall b, In b (my_bookings d today user) <->
     In b (db_bookings d) /\ b_telegram_id b = user /\ b_status b = Confirmed /\
     exists co, b_check_out b = Some co /\ today <d co) /\
  Sorted check_in_desc (my_bookings d today user).
Proof.
  split; [|apply Sorted_merge_sort, check_in_desc_total].
  intros b. rewrite my_bookings_In. unfold my_bookings_cond.
  rewrite !andb_true_iff, Z.eqb_eq, bool_decide_eq_true.
  destruct (b_check_out b) as [co|]; split.
  - intros (Hin & (Hu & Hs) & Hl). split_and!; eauto.
  - intros (Hin & Hu & Hs & co' & E & Hl). injection E as <-. auto.
  - by intros (_ & _ & ?).
  - by intros (_ & _ & _ & co' & E & _).
Qed.

(** C10 The card of a confirmed booking offers the cancel button
    exactly when [callback_cancel_my_booking] on that booking cancels it:
    both test that the check-in is after today. *)
Theorem card_cancel_iff_cancels w today bid user gallery b r ci :
  booking_get_by_id (w_db w) bid = inr b -> b_status b = Confirmed -> b_check_in b = Some ci ->
  resource_get_by_id (w_db w) (b_resource b) = inr r ->
  exists btns,
    callback_resource (w_db w) today (py_str_int bid) "!" gallery =
      inr (Card r (Some (Some ci, b_check_out b)) btns) /\
    (In (CardCancel bid gallery) btns <->
     booking_get_by_id (w_db (o_world (callback_cancel_my_booking w today bid user))) bid =
       inr (with_status b Cancelled)).
Proof.
  intros Hb Hst Hci Hr. pose proof (booking_get_by_id_In _ _ _ Hb) as [_ Hid].
  eexists. split; [by apply booking_card|]. rewrite Hid.
  destruct (date_ltb today ci) eqn:Hlt.
  - rewrite (cancel_goes_through w today bid user b ci r) by done.
    cbn [o_world set_db w_db]. split; [intros _|by right; left].
    rewrite <- Hid in Hb |- *. apply (booking_get_by_id_save _ b (with_status b Cancelled)), Hb.
  - rewrite (cancel_refused w today bid user b ci) by done.
    cbn [o_world]. rewrite Hb. split; [by intros [? | []]|].
    intros E. injection E as E. destruct b; cbn in *; subst; discriminate.
Qed.

Lemma card_cancel_iff_cancels_witness :
  exists btns,
    callback_resource (w_db sc_world) (mkDate 2024 6 1) (py_str_int 1) "!" [15] =
      inr (Card (mkResource "Main st. 1" 10000 None 1 sc_now sc_now)
                (Some (Some (mkDate 2024 6 10), Some (mkDate 2024 6 12))) btns) /\
    (In (CardCancel 1 [15]) btns <->
     booking_get_by_id (w_db (o_world (callback_cancel_my_booking sc_world (mkDate 2024 6 1) 1 100))) 1 =
       inr (with_status sc_booking_A Cancelled)).
Proof.
  apply (card_cancel_iff_cancels sc_world (mkDate 2024 6 1) 1 100 [15] sc_booking_A);
    vm_compute; reflexivity.
Defined.

(** C12 A cancellation that goes through redraws the list with
    [texts.cancel_apply]: for every booking whose check-in is after
    today, the list shown after [callback_cancel_my_booking] is the
    list before it without that booking, every other listed booking
    staying. *)
Theorem cancel_view_drops_booking w today bid user b ci r :
  booking_get_by_id (w_db w) bid = inr b -> b_check_in b = Some ci -> today <d ci ->
  resource_get_by_id (w_db w) (b_resource b) = inr r ->
  let '(o, view) := cancel_my_booking_view w today bid user in
  view = Some (all_my_bookings (w_db (o_world o)) today user (Some MsgCancelApply)) /\
  forall x, In x (my_bookings (w_db (o_world o)) today user) <->
            In x (my_bookings (w_db w) today user) /\ b_id x <> bid.
Proof.
  intros Hb Hci Hlt Hr. pose proof (booking_get_by_id_In _ _ _ Hb) as [_ Hid].
  unfold cancel_my_booking_view. rewrite (cancel_goes_through w today bid user b ci r) by done.
  cbn [o_exc o_ui o_world set_db w_db]. split; [done|]. intros x.
  rewrite !my_bookings_In, In_booking_save. cbn [b_id with_status]. rewrite Hid.
  split.
  - intros [[[-> _]|[Hin Hne]] Hc]; [by rewrite my_bookings_cond_cancelled in Hc|done].
  - intros [[Hin Hc] Hne]. split; [by right|done].
Qed.

Lemma cancel_view_drops_booking_witness :
  let '(o, view) := cancel_my_booking_view sc_world (mkDate 2024 6 1) 1 100 in
  view = Some (all_my_bookings (w_db (o_world o)) (mkDate 2024 6 1) 100 (Some MsgCancelApply)) /\
  forall x, In x (my_bookings (w_db (o_world o)) (mkDate 2024 6 1) 100) <->
            In x (my_bookings (w_db sc_world) (mkDate 2024 6 1) 100) /\ b_id x <> 1.
Proof.
  apply (cancel_view_drops_booking sc_world (mkDate 2024 6 1) 1 100 sc_booking_A (mkDate 2024 6 10)
           (mkResource "Main st. 1" 10000 None 1 sc_now sc_now)); vm_compute; reflexivity.
Defined.
