(* ===== verification/Admin.v ===== *)
(** * Admin: the deletion rules of the admin console

    [admin.py], [BookingAdmin]: [delete_model] refuses (raises) to delete
    a confirmed booking whose check-out is after today
    ([Lifecycle.admin_delete_model]); the bulk action [action_delete]
    selects the rows whose ids are ticked, skips the protected ones,
    deletes the others one by one and counts both.  The theorems give
    the table after the bulk action, its counts, and show that the single
    and the bulk path apply the same rule. *)
From S2P Require Import Prelude Dates Models Availability Sessions Lifecycle.

(** [m.status == "confirmed" and m.check_out and m.check_out > date.today()]. *)
Definition protected (today : date) (b : booking) : bool :=
  bool_decide (b_status b = Confirmed) &&
  match b_check_out b with Some co => date_ltb today co | None => false end.

(** The loop of [action_delete] over the selected rows: [not_deleted]
    and [count] are its two counters. *)
Fixpoint delete_rows (today : date) (d : db) (rows : list booking) (count not_deleted : Z) : db * Z * Z :=
  match rows with
  | [] => (d, count, not_deleted)
  | m :: rows' =>
      if protected today m then delete_rows today d rows' count (not_deleted + 1)
      else delete_rows today (booking_delete d (b_id m)) rows' (count + 1) not_deleted
  end.

(** [action_delete(ids)]: [select().filter(pk << ids)] in primary-key
    order, fetched once before the loop. *)
Definition action_delete (d : db) (today : date) (ids : list Z) : db * Z * Z :=
  delete_rows today d (List.filter (fun b => bool_decide (b_id b ∈ ids)) (db_bookings d)) 0 0.

(** [m.delete_instance(recursive=True)] on a [Resource]: the rows that
    reference it through a non-null foreign key ([Booking.resource],
    [Images.resource]) are deleted first; here the bookings, with the
    image rows and files in [AdminImages.resource_delete_model_store]. *)
Definition resource_delete_instance (d : db) (rid : Z) : db :=
  mkDb (List.filter (fun b => negb (b_resource b =? rid)) (db_bookings d))
       (delete rid (db_resources d)) (db_next_id d).

(** [ResourceView.action_delete(ids)]: every selected resource is
    deleted (its image folder first), none is skipped. *)
Definition resource_action_delete (d : db) (ids : list Z) : db * Z :=
  fold_left (fun '(d, count) rid => (resource_delete_instance d rid, count + 1))
    (List.filter (fun rid => bool_decide (rid ∈ ids)) (map fst (map_to_list (db_resources d))))
    (d, 0).

(** ** Lemmas *)

Lemma delete_rows_bookings today d rows c n :
  db_bookings (delete_rows today d rows c n).1.1 =
  List.filter (fun b => negb (bool_decide (b_id b ∈ map b_id (List.filter (fun m => negb (protected today m)) rows))))
    (db_bookings d).
Proof.
  revert d c n. induction rows as [|m rows IH]; intros d c n; cbn.
  - symmetry. apply forallb_filter_id, forallb_forall. intros b _.
    rewrite bool_decide_eq_false_2; [done|]. apply not_elem_of_nil.
  - destruct (protected today m); cbn; rewrite IH; [done|].
    unfold booking_delete. cbn [db_bookings].
    rewrite filter_filter_andb. apply filter_ext. intros b.
    destruct (Z.eqb_spec (b_id b) (b_id m)) as [E|E]; cbn.
    + rewrite bool_decide_eq_true_2; [done|]. apply elem_of_cons. by left.
    + f_equal. apply bool_decide_ext. rewrite elem_of_cons. tauto.
Qed.

Lemma delete_rows_counts today d rows c n :
  let '(_, c', n') := delete_rows today d rows c n in c' + n' = c + n + Z.of_nat (length rows).
Proof.
  revert d c n. induction rows as [|m rows IH]; intros d c n; cbn; [lia|].
  destruct (protected today m).
  - specialize (IH d c (n + 1)). destruct (delete_rows _ _ _ _ _) as [[? ?] ?]. lia.
  - specialize (IH (booking_delete d (b_id m)) (c + 1) n).
    destruct (delete_rows _ _ _ _ _) as [[? ?] ?]. lia.
Qed.

Lemma delete_rows_other_tables today d rows c n :
  db_resources (delete_rows today d rows c n).1.1 = db_resources d /\
  db_next_id (delete_rows today d rows c n).1.1 = db_next_id d.
Proof.
  revert d c n. induction rows as [|m rows IH]; intros d c n; cbn; [done|].
  by destruct (protected today m); rewrite (proj1 (IH _ _ _)), (proj2 (IH _ _ _)).
Qed.

Lemma db_ext (d1 d2 : db) : db_bookings d1 = db_bookings d2 -> db_resources d1 = db_resources d2 ->
  db_next_id d1 = db_next_id d2 -> d1 = d2.
Proof. destruct d1, d2; cbn. by intros -> -> ->. Qed.

Lemma In_map_b_id x rows : b_id x ∈ map b_id rows <-> exists m, In m rows /\ b_id m = b_id x.
Proof. rewrite list_elem_of_In, in_map_iff. naive_solver. Qed.

Lemma resource_fold_bookings l d c :
  db_bookings (fold_left (fun '(d, count) rid => (resource_delete_instance d rid, count + 1)) l (d, c)).1 =
  List.filter (fun b => negb (bool_decide (b_resource b ∈ l))) (db_bookings d).
Proof.
  revert d c. induction l as [|rid l IH]; intros d c; cbn [fold_left].
  - symmetry. apply forallb_filter_id, forallb_forall. intros b _.
    rewrite bool_decide_eq_false_2; [done|]. apply not_elem_of_nil.
  - rewrite IH. unfold resource_delete_instance. cbn [db_bookings].
    rewrite filter_filter_andb. apply filter_ext. intros b.
    destruct (Z.eqb_spec (b_resource b) rid) as [E|E]; cbn.
    + rewrite bool_decide_eq_true_2; [done|]. apply elem_of_cons. by left.
    + f_equal. apply bool_decide_ext. rewrite elem_of_cons. tauto.
Qed.

Lemma admin_delete_model_protected d today b :
  admin_delete_model d today b = if protected today b then None else Some (booking_delete d (b_id b)).
Proof. reflexivity. Qed.

(** ** Properties *)

(** C14 With ids unique, the bulk delete keeps exactly the rows that
    were not ticked or are protected (confirmed with a check-out after
    today), counts every selected row as deleted or skipped, and leaves
    the other tables alone. *)
Theorem action_delete_spec d today ids : ids_unique d ->
  let '(d', count, not_deleted) := action_delete d today ids in
  (forall b, In b (db_bookings d') <->
     In b (db_bookings d) /\ (b_id b ∉ ids \/ protected today b = true)) /\
  count + not_deleted = Z.of_nat (length (List.filter (fun b => bool_decide (b_id b ∈ ids)) (db_bookings d))) /\
  db_resources d' = db_resources d.
Proof.
  intros Hu. unfold action_delete.
  pose proof (delete_rows_bookings today d (List.filter (fun b => bool_decide (b_id b ∈ ids)) (db_bookings d)) 0 0) as Hb.
  pose proof (delete_rows_counts today d (List.filter (fun b => bool_decide (b_id b ∈ ids)) (db_bookings d)) 0 0) as Hc.
  pose proof (delete_rows_other_tables today d (List.filter (fun b => bool_decide (b_id b ∈ ids)) (db_bookings d)) 0 0) as [Hr _].
  destruct (delete_rows _ _ _ _ _) as [[d' c'] n']. cbn in Hb, Hr.
  split_and!; [|lia|done]. intros b. rewrite Hb, in_filter_iff, negb_true_iff, bool_decide_eq_false.
  rewrite In_map_b_id. setoid_rewrite in_filter_iff. setoid_rewrite in_filter_iff.
  setoid_rewrite bool_decide_eq_true. setoid_rewrite negb_true_iff.
  split.
  - intros [Hin Hn]. split; [done|]. destruct (protected today b) eqn:P; [by right|left].
    intros Hid. apply Hn. exists b. auto.
  - intros [Hin Hor]. split; [done|]. intros (m & ((Hm & Hsel) & Hp) & Hid).
    rewrite (ids_unique_eq d m b Hu Hm Hin Hid) in Hsel, Hp. destruct Hor; congruence.
Qed.

Lemma action_delete_spec_witness :
  let '(d', count, not_deleted) := action_delete sc_db (mkDate 2024 6 1) [1; 7] in
  (forall b, In b (db_bookings d') <->
     In b (db_bookings sc_db) /\ (b_id b ∉ [1; 7] \/ protected (mkDate 2024 6 1) b = true)) /\
  count + not_deleted =
    Z.of_nat (length (List.filter (fun b => bool_decide (b_id b ∈ [1; 7])) (db_bookings sc_db))) /\
  db_resources d' = db_resources sc_db.
Proof. apply action_delete_spec. vm_compute. repeat constructor; set_solver. Defined.

(** C15 The single delete and the bulk delete of one row apply the same
    rule: [delete_model] refuses a protected booking, and otherwise
    leaves the table the bulk action leaves when only that row is
    ticked. *)
Theorem admin_paths_agree d today b : In b (db_bookings d) ->
  admin_delete_model d today b =
  if protected today b then None else Some (action_delete d today [b_id b]).1.1.
Proof.
  intros Hin. rewrite admin_delete_model_protected.
  destruct (protected today b) eqn:P; [done|]. f_equal. unfold action_delete.
  pose proof (delete_rows_other_tables today d (List.filter (fun x => bool_decide (b_id x ∈ [b_id b])) (db_bookings d)) 0 0) as [Hr Hn].
  apply db_ext; [|by rewrite Hr|by rewrite Hn].
  rewrite delete_rows_bookings. unfold booking_delete. cbn [db_bookings].
  apply filter_ext. intros x. f_equal. symmetry.
  destruct (Z.eqb_spec (b_id x) (b_id b)) as [E|E].
  - apply bool_decide_eq_true, In_map_b_id. exists b.
    rewrite !in_filter_iff, P, bool_decide_eq_true_2 by set_solver. auto.
  - apply bool_decide_eq_false. rewrite In_map_b_id. intros (m & Hm & Hid).
    apply in_filter_iff in Hm as [Hm _]. apply in_filter_iff in Hm as [_ Hsel].
    apply bool_decide_eq_true, list_elem_of_singleton in Hsel. congruence.
Qed.

Lemma admin_paths_agree_witness :
  admin_delete_model sc_db (mkDate 2024 6 20) sc_booking_A =
  if protected (mkDate 2024 6 20) sc_booking_A then None
  else Some (action_delete sc_db (mkDate 2024 6 20) [b_id sc_booking_A]).1.1.
Proof. apply admin_paths_agree. left. reflexivity. Defined.

(** C13 Deleting a resource in the admin console deletes its bookings
    with it, protected ones included: a confirmed booking whose check-out
    is ahead, which [delete_model] of the booking view refuses to delete,
    is gone after the resource view's bulk delete of its resource. *)
Theorem resource_delete_cascades d today ids b :
  protected today b = true -> is_Some (db_resources d !! b_resource b) -> b_resource b ∈ ids ->
  admin_delete_model d today b = None /\
  ~ In b (db_bookings (resource_action_delete d ids).1).
Proof.
  intros Hp [r Hr] Hsel. rewrite admin_delete_model_protected, Hp. split; [done|].
  unfold resource_action_delete. rewrite resource_fold_bookings, in_filter_iff.
  intros [_ Hn]. apply negb_true_iff, bool_decide_eq_false in Hn. apply Hn.
  apply list_elem_of_In, in_filter_iff. split; [|by apply bool_decide_eq_true].
  apply in_map_iff. exists (b_resource b, r). split; [done|].
  by apply list_elem_of_In, elem_of_map_to_list.
Qed.

Lemma resource_delete_cascades_witness :
  admin_delete_model sc_db (mkDate 2024 6 1) sc_booking_A = None /\
  ~ In sc_booking_A (db_bookings (resource_action_delete sc_db [1]).1).
Proof.
  apply (resource_delete_cascades sc_db (mkDate 2024 6 1) [1] sc_booking_A);
    [reflexivity|eexists; reflexivity|left].
Defined.
