(* ===== verification/Help.v ===== *)
(** * Help: the relay between users and the managers' chat

    [main.py]: [help_command] (/help) sends a prompt with a "Cancel"
    button, remembers its message id in [help_cancel_messages] and puts
    the user in [help_waiting_for_input]; [handle_help_message] forwards
    the user's next text to [MANAGERS_CHAT] (a text starting with "/"
    only ends the wait); [callback_help_cancel] ends the wait;
    [handle_all_messages] relays a manager's reply to a forwarded message
    back to its author.

    Which handler gets a message is decided by pyTelegramBotAPI: the
    message handlers are tried in the order of their registration in
    [main.py], the first whose filters ([commands], [content_types]
    (default: text), [chat_types], [func]) all pass handles it, and no
    other.  [dispatch_message] is that first-match search over the seven
    message handlers of [main.py].  The state of the relay is the set and
    the dict, as [gset] and [gmap]; a run is a list of incoming updates.
    Telegram's answers (the id of a sent message) are inputs.  Texts are
    ASCII strings: Python's non-ASCII white space is not modelled. *)
From S2P Require Import Prelude.
From Stdlib Require Import String Ascii.

Inductive chat_type := Private | Group | Supergroup | Channel.

#[export] Instance chat_type_eq_dec : EqDecision chat_type.
Proof. solve_decision. Defined.

(** [message.content_type] with the text of a text message. *)
Inductive content := CText (s : string) | CPhoto | CDocument | CSuccessfulPayment | COther.

(** An incoming message: sender, chat, chat type, content, and
    [reply_to_message] ([None]: not a reply; [Some fwd]: a reply to a
    message whose [forward_from] is [fwd]). *)
Record message := mkMessage {
  m_from : Z; m_chat : Z; m_chat_type : chat_type; m_content : content;
  m_reply_to : option (option Z) }.

(** The message handlers of [main.py], in registration order. *)
Inductive route :=
| RStart | RRestart | RHelp | RHelpMessage | RManagerReply | RPayment | RBookings | RUnhandled.

#[export] Instance route_eq_dec : EqDecision route.
Proof. solve_decision. Defined.

(** [help_waiting_for_input] and [help_cancel_messages]. *)
Record help_state := mkHelp { waiting : gset Z; cancel_msgs : gmap Z Z }.

Definition help_init : help_state := mkHelp ∅ ∅.

(** What the relay does in the chats. *)
Inductive help_ui :=
| HPrompt (user : Z)                   (** [texts.help_question] with the Cancel button *)
| HForward (user : Z)                  (** [forward_message] to [MANAGERS_CHAT] *)
| HSuccess (user : Z)                  (** [texts.success_help_msg] *)
| HDeletePrompt (user msg_id : Z)      (** [delete_message] of the prompt *)
| HRelay (user : Z) (c : content)      (** the reply, headed by [texts.manager_title] *)
| HCanceled                            (** [answer_callback_query(texts.help_canceled_msg)] *)
| HDeleteCancelMessage.

(** [str.isspace] on an ASCII character. *)
Definition is_space (c : ascii) : bool :=
  let n := nat_of_ascii c in (((9 <=? n) && (n <=? 13)) || ((28 <=? n) && (n <=? 32)))%nat.

(** [text.split()[0]] for a text that does not start with white space. *)
Fixpoint first_word (s : string) : string :=
  match s with
  | EmptyString => EmptyString
  | String c s' => if is_space c then EmptyString else String c (first_word s')
  end.

(** [w.split('@')[0]]. *)
Fixpoint before_at (s : string) : string :=
  match s with
  | EmptyString => EmptyString
  | String c s' => if Ascii.eqb c "@" then EmptyString else String c (before_at s')
  end.

(** [util.extract_command(text)]: [None] unless [text.startswith('/')]. *)
Definition extract_command (s : string) : option string :=
  if startswith s "/" then Some (substring 1 (String.length s) (before_at (first_word s))) else None.

Section Dispatch.
Context (ADMIN_IDS : list Z) (MANAGERS_CHAT : Z).

Definition is_command (c : string) (m : message) : bool :=
  match m_content m with
  | CText s => match extract_command s with Some c' => String.eqb c' c | None => false end
  | _ => false
  end.

Definition is_text (m : message) : bool := match m_content m with CText _ => true | _ => false end.

Definition is_private (m : message) : bool := bool_decide (m_chat_type m = Private).

(** The filters of the seven [@bot.message_handler]s, tried in order. *)
Definition dispatch_message (st : help_state) (m : message) : route :=
  if is_command "start" m && is_private m then RStart
  else if is_command "restart" m && is_private m && bool_decide (m_from m ∈ ADMIN_IDS) then RRestart
  else if is_command "help" m && is_private m then RHelp
  else if is_text m && is_private m && bool_decide (m_from m ∈ waiting st) then RHelpMessage
  else if (m_chat m =? MANAGERS_CHAT) && bool_decide (is_Some (m_reply_to m)) &&
          match m_content m with CText _ | CPhoto | CDocument => true | _ => false end &&
          bool_decide (m_chat_type m = Group) then RManagerReply
  else if match m_content m with CSuccessfulPayment => true | _ => false end then RPayment
  else if is_command "bookings" m && is_private m then RBookings
  else RUnhandled.

(** [help_command]: [prompt_id] is the id of the prompt Telegram returns. *)
Definition help_command (st : help_state) (user prompt_id : Z) : help_state * list help_ui :=
  (mkHelp ({[user]} ∪ waiting st) (<[user := prompt_id]> (cancel_msgs st)), [HPrompt user]).

(** [callback_help_cancel]: the prompt's id stays in the dict. *)
Definition callback_help_cancel (st : help_state) (user : Z) : help_state * list help_ui :=
  (mkHelp (waiting st ∖ {[user]}) (cancel_msgs st), [HCanceled; HDeleteCancelMessage]).

(** [handle_help_message]; [if msg_id := help_cancel_messages.pop(...)]
    skips a falsy id. *)
Definition handle_help_message (st : help_state) (user : Z) (text : string) : help_state * list help_ui :=
  if startswith text "/" then (mkHelp (waiting st ∖ {[user]}) (cancel_msgs st), [])
  else
    let del := match cancel_msgs st !! user with
               | Some i => if i =? 0 then [] else [HDeletePrompt user i]
               | None => []
               end in
    (mkHelp (waiting st ∖ {[user]}) (delete user (cancel_msgs st)), [HForward user; HSuccess user] ++ del).

(** [handle_all_messages]: a reply to a message without [forward_from]
    is dropped. *)
Definition handle_all_messages (m : message) : list help_ui :=
  match m_reply_to m with
  | Some (Some user) => [HRelay user (m_content m)]
  | _ => []
  end.

(** One incoming message: the handler [dispatch_message] picks, and its
    effect on the relay ([prompt_id] is used by [help_command]). *)
Definition on_message (st : help_state) (m : message) (prompt_id : Z) : route * (help_state * list help_ui) :=
  let r := dispatch_message st m in
  (r, match r with
      | RHelp => help_command st (m_from m) prompt_id
      | RHelpMessage =>
          match m_content m with CText s => handle_help_message st (m_from m) s | _ => (st, []) end
      | RManagerReply => (st, handle_all_messages m)
      | _ => (st, [])
      end).

(** An update reaching the relay: a message, or a press of the help
    Cancel button. *)
Inductive update := UMessage (m : message) (prompt_id : Z) | UHelpCancel (user : Z).

Definition step (st : help_state) (u : update) : help_state * list help_ui :=
  match u with
  | UMessage m i => (on_message st m i).2
  | UHelpCancel user => callback_help_cancel st user
  end.

(** The states and outputs after each update of a run. *)
Fixpoint trace (st : help_state) (us : list update) : list (help_state * list help_ui) :=
  match us with
  | [] => []
  | u :: us' => let r := step st u in r :: trace r.1 us'
  end.

(** The state at the end of a run. *)
Definition final (st : help_state) (us : list update) : help_state :=
  fold_left (fun s u => (step s u).1) us st.

(** The step relation of the relay and its reachable states. *)
Inductive help_step : help_state -> help_state -> Prop :=
| hs_update st u : help_step st (step st u).1.

Definition help_reachable (st : help_state) : Prop := rtc help_step help_init st.

End Dispatch.

(** Every waiting user has a remembered prompt. *)
Definition help_inv (st : help_state) : Prop := waiting st ⊆ dom (cancel_msgs st).

(** [P] holds at some point of a run. *)
Inductive eventually {A} (P : A -> Prop) : list A -> Prop :=
| ev_now x xs : P x -> eventually P (x :: xs)
| ev_later x xs : eventually P xs -> eventually P (x :: xs).

(** An update sent by [user]. *)
Definition from_user (user : Z) (u : update) : Prop :=
  match u with UMessage m _ => m_from m = user | UHelpCancel v => v = user end.

(** A private text message without a leading "/". *)
Definition plain_text_from (user : Z) (m : message) : Prop :=
  m_from m = user /\ m_chat_type m = Private /\
  exists s, m_content m = CText s /\ startswith s "/" = false.

(** Scenario messages of user 5. *)
Definition help_sc_help : message := mkMessage 5 5 Private (CText "/help") None.

Definition help_sc_hello : message := mkMessage 5 5 Private (CText "hello") None.

(** ** Lemmas *)

Section Facts.
Context (ADMIN_IDS : list Z) (MANAGERS_CHAT : Z).

Lemma trace_app st us1 us2 :
  trace ADMIN_IDS MANAGERS_CHAT st (us1 ++ us2) =
  trace ADMIN_IDS MANAGERS_CHAT st us1 ++ trace ADMIN_IDS MANAGERS_CHAT (final ADMIN_IDS MANAGERS_CHAT st us1) us2.
Proof. revert st. induction us1 as [|u us1 IH]; intros st; cbn; [done|]. by rewrite IH. Qed.

Lemma eventually_app {A} (P : A -> Prop) l1 l2 : eventually P l2 -> eventually P (l1 ++ l2).
Proof. intros H. induction l1; cbn; [done|]. by apply ev_later. Qed.

Lemma extract_command_plain s : startswith s "/" = false -> extract_command s = None.
Proof. unfold extract_command. by intros ->. Qed.

Lemma plain_not_command user m c : plain_text_from user m -> is_command c m = false.
Proof.
  intros (_ & _ & s & Hc & Hp). unfold is_command. by rewrite Hc, extract_command_plain.
Qed.

(** A plain private text of a user goes to [handle_help_message] when
    the user waits, and to no handler otherwise. *)
Lemma dispatch_plain st user m : plain_text_from user m ->
  dispatch_message ADMIN_IDS MANAGERS_CHAT st m =
  if bool_decide (user ∈ waiting st) then RHelpMessage else RUnhandled.
Proof.
  intros Hm. pose proof Hm as (Hf & Hpriv & s & Hc & Hp). unfold dispatch_message.
  rewrite !(plain_not_command user m) by done.
  unfold is_text, is_private. rewrite Hc, Hpriv, Hf. cbn.
  rewrite (bool_decide_eq_true_2 (Private = Private)), (bool_decide_eq_false_2 (Private = Group)),
    andb_false_r by done.
  by destruct (bool_decide (user ∈ waiting st)).
Qed.

Lemma plain_ends_wait st user m i : plain_text_from user m ->
  user ∉ waiting (step ADMIN_IDS MANAGERS_CHAT st (UMessage m i)).1.
Proof.
  intros Hm. pose proof Hm as (Hf & _ & s & Hc & Hp). cbn. unfold on_message.
  rewrite (dispatch_plain st user m Hm). destruct (bool_decide_reflect (user ∈ waiting st)) as [Hw|Hw].
  - cbn. rewrite Hc. unfold handle_help_message. rewrite Hp, Hf. cbn. set_solver.
  - done.
Qed.

Lemma plain_forwarded st user m i : plain_text_from user m -> user ∈ waiting st ->
  In (HForward user) (step ADMIN_IDS MANAGERS_CHAT st (UMessage m i)).2.
Proof.
  intros Hm Hw. pose proof Hm as (Hf & _ & s & Hc & Hp). cbn. unfold on_message.
  rewrite (dispatch_plain st user m Hm), bool_decide_eq_true_2 by done.
  cbn. rewrite Hc. unfold handle_help_message. rewrite Hp, Hf. cbn. auto.
Qed.

(** The updates of other users leave a user's wait as it is. *)
Lemma step_other_user st u user : ~ from_user user u ->
  (user ∈ waiting (step ADMIN_IDS MANAGERS_CHAT st u).1 <-> user ∈ waiting st).
Proof.
  destruct u as [m i|v]; cbn; intros Hne.
  - unfold on_message. destruct (dispatch_message _ _ st m) eqn:R; cbn; try set_solver.
    destruct (m_content m); cbn; try done.
    unfold handle_help_message. destruct (startswith s "/"); cbn; set_solver.
  - set_solver.
Qed.

Lemma final_other_users st us user : Forall (fun u => ~ from_user user u) us ->
  (user ∈ waiting (final ADMIN_IDS MANAGERS_CHAT st us) <-> user ∈ waiting st).
Proof.
  unfold final. revert st. induction us as [|u us IH]; intros st Hus; cbn [fold_left]; [done|].
  apply Forall_cons in Hus as [Hu Hus]. rewrite IH by done. by apply step_other_user.
Qed.

Lemma step_preserves_inv st u : help_inv st -> help_inv (step ADMIN_IDS MANAGERS_CHAT st u).1.
Proof.
  unfold help_inv. destruct u as [m i|v]; cbn; intros Hinv.
  - unfold on_message. destruct (dispatch_message _ _ st m); cbn; try done.
    + rewrite dom_insert_L. set_solver.
    + destruct (m_content m); cbn; try done.
      unfold handle_help_message. destruct (startswith s "/"); cbn; [set_solver|].
      rewrite dom_delete_L. set_solver.
  - set_solver.
Qed.

Lemma help_command_waits st mh ih user :
  m_from mh = user -> m_chat_type mh = Private -> m_content mh = CText "/help" ->
  user ∈ waiting (step ADMIN_IDS MANAGERS_CHAT st (UMessage mh ih)).1.
Proof.
  intros Hf Hp Hc. cbn. unfold on_message, dispatch_message, is_command, is_private.
  rewrite Hc, Hp. cbn. rewrite Hf. set_solver.
Qed.

Lemma reachable_from_inv x y : rtc (help_step ADMIN_IDS MANAGERS_CHAT) x y -> help_inv x -> help_inv y.
Proof.
  induction 1 as [|x y z Hxy _ IH]; [done|]. intros Hx. apply IH.
  destruct Hxy. by apply step_preserves_inv.
Qed.

End Facts.

(** ** Properties *)

(** C29 In every state the relay can reach, each user waiting for
    input ([help_waiting_for_input]) has the id of a prompt in
    [help_cancel_messages]. *)
Theorem help_reachable_inv ADMIN_IDS MANAGERS_CHAT st :
  help_reachable ADMIN_IDS MANAGERS_CHAT st -> help_inv st.
Proof.
  intros Hr. apply (reachable_from_inv ADMIN_IDS MANAGERS_CHAT help_init); [done|].
  unfold help_inv. cbn. set_solver.
Qed.

Lemma help_reachable_inv_witness :
  help_inv (step [] (-100) help_init (UMessage help_sc_help 42)).1.
Proof. apply (help_reachable_inv [] (-100)). apply rtc_once. constructor. Defined.

(** C30 A user who sends /help and then a private text without a
    leading "/" has that text forwarded to the managers, whatever the
    other users do in between. *)
Theorem help_request_forwarded ADMIN_IDS MANAGERS_CHAT st mh ih us m i us' user :
  m_from mh = user -> m_chat_type mh = Private -> m_content mh = CText "/help" ->
  Forall (fun u => ~ from_user user u) us -> plain_text_from user m ->
  eventually (fun r => In (HForward user) r.2)
    (trace ADMIN_IDS MANAGERS_CHAT st (UMessage mh ih :: us ++ UMessage m i :: us')).
Proof.
  intros Hf Hp Hc Hus Hm. cbn [trace]. apply ev_later. rewrite trace_app.
  apply eventually_app. cbn [trace]. apply ev_now. apply plain_forwarded; [done|].
  apply final_other_users; [done|]. by apply help_command_waits.
Qed.

Lemma help_request_forwarded_witness :
  eventually (fun r => In (HForward 5) r.2)
    (trace [] (-100) help_init
       (UMessage help_sc_help 42 :: [UHelpCancel 6] ++ UMessage help_sc_hello 43 :: [])).
Proof.
  apply (help_request_forwarded [] (-100) help_init help_sc_help 42 [UHelpCancel 6] help_sc_hello 43 [] 5);
    try reflexivity.
  - repeat constructor. cbn. lia.
  - split_and!; [reflexivity|reflexivity|]. eexists. split; reflexivity.
Defined.

(** A command typed while the relay waits for the question is
    swallowed: /bookings from a waiting user goes to
    [handle_help_message], which ends the wait and answers nothing, so
    neither the booking list nor the managers see it (and the prompt's
    id stays in [help_cancel_messages]). *)
Example bookings_swallowed_while_waiting :
  let st := (step [] (-100) help_init (UMessage help_sc_help 42)).1 in
  on_message [] (-100) st (mkMessage 5 5 Private (CText "/bookings") None) 0 =
  (RHelpMessage, (mkHelp ∅ {[5 := 42]}, [])).
Proof. vm_compute. reflexivity. Qed.

(** A manager's reply to a forwarded question is relayed only from
    a chat of type "group": the same reply in a supergroup matches no
    handler and never reaches the user. *)
Example supergroup_reply_dropped :
  let reply t := mkMessage 77 (-100) t (CText "answer") (Some (Some 5)) in
  dispatch_message [] (-100) help_init (reply Group) = RManagerReply /\
  dispatch_message [] (-100) help_init (reply Supergroup) = RUnhandled.
Proof. vm_compute. split; reflexivity. Qed.
