(* ===== verification/Callbacks.v ===== *)
(** * Callbacks: the payloads of the inline buttons

    Every inline button of the bot carries a [callback_data] string built
    by an f-string ([main.py], [utils.py]); pyTelegramBotAPI hands a
    pressed button to the first [@bot.callback_query_handler] (in
    registration order) whose [func] accepts the string, and the handler
    takes it apart with [cq.data.split(":", n)], [int(...)],
    [remove_ids.split(",")] and [datetime.fromisoformat].  This file
    models the payloads as the type [callback_data], their printing
    [render], the dispatch [dispatch_callback] and the parsing
    [parse_callback] of the ten handlers.  The theorems: every payload
    the code builds reaches the handler of its kind and parses back to
    the fields it was built from; and Telegram's limit of 64 bytes on
    [callback_data] is exceeded by the buttons of a card with a large
    photo gallery. *)
From S2P Require Import Prelude Dates Iso.
From Stdlib Require Import String Ascii DecimalString.

Fixpoint has_char (c : ascii) (s : string) : bool :=
  match s with
  | EmptyString => false
  | String x s' => Ascii.eqb x c || has_char c s'
  end.

(** The text before and after the first [sep]. *)
Fixpoint split_first (sep : ascii) (s : string) : option (string * string) :=
  match s with
  | EmptyString => None
  | String c s' =>
      if Ascii.eqb c sep then Some (EmptyString, s')
      else match split_first sep s' with
           | Some (a, b) => Some (String c a, b)
           | None => None
           end
  end.

(** [s.split(sep, maxsplit)]. *)
Fixpoint py_split (sep : ascii) (maxsplit : nat) (s : string) : list string :=
  match maxsplit with
  | O => [s]
  | S n =>
      match split_first sep s with
      | Some (a, b) => a :: py_split sep n b
      | None => [s]
      end
  end.

(** [s.split(sep)]: a string has fewer separators than characters. *)
Definition py_split_all (sep : ascii) (s : string) : list string := py_split sep (String.length s) s.

(** [",".join(str(i) for i in ids)]. *)
Definition join_ids (ids : list Z) : string := String.concat "," (map py_str_int ids).

(** The payloads, by the handler they are meant for. *)
Inductive callback_data :=
| CHelpCancel                                        (** ["help_cancel"] *)
| CRes (sid page : string)                           (** [f"res:{id}:{page}"] *)
| CPage (page : string) (ids : list Z)               (** [f"page:{page}:{ids}"] *)
| CBook (res_id : Z) (page : string) (ids : list Z)  (** [f"book:{res.id}:{page}:{remove_ids}"] *)
| CDatepick (select_type : string) (d : date) (page : string)
                                                     (** [f"datepick:{select_type}:{day_date.isoformat()}:{page}"] *)
| CMonth (y m : Z) (select_type page : string)       (** [f"month:{y}:{m}:{select_type}:{page}"] *)
| CConfirm                                           (** ["confirm_booking"] *)
| CNull                                              (** ["null"] *)
| CMyBooking (ids : list Z)                          (** [f"my_booking:{remove_ids}"] *)
| CCancelMy (booking_id : Z) (ids : list Z).         (** [f"cancel_my_booking:{booking.id}:{remove_ids}"] *)

(** The f-strings of the buttons. *)
Definition render (c : callback_data) : string :=
  match c with
  | CHelpCancel => "help_cancel"
  | CRes sid page => "res:" ++ sid ++ ":" ++ page
  | CPage page ids => "page:" ++ page ++ ":" ++ join_ids ids
  | CBook rid page ids => "book:" ++ py_str_int rid ++ ":" ++ page ++ ":" ++ join_ids ids
  | CDatepick st d page => "datepick:" ++ st ++ ":" ++ date_isoformat d ++ ":" ++ page
  | CMonth y m st page => "month:" ++ py_str_int y ++ ":" ++ py_str_int m ++ ":" ++ st ++ ":" ++ page
  | CConfirm => "confirm_booking"
  | CNull => "null"
  | CMyBooking ids => "my_booking:" ++ join_ids ids
  | CCancelMy bid ids => "cancel_my_booking:" ++ py_str_int bid ++ ":" ++ join_ids ids
  end%string.

(** The callback query handlers of [main.py], in registration order. *)
Inductive cb_route :=
| RHelpCancel | RResource | RPageCb | RBook | RDatepick | RMonth | RConfirm | RNull
| RMyBooking | RCancelMy | RNoHandler.

#[export] Instance cb_route_eq_dec : EqDecision cb_route.
Proof. solve_decision. Defined.

(** Their [func] filters, tried in order. *)
Definition dispatch_callback (data : string) : cb_route :=
  if String.eqb data "help_cancel" then RHelpCancel
  else if startswith data "res:" then RResource
  else if startswith data "page:" then RPageCb
  else if startswith data "book:" then RBook
  else if startswith data "datepick:" then RDatepick
  else if startswith data "month:" then RMonth
  else if String.eqb data "confirm_booking" then RConfirm
  else if String.eqb data "null" then RNull
  else if startswith data "my_booking:" then RMyBooking
  else if startswith data "cancel_my_booking:" then RCancelMy
  else RNoHandler.

(** [if remove_ids: ... int(gallery_id) for gallery_id in
    remove_ids.split(",")]: the empty string is no gallery. *)
Definition parse_ids (s : string) : option (list Z) :=
  if String.eqb s "" then Some [] else mapM py_int (py_split_all "," s).

(** The unpacking of each handler; [None] is the exception its
    unpacking, [int] or [fromisoformat] raises. *)
Definition parse_res (data : string) : option callback_data :=
  match py_split ":" 2 data with [_; sid; page] => Some (CRes sid page) | _ => None end.

Definition parse_page (data : string) : option callback_data :=
  match py_split ":" 2 data with [_; p; ids] => CPage p <$> parse_ids ids | _ => None end.

(** [callback_book] deletes the gallery before it converts [res_id]. *)
Definition parse_book (data : string) : option callback_data :=
  match py_split ":" 3 data with
  | [_; rid; page; ids] => ids' ← parse_ids ids; rid' ← py_int rid; Some (CBook rid' page ids')
  | _ => None
  end.

Definition parse_datepick (data : string) : option callback_data :=
  match py_split ":" 3 data with
  | [_; st; ds; page] => t ← fromisoformat ds; Some (CDatepick st (dt_date t) page)
  | _ => None
  end.

Definition parse_month (data : string) : option callback_data :=
  match py_split ":" 4 data with
  | [_; y; m; st; page] => y' ← py_int y; m' ← py_int m; Some (CMonth y' m' st page)
  | _ => None
  end.

Definition parse_my_booking (data : string) : option callback_data :=
  match py_split ":" 1 data with [_; ids] => CMyBooking <$> parse_ids ids | _ => None end.

(** [Booking.get_by_id(booking_id)] converts the id before
    [remove_images] parses the gallery. *)
Definition parse_cancel_my (data : string) : option callback_data :=
  match py_split ":" 2 data with
  | [_; bid; ids] => bid' ← py_int bid; ids' ← parse_ids ids; Some (CCancelMy bid' ids')
  | _ => None
  end.

(** What the handler chosen by [dispatch_callback] reads from the payload. *)
Definition parse_callback (data : string) : option callback_data :=
  match dispatch_callback data with
  | RHelpCancel => Some CHelpCancel
  | RResource => parse_res data
  | RPageCb => parse_page data
  | RBook => parse_book data
  | RDatepick => parse_datepick data
  | RMonth => parse_month data
  | RConfirm => Some CConfirm
  | RNull => Some CNull
  | RMyBooking => parse_my_booking data
  | RCancelMy => parse_cancel_my data
  | RNoHandler => None
  end.

(** The payloads the code builds: the fields that are not last carry no
    [":"] (ids, pages and stages never do) and the dates are valid. *)
Definition payload_ok (c : callback_data) : Prop :=
  match c with
  | CRes sid _ => has_char ":" sid = false
  | CPage page _ | CBook _ page _ => has_char ":" page = false
  | CDatepick st d _ => has_char ":" st = false /\ valid_date d
  | CMonth _ _ st _ => has_char ":" st = false
  | _ => True
  end.

(** Telegram's limit on [callback_data]: 1 to 64 bytes. *)
Definition CALLBACK_DATA_MAX : nat := 64.

(** The handler each payload is meant for. *)
Definition route_of (c : callback_data) : cb_route :=
  match c with
  | CHelpCancel => RHelpCancel | CRes _ _ => RResource | CPage _ _ => RPageCb
  | CBook _ _ _ => RBook | CDatepick _ _ _ => RDatepick | CMonth _ _ _ _ => RMonth
  | CConfirm => RConfirm | CNull => RNull | CMyBooking _ => RMyBooking | CCancelMy _ _ => RCancelMy
  end.

(** ** Lemmas *)

Lemma dispatch_render c : dispatch_callback (render c) = route_of c.
Proof. destruct c; reflexivity. Qed.

Lemma has_char_app c a b : has_char c (a ++ b)%string = has_char c a || has_char c b.
Proof.
  induction a as [|x a IH]; [by rewrite append_EmptyString|].
  rewrite append_String. cbn [has_char]. by rewrite IH, orb_assoc.
Qed.

Lemma has_char_uint_colon d : has_char ":" (NilEmpty.string_of_uint d) = false.
Proof. induction d; cbn; auto. Qed.

Lemma has_char_uint_comma d : has_char "," (NilEmpty.string_of_uint d) = false.
Proof. induction d; cbn; auto. Qed.

Lemma py_str_int_no_colon z : has_char ":" (py_str_int z) = false.
Proof.
  unfold py_str_int, NilZero.string_of_int, NilZero.string_of_uint.
  destruct (Z.to_int z) as [d|d]; destruct d; cbn; auto using has_char_uint_colon.
Qed.

Lemma py_str_int_no_comma z : has_char "," (py_str_int z) = false.
Proof.
  unfold py_str_int, NilZero.string_of_int, NilZero.string_of_uint.
  destruct (Z.to_int z) as [d|d]; destruct d; cbn; auto using has_char_uint_comma.
Qed.

Lemma py_str_int_nonempty z : py_str_int z <> EmptyString.
Proof.
  unfold py_str_int, NilZero.string_of_int, NilZero.string_of_uint.
  by destruct (Z.to_int z) as [d|d]; destruct d.
Qed.

Lemma split_first_app sep a b : has_char sep a = false ->
  split_first sep (a ++ String sep b)%string = Some (a, b).
Proof.
  induction a as [|x a IH].
  - rewrite append_EmptyString. cbn. by rewrite Ascii.eqb_refl.
  - rewrite append_String. cbn. intros H. apply orb_false_iff in H as [Hx Ha].
    by rewrite Hx, IH.
Qed.

Lemma split_first_none sep a : has_char sep a = false -> split_first sep a = None.
Proof.
  induction a as [|x a IH]; cbn; [done|]. intros H. apply orb_false_iff in H as [Hx Ha].
  by rewrite Hx, IH.
Qed.

Lemma py_split_app sep n a b : has_char sep a = false ->
  py_split sep (S n) (a ++ String sep b)%string = a :: py_split sep n b.
Proof. intros H. cbn [py_split]. by rewrite split_first_app. Qed.

Lemma py_split_last sep n a : has_char sep a = false -> py_split sep n a = [a].
Proof. intros H. destruct n; cbn; [done|]. by rewrite split_first_none. Qed.

Lemma string_length_app (a b : string) : String.length (a ++ b) = (String.length a + String.length b)%nat.
Proof.
  induction a as [|x a IH]; [by rewrite append_EmptyString|].
  rewrite append_String. cbn. by rewrite IH.
Qed.

Lemma concat_comma_length (l : list string) :
  (List.length l <= S (String.length (String.concat "," l)))%nat.
Proof.
  induction l as [|x [|y l] IH]; cbn -[String.concat] in *; [lia|lia|].
  change (String.concat "," (x :: y :: l)) with (x ++ "," ++ String.concat "," (y :: l))%string.
  rewrite !string_length_app. cbn [String.length]. lia.
Qed.

Lemma py_split_concat n (l : list string) :
  l <> [] -> Forall (fun s => has_char "," s = false) l -> (List.length l <= S n)%nat ->
  py_split "," n (String.concat "," l) = l.
Proof.
  revert n. induction l as [|x [|y l] IH]; intros n Hne Hf Hlen; [done| |].
  - apply Forall_cons in Hf as [Hx _]. cbn. by apply py_split_last.
  - apply Forall_cons in Hf as [Hx Hf].
    change (String.concat "," (x :: y :: l)) with (x ++ String "," (String.concat "," (y :: l)))%string.
    destruct n as [|n]; [cbn in Hlen; lia|].
    rewrite py_split_app by done. f_equal. apply IH; [done|done|cbn in *; lia].
Qed.

Lemma mapM_py_int ids : mapM py_int (map py_str_int ids) = Some ids.
Proof. induction ids as [|i ids IH]; cbn; [done|]. by rewrite py_int_str, IH. Qed.

Lemma py_split_all_join_ids ids : py_split_all "," (join_ids ids) = map py_str_int ids \/ ids = [].
Proof.
  destruct ids as [|i ids]; [by right|left]. unfold py_split_all, join_ids. apply py_split_concat.
  - done.
  - apply Forall_forall. intros s Hs. apply list_elem_of_In, in_map_iff in Hs as (z & <- & _).
    apply py_str_int_no_comma.
  - apply concat_comma_length.
Qed.

Lemma join_ids_empty ids : String.eqb (join_ids ids) "" = true -> ids = [].
Proof.
  destruct ids as [|i ids]; [done|]. intros E%String.eqb_eq. exfalso. unfold join_ids in E.
  destruct ids; cbn in E.
  - by apply (py_str_int_nonempty i).
  - destruct (py_str_int i); discriminate.
Qed.

Lemma parse_join_ids ids : parse_ids (join_ids ids) = Some ids.
Proof.
  unfold parse_ids. destruct (String.eqb (join_ids ids) "") eqn:E.
  - by rewrite (join_ids_empty ids E).
  - destruct (py_split_all_join_ids ids) as [->| ->]; [apply mapM_py_int|done].
Qed.

(** Every id of [10 ^ n] or more takes [n + 1] digits and, after the
    first, a comma. *)
Lemma join_ids_length_ge n ids : Forall (fun i => 10 ^ Z.of_nat n <= i) ids ->
  (List.length ids * (n + 2) <= S (String.length (join_ids ids)))%nat.
Proof.
  unfold join_ids. induction 1 as [|i ids Hi Hids IH]; [cbn; lia|].
  pose proof (py_str_int_length_ge n i Hi). destruct ids as [|j ids].
  { cbn [List.length map]. change (String.concat "," [py_str_int i]) with (py_str_int i). lia. }
  cbn -[String.concat] in *. change (String.concat "," (py_str_int i :: py_str_int j :: map py_str_int ids)) with
    (py_str_int i ++ "," ++ String.concat "," (py_str_int j :: map py_str_int ids))%string.
  rewrite !length_append_str. cbn [String.length]. lia.
Qed.

Lemma join_ids_no_colon ids : has_char ":" (join_ids ids) = false.
Proof.
  unfold join_ids. induction ids as [|i [|j ids] IH]; cbn -[String.concat] in *;
    [done|apply py_str_int_no_colon|].
  change (String.concat "," (py_str_int i :: py_str_int j :: map py_str_int ids)) with
    (py_str_int i ++ "," ++ String.concat "," (py_str_int j :: map py_str_int ids))%string.
  by rewrite !has_char_app, py_str_int_no_colon, IH.
Qed.

Lemma digit_char_not_colon d : 0 <= d < 10 -> Ascii.eqb (digit_char d) ":" = false.
Proof.
  intros Hd. apply Ascii.eqb_neq. intros E.
  apply (f_equal nat_of_ascii) in E. unfold digit_char in E.
  rewrite nat_ascii_embedding in E by lia. change (nat_of_ascii ":") with 58%nat in E. lia.
Qed.

Lemma zfill_no_colon w n : 0 <= n < 10 ^ Z.of_nat w -> has_char ":" (zfill w n) = false.
Proof.
  revert n. induction w as [|w IH]; intros n Hn; [done|].
  rewrite Nat2Z.inj_succ, Z.pow_succ_r in Hn by lia. cbn [zfill has_char].
  assert (Hp : 0 < 10 ^ Z.of_nat w) by (apply Z.pow_pos_nonneg; lia).
  rewrite digit_char_not_colon by (split; [apply Z.div_pos|apply Z.div_lt_upper_bound]; lia).
  apply IH. apply Z.mod_pos_bound. lia.
Qed.

Lemma date_isoformat_no_colon d : valid_date d -> has_char ":" (date_isoformat d) = false.
Proof.
  intros Hd. destruct (valid_date_fits d Hd) as (Hy & Hm & Hdd). unfold date_isoformat.
  rewrite !has_char_app, !zfill_no_colon by done. reflexivity.
Qed.

Lemma py_split_field n a b : has_char ":" a = false ->
  py_split ":" (S n) (a ++ ":" ++ b)%string = a :: py_split ":" n b.
Proof. apply py_split_app. Qed.

(** ** Properties *)

(** C31 Every payload the code builds goes to the handler of its kind,
    and that handler's [split(":")], [int], [split(",")] and
    [fromisoformat] give back exactly the fields it was built from. *)
Theorem parse_render c : payload_ok c ->
  dispatch_callback (render c) = route_of c /\ parse_callback (render c) = Some c.
Proof.
  intros Hc. split; [apply dispatch_render|]. unfold parse_callback. rewrite dispatch_render.
  unfold parse_res, parse_page, parse_book, parse_datepick, parse_month, parse_my_booking, parse_cancel_my.
  destruct c as [|sid page|page ids|rid page ids|st d page|y m st page| | |ids|bid ids];
    cbn [route_of payload_ok render] in *; try done.
  - change ("res:" ++ ?x)%string with ("res" ++ ":" ++ x)%string.
    rewrite !py_split_field by done. done.
  - change ("page:" ++ ?x)%string with ("page" ++ ":" ++ x)%string.
    rewrite !py_split_field by done. cbn [py_split]. by rewrite parse_join_ids.
  - change ("book:" ++ ?x)%string with ("book" ++ ":" ++ x)%string.
    rewrite !py_split_field by auto using py_str_int_no_colon. cbn [py_split].
    by rewrite parse_join_ids, py_int_str.
  - destruct Hc as [Hst Hd].
    change ("datepick:" ++ ?x)%string with ("datepick" ++ ":" ++ x)%string.
    rewrite !py_split_field by auto using date_isoformat_no_colon. cbn [py_split].
    by rewrite fromisoformat_date_isoformat.
  - change ("month:" ++ ?x)%string with ("month" ++ ":" ++ x)%string.
    rewrite !py_split_field by auto using py_str_int_no_colon. cbn [py_split].
    by rewrite !py_int_str.
  - change ("my_booking:" ++ ?x)%string with ("my_booking" ++ ":" ++ x)%string.
    rewrite !py_split_field by done. cbn [py_split]. by rewrite parse_join_ids.
  - change ("cancel_my_booking:" ++ ?x)%string with ("cancel_my_booking" ++ ":" ++ x)%string.
    rewrite !py_split_field by auto using py_str_int_no_colon. cbn [py_split].
    by rewrite py_int_str, parse_join_ids.
Qed.

Lemma parse_render_witness :
  dispatch_callback (render (CDatepick "check_in" (mkDate 2024 6 10) "2")) = RDatepick /\
  parse_callback (render (CDatepick "check_in" (mkDate 2024 6 10) "2")) =
    Some (CDatepick "check_in" (mkDate 2024 6 10) "2").
Proof. apply parse_render. split; [reflexivity|apply valid_dateb_spec; reflexivity]. Defined.

(** C34 The "book" button of a resource card carries the ids of the
    gallery's messages: for every resource id and page, ten photos whose
    message ids have at least five digits make its [callback_data]
    longer than Telegram's limit of 64 bytes, so the card cannot be
    sent. *)
Theorem book_payload_too_long rid page ids :
  List.length ids = 10%nat -> Forall (fun i => 10000 <= i) ids ->
  (CALLBACK_DATA_MAX < String.length (render (CBook rid page ids)))%nat.
Proof.
  intros Hlen Hids. cbn [render].
  assert (String.length (py_str_int rid) <> 0%nat) as Hrid.
  { pose proof (py_str_int_nonempty rid). by destruct (py_str_int rid). }
  assert (Forall (fun i => 10 ^ Z.of_nat 4 <= i) ids) as H4 by (eapply Forall_impl; [exact Hids|done]).
  pose proof (join_ids_length_ge 4 ids H4) as Hj.
  rewrite !length_append_str. unfold CALLBACK_DATA_MAX. cbn. lia.
Qed.

Lemma book_payload_too_long_witness :
  (CALLBACK_DATA_MAX < String.length (render (CBook 12 "3" (map (fun k => (10000 + Z.of_nat k)%Z) (seq 0 10)))))%nat.
Proof. apply book_payload_too_long; [reflexivity|]. vm_compute. repeat constructor; discriminate. Defined.
