(* ===== verification/Config.v ===== *)
(** * Config: the settings read from the environment at import

    [config.py] reads the bot's settings from [os.environ] when [main.py]
    imports it: strings are taken as they are, [MANAGERS_CHAT],
    [ADMIN_IDS], [MYSQL_PORT], [RECORD_PER_PAGE] and [RECORDS_ROWS] go
    through [int(...)], [REFUND_PERCENTS] through [float(...)], and the
    translation named by [LANGUAGE] must be an attribute of the namespace
    built from [language.json].  Any [ValueError] or [AssertionError]
    stops the import, so the bot never starts.  [load_config] is that
    sequence in the error monad [py_exc + _]; the environment is a
    [gmap] from names to values; the keys of [language.json] are an
    input; [float] is a parameter of the section (its parsing is not
    modelled).  The literals of the file ([UPLOAD_BASE], the admin
    console's user, password and IP lock) are definitions; the Flask
    secret key is not used by the model.  The
    theorems: the import succeeds only when [MANAGERS_CHAT] and
    [ADMIN_IDS] are set, [ADMIN_IDS] round-trips through
    [",".join(...)], and a [LANGUAGE] that is not a translation can pass
    the [assert]. *)
From S2P Require Import Prelude Iso Help Callbacks.
From Stdlib Require Import String Ascii DecimalString.
Local Open Scope booking_scope.

(** [os.environ]. *)
Abbreviation environ := (gmap string string).

(** [getenv(key, default)]: a variable set to the empty string is set. *)
Definition getenv (env : environ) (key dflt : string) : string := default dflt (env !! key).

(** [s.lstrip()] and [s.rstrip()] on ASCII white space. *)
Fixpoint lstrip (s : string) : string :=
  match s with
  | EmptyString => EmptyString
  | String c s' => if is_space c then lstrip s' else s
  end.

Fixpoint rstrip (s : string) : string :=
  match s with
  | EmptyString => EmptyString
  | String c s' =>
      let r := rstrip s' in if is_space c && String.eqb r "" then EmptyString else String c r
  end.

Definition strip (s : string) : string := rstrip (lstrip s).

(** [int(s)] on a [str]: white space around the number and one sign are
    allowed ([py_int] reads an optional ["-"] and digits); the digit
    separator ["_"] is not modelled. *)
Definition py_int_strip (s : string) : option Z :=
  match strip s with
  | String c r => if Ascii.eqb c "+" then (if startswith r "-" then None else py_int r)
                  else py_int (String c r)
  | EmptyString => None
  end.

(** [int(...)], raising [ValueError]. *)
Definition int_exc (s : string) : py_exc + Z :=
  match py_int_strip s with Some z => inr z | None => raise ValueError end.

(** [list(map(int, ...))]: the first bad element raises. *)
Fixpoint ints_exc (l : list string) : py_exc + list Z :=
  match l with
  | [] => inr []
  | s :: l' => z ← int_exc s; zs ← ints_exc l'; inr (z :: zs)
  end.

(** The attributes every [SimpleNamespace] has (CPython 3.11): [hasattr]
    finds them as well as the keys given to the constructor. *)
Definition namespace_attrs : list string :=
  ["__class__"; "__delattr__"; "__dict__"; "__dir__"; "__doc__"; "__eq__"; "__format__";
   "__ge__"; "__getattribute__"; "__getstate__"; "__gt__"; "__hash__"; "__init__";
   "__init_subclass__"; "__le__"; "__lt__"; "__ne__"; "__new__"; "__reduce__";
   "__reduce_ex__"; "__repr__"; "__setattr__"; "__sizeof__"; "__str__"; "__subclasshook__"].

(** [hasattr(languages, LANGUAGE)]. *)
Definition hasattr_languages (langs : list string) (name : string) : bool :=
  bool_decide (name ∈ langs) || bool_decide (name ∈ namespace_attrs).

Section Load.
Context {F : Type} (py_float : string -> option F) (float_of_int : Z -> F).

Record config := mkConfig {
  BOT_TOKEN : string; CURRENCY : string; PROVIDER_TOKEN : string;
  MANAGERS_CHAT : Z; ADMIN_IDS : list Z; REFUND_PERCENTS : F;
  DATABASE : string; DB_HOST : string; DB_PORT : Z; DB_USER : string; DB_PASSWORD : string;
  RECORD_PER_PAGE : Z; RECORDS_ROWS : Z; LANGUAGE : string }.

(** [float(getenv("REFUND_PERCENTS", 1))]: the default is the int [1]. *)
Definition refund_exc (env : environ) : py_exc + F :=
  match env !! "REFUND_PERCENTS" with
  | None => inr (float_of_int 1)
  | Some s => match py_float s with Some f => inr f | None => raise ValueError end
  end.

(** The module body of [config.py], top to bottom; [langs] are the keys
    of [language.json]. *)
Definition load_config (env : environ) (langs : list string) : py_exc + config :=
  mc ← int_exc (getenv env "MANAGERS_CHAT" "");
  admins ← ints_exc (py_split_all "," (getenv env "ADMIN_IDS" ""));
  refund ← refund_exc env;
  port ← int_exc (getenv env "MYSQL_PORT" "3306");
  rpp ← int_exc (getenv env "RECORD_PER_PAGE" "6");
  rows ← int_exc (getenv env "RECORDS_ROWS" "2");
  let lang := getenv env "LANGUAGE" "ru" in
  if hasattr_languages langs lang then
    inr (mkConfig (getenv env "BOT_TOKEN" "") (getenv env "CURRENCY" "")
           (getenv env "PROVIDER_TOKEN" "") mc admins refund
           (getenv env "MYSQL_DATABASE" "") (getenv env "MYSQL_HOST" "") port
           (getenv env "MYSQL_USER" "") (getenv env "MYSQL_PASSWORD" "") rpp rows lang)
  else raise AssertionError.

End Load.

Arguments config : clear implicits.

(** The literals of [config.py]: the upload folder, the snapshot file,
    and the admin console's credentials and IP lock. *)
Definition UPLOAD_BASE : string := "images".
Definition STATE_FILE_NAME : string := "states.json".
Definition admin_user : string := "booking_admin".
Definition admin_password : string := "19kt2lAoFpBtXu3q4fSxyQwbYaI3wLvZlEF".
Definition lock_by_ip : bool := false.
Definition allow_ip_list : list string := [].

(** ** Lemmas *)

Lemma getenv_insert_ne env k k' v d : k <> k' -> getenv (<[k := v]> env) k' d = getenv env k' d.
Proof. intros Hne. unfold getenv. by rewrite lookup_insert_ne. Qed.

Lemma getenv_insert env k v d : getenv (<[k := v]> env) k d = v.
Proof. unfold getenv. by rewrite lookup_insert_eq. Qed.

Lemma getenv_unset env k d : env !! k = None -> getenv env k d = d.
Proof. unfold getenv. by intros ->. Qed.

Lemma ints_exc_length l zs : ints_exc l = inr zs -> List.length zs = List.length l.
Proof.
  revert zs. induction l as [|s l IH]; intros zs; cbn; [by intros [= <-]|].
  destruct (int_exc s); [done|]. cbn. destruct (ints_exc l) eqn:E; [done|].
  intros [= <-]. cbn. by rewrite (IH _ eq_refl).
Qed.

Lemma py_split_nonempty sep n s : py_split sep n s <> [].
Proof. destruct n; cbn; [done|]. by destruct (split_first sep s) as [[]|]. Qed.

Fixpoint no_space (s : string) : bool :=
  match s with
  | EmptyString => true
  | String c s' => negb (is_space c) && no_space s'
  end.

Lemma strip_no_space s : no_space s = true -> strip s = s.
Proof.
  intros H. unfold strip. assert (lstrip s = s) as ->.
  { destruct s as [|c s]; [done|]. cbn in *. apply andb_true_iff in H as [H _].
    by destruct (is_space c). }
  induction s as [|c s IH]; [done|]. cbn in *. apply andb_true_iff in H as [Hc H].
  rewrite IH by done. destruct (is_space c); [done|]. done.
Qed.

Lemma no_space_uint d : no_space (NilEmpty.string_of_uint d) = true.
Proof. induction d; cbn; auto. Qed.

Lemma py_int_strip_str z : py_int_strip (py_str_int z) = Some z.
Proof.
  assert (no_space (py_str_int z) = true /\ startswith (py_str_int z) "+" = false) as [Hs Hp].
  { unfold py_str_int, NilZero.string_of_int, NilZero.string_of_uint.
    destruct (Z.to_int z) as [d|d]; destruct d; split; cbn; rewrite ?no_space_uint; reflexivity. }
  unfold py_int_strip. rewrite strip_no_space by done. rewrite <- (py_int_str z).
  destruct (py_str_int z) as [|c r]; [done|]. cbn [startswith] in Hp. rewrite andb_true_r, Ascii.eqb_sym in Hp. by rewrite Hp.
Qed.

Lemma ints_exc_str ids : ints_exc (map py_str_int ids) = inr ids.
Proof.
  induction ids as [|i ids IH]; [done|]. cbn [map ints_exc].
  unfold int_exc. rewrite py_int_strip_str. cbn. by rewrite IH.
Qed.

Lemma ints_exc_unset : ints_exc (py_split_all "," "") = raise ValueError.
Proof. reflexivity. Qed.

(** The configuration with [ADMIN_IDS] replaced. *)
Definition with_admin_ids {F} (c : config F) (ids : list Z) : config F :=
  mkConfig (BOT_TOKEN c) (CURRENCY c) (PROVIDER_TOKEN c) (MANAGERS_CHAT c) ids (REFUND_PERCENTS c)
    (DATABASE c) (DB_HOST c) (DB_PORT c) (DB_USER c) (DB_PASSWORD c)
    (RECORD_PER_PAGE c) (RECORDS_ROWS c) (LANGUAGE c).

Lemma refund_exc_insert_ne {F} (py_float : string -> option F) fl env k v :
  k <> "REFUND_PERCENTS" -> refund_exc py_float fl (<[k := v]> env) = refund_exc py_float fl env.
Proof. intros Hk. unfold refund_exc. by rewrite lookup_insert_ne. Qed.

(** A deployment: the managers' group, two admins written with spaces,
    one page of zero records, [LANGUAGE] set to a namespace attribute;
    [float] is left out (no [REFUND_PERCENTS]). *)
Definition cfg_sc_env : environ :=
  list_to_map [("MANAGERS_CHAT", "-1001"); ("ADMIN_IDS", " 1, 2"); ("RECORD_PER_PAGE", "0");
               ("RECORDS_ROWS", "0"); ("LANGUAGE", "__doc__")].

Definition cfg_sc_langs : list string := ["ru"; "en"].

(** ** Properties *)

Section Props.
Context {F : Type} (py_float : string -> option F) (float_of_int : Z -> F).

(** C33 The bot starts only if [MANAGERS_CHAT] and [ADMIN_IDS] are set
    in the environment (their default [""] makes [int] raise), with at
    least one admin, and with a [LANGUAGE] that [hasattr] finds. *)
Theorem load_config_requires env langs c :
  load_config py_float float_of_int env langs = inr c ->
  is_Some (env !! "MANAGERS_CHAT") /\ is_Some (env !! "ADMIN_IDS") /\ ADMIN_IDS c <> [] /\
  hasattr_languages langs (LANGUAGE c) = true.
Proof.
  intros H. unfold load_config in H. inv_bind H.
  destruct (hasattr_languages _ _) eqn:Hl; [|done]. injection H as <-. cbn. split_and!.
  - destruct (env !! "MANAGERS_CHAT") eqn:E; [done|]. by rewrite getenv_unset in Hx.
  - destruct (env !! "ADMIN_IDS") eqn:E; [done|]. by rewrite getenv_unset, ints_exc_unset in Hx0.
  - apply ints_exc_length in Hx0. intros ->. destruct (py_split_all _ _) eqn:E; [|done].
    by apply py_split_nonempty in E.
  - done.
Qed.

(** C32 Setting [ADMIN_IDS] to [",".join(str(i) for i in ids)] for a
    non-empty list configures exactly those admins and changes nothing
    else of a configuration that loads. *)
Theorem admin_ids_roundtrip env langs c ids : ids <> [] ->
  load_config py_float float_of_int env langs = inr c ->
  load_config py_float float_of_int (<["ADMIN_IDS" := join_ids ids]> env) langs = inr (with_admin_ids c ids).
Proof.
  intros Hne H. unfold load_config in *. rewrite getenv_insert, !getenv_insert_ne by done.
  rewrite refund_exc_insert_ne by done.
  destruct (py_split_all_join_ids ids) as [->| ->]; [|done]. rewrite ints_exc_str.
  inv_bind H. destruct (hasattr_languages _ _); [|done]. by injection H as <-.
Qed.

End Props.

Lemma load_config_requires_witness :
  load_config (fun _ => None) id cfg_sc_env cfg_sc_langs =
    inr (mkConfig "" "" "" (-1001) [1; 2] 1 "" "" 3306 "" "" 0 0 "__doc__") /\
  is_Some (cfg_sc_env !! "MANAGERS_CHAT") /\ is_Some (cfg_sc_env !! "ADMIN_IDS") /\
  ADMIN_IDS (mkConfig "" "" "" (-1001) [1; 2] 1 "" "" 3306 "" "" 0 0 "__doc__") <> [] /\
  hasattr_languages cfg_sc_langs "__doc__" = true.
Proof.
  assert (load_config (fun _ => None) id cfg_sc_env cfg_sc_langs =
    inr (mkConfig "" "" "" (-1001) [1; 2] 1 "" "" 3306 "" "" 0 0 "__doc__")) as H by reflexivity.
  split; [exact H|]. apply (load_config_requires (fun _ => None) id cfg_sc_env cfg_sc_langs _ H).
Defined.

Lemma admin_ids_roundtrip_witness :
  load_config (fun _ => None) id (<["ADMIN_IDS" := join_ids [7; 42]]> cfg_sc_env) cfg_sc_langs =
    inr (with_admin_ids (mkConfig "" "" "" (-1001) [1; 2] 1 "" "" 3306 "" "" 0 0 "__doc__") [7; 42]).
Proof. apply (admin_ids_roundtrip (fun _ => None) id); [done|reflexivity]. Defined.

(** [config.py] accepts settings the bot cannot run with: a
    [LANGUAGE] that is no translation but an attribute every
    [SimpleNamespace] has ([texts] becomes its docstring, and the first
    [texts.start_command] raises [AttributeError]), and [RECORD_PER_PAGE]
    and [RECORDS_ROWS] of [0] ([math.ceil(total / 0)] and
    [range(0, n, 0)] raise in [build_resources_keyboard]). *)
Example config_accepts_bad_settings :
  exists c, load_config (fun _ => None) id cfg_sc_env cfg_sc_langs = inr c /\
    (LANGUAGE c ∉ cfg_sc_langs) /\ RECORD_PER_PAGE c = 0 /\ RECORDS_ROWS c = 0 /\ ADMIN_IDS c = [1; 2].
Proof. eexists. split; [reflexivity|]. cbn. split_and!; [set_solver|done..]. Qed.
