(* ===== verification/AdminImages.v ===== *)
(** * AdminImages: the image uploads of the admin console and the gallery

    [admin.py], [SecureImageView]: an [Images] row names a file
    [UPLOAD_BASE/<resource id>/<filename>].  Creating a row uploads up to
    five files ([on_model_change]: at least one named file, at most five,
    at most five in the folder), each saved under the next free number
    ([max] of the numeric stems, plus one); the first file's name goes to
    the row being created, which Flask-Admin saves after the hook, every
    further file gets a row of its own at once.  Deleting a row deletes
    its file ([delete_file], with a [basename] check) and the folder once
    empty; the bulk action does the same row by row.  [ResourceView]
    deletes a resource's folder and, through [delete_instance(recursive=True)],
    its image and booking rows.  The bot's resource card ([main.py],
    [callback_resource]) sends the files of the resource's rows, in id
    order, that exist, as one media group.

    The state is the database of [Models], the [Images] table in id order
    with its next id, and the upload directory as a map from resource id
    to the set of file names of its folder.  File contents, [created]
    stamps of the files and the flash texts are not modelled; names are
    ASCII strings. *)
From S2P Require Import Prelude Dates Iso Models Help Callbacks Config Admin.
From Stdlib Require Import String Ascii DecimalString.
Local Open Scope booking_scope.

(** ** Strings and paths *)

(** [os.path.basename]: the text after the last ["/"]. *)
Fixpoint basename (s : string) : string :=
  match s with
  | EmptyString => EmptyString
  | String c s' => if Ascii.eqb c "/" then basename s' else if has_char "/" s' then basename s' else s
  end.

Definition is_digit (c : ascii) : bool := let n := nat_of_ascii c in ((48 <=? n) && (n <=? 57))%nat.

(** [str.isdigit] on ASCII: non-empty and all digits. *)
Fixpoint all_digits (s : string) : bool :=
  match s with
  | EmptyString => true
  | String c s' => is_digit c && all_digits s'
  end.

Definition isdigit (s : string) : bool := negb (String.eqb s "") && all_digits s.

(** The root and the extension (without its dot) at the last ["."]. *)
Fixpoint split_last_dot (s : string) : option (string * string) :=
  match s with
  | EmptyString => None
  | String c s' =>
      match split_last_dot s' with
      | Some (r, e) => Some (String c r, e)
      | None => if Ascii.eqb c "." then Some (EmptyString, s') else None
      end
  end.

Fixpoint all_dots (s : string) : bool :=
  match s with
  | EmptyString => true
  | String c s' => Ascii.eqb c "." && all_dots s'
  end.

(** [os.path.splitext] on a name without ["/"]: leading dots do not
    start an extension. *)
Definition splitext (p : string) : string * string :=
  match split_last_dot p with
  | Some (root, ext) => if all_dots root then (p, "") else (root, String "." ext)
  | None => (p, "")
  end.

(** [f.split('.')[0]]. *)
Definition stem (f : string) : string :=
  match split_first "." f with Some (a, _) => a | None => f end.

Fixpoint string_map (f : ascii -> ascii) (s : string) : string :=
  match s with
  | EmptyString => EmptyString
  | String c s' => String (f c) (string_map f s')
  end.

Fixpoint string_filter (p : ascii -> bool) (s : string) : string :=
  match s with
  | EmptyString => EmptyString
  | String c s' => if p c then String c (string_filter p s') else string_filter p s'
  end.

(** [str.lower] on ASCII. *)
Definition ascii_lower (c : ascii) : ascii :=
  let n := nat_of_ascii c in if ((65 <=? n) && (n <=? 90))%nat then ascii_of_nat (n + 32)%nat else c.

(** werkzeug's [secure_filename] on ASCII names: separators become
    spaces, white-space runs become ["_"], characters outside
    [A-Za-z0-9_.-] are dropped, and dots and underscores are stripped
    from both ends. *)
Definition fn_char_ok (c : ascii) : bool :=
  let n := nat_of_ascii c in
  (((48 <=? n) && (n <=? 57)) || ((65 <=? n) && (n <=? 90)) || ((97 <=? n) && (n <=? 122)) ||
   (n =? 95) || (n =? 46) || (n =? 45))%nat.

Fixpoint words_join (s : string) (pending : bool) : string :=
  match s with
  | EmptyString => EmptyString
  | String c s' =>
      if is_space c || Ascii.eqb c "/" then words_join s' true
      else (if pending then String "_" (String c (words_join s' false)) else String c (words_join s' false))
  end.

Definition strip_dot_us (c : ascii) : bool := Ascii.eqb c "." || Ascii.eqb c "_".

Fixpoint lstrip_by (p : ascii -> bool) (s : string) : string :=
  match s with
  | EmptyString => EmptyString
  | String c s' => if p c then lstrip_by p s' else s
  end.

Fixpoint rstrip_by (p : ascii -> bool) (s : string) : string :=
  match s with
  | EmptyString => EmptyString
  | String c s' => let r := rstrip_by p s' in if p c && String.eqb r "" then EmptyString else String c r
  end.

(** [words_join] drops leading white space: ["_".join(filename.split())]. *)
Definition secure_filename (s : string) : string :=
  rstrip_by strip_dot_us (lstrip_by strip_dot_us
    (string_filter fn_char_ok (words_join (lstrip_by (fun c => is_space c || Ascii.eqb c "/") s) false))).

(** [splitext(secure_filename(uploaded.filename))[1].lower().replace('.', '')]. *)
Definition ext_of (name : string) : string :=
  string_filter (fun c => negb (Ascii.eqb c ".")) (string_map ascii_lower (splitext (secure_filename name)).2).

(** ** State *)

(** [class Images(BaseModel)]. *)
Record image := mkImage { i_id : Z; i_filename : string; i_resource : Z; i_created : datetime }.

(** The folders of [UPLOAD_BASE], by resource id ([str(resource.id)]). *)
Abbreviation upload_dir := (gmap Z (gset string)).

(** The database, the [Images] table in id order with its next id, and
    the upload directory. *)
Record astore := mkAStore {
  a_db : db; a_images : list image; a_next_image : Z; a_fs : upload_dir }.

(** [listdir(resource_folder)], empty when the folder does not exist. *)
Definition folder (fs : upload_dir) (rid : Z) : gset string := default ∅ (fs !! rid).

(** [Images.create(...)] and [model.save()] of a new row: the next id. *)
Definition image_insert (s : astore) (rid : Z) (fn : string) (now : datetime) : astore :=
  mkAStore (a_db s) (a_images s ++ [mkImage (a_next_image s) fn rid now]) (a_next_image s + 1) (a_fs s).

Definition set_fs (s : astore) (fs : upload_dir) : astore :=
  mkAStore (a_db s) (a_images s) (a_next_image s) fs.

(** ** Upload: [SecureImageView.on_model_change] and the row's save *)

(** [makedirs(resource_folder)] and [uploaded.save(file_path)]. *)
Definition save_file (s : astore) (rid : Z) (fn : string) : astore :=
  set_fs s (<[rid := {[fn]} ∪ folder (a_fs s) rid]> (a_fs s)).

(** [[int(splitext(f)[0]) for f in existing_files if f.split('.')[0].isdigit()]]:
    [int] raises on a stem like ["1.2"] of ["1.2.png"]. *)
Definition existing_numbers (files : list string) : py_exc + list Z :=
  ints_exc (map (fun f => (splitext f).1) (List.filter (fun f => isdigit (stem f)) files)).

(** [max(existing_numbers, default=0) + 1]. *)
Definition next_number (nums : list Z) : Z := fold_left Z.max nums 0 + 1.

(** [f"{next_number}.{ext}"]. *)
Definition numbered_name (n : Z) (ext : string) : string := py_str_int n ++ "." ++ ext.

(** One turn of [for uploaded in files]: the file is saved under the
    next number; the first name goes to [model.filename] (not yet
    saved), each later one to a row created at once.  A [ValueError] of
    [int] stops the loop with the work done so far. *)
Fixpoint upload_loop (rid : Z) (now : datetime) (s : astore) (first : option string)
    (files : list string) : astore * option string * option py_exc :=
  match files with
  | [] => (s, first, None)
  | name :: rest =>
      match existing_numbers (elements (folder (a_fs s) rid)) with
      | inl e => (s, first, Some e)
      | inr nums =>
          let fn := numbered_name (next_number nums) (ext_of name) in
          let s' := save_file s rid fn in
          match first with
          | Some _ => upload_loop rid now (image_insert s' rid fn now) first rest
          | None => upload_loop rid now s' (Some fn) rest
          end
      end
  end.

(** The upload limit of a resource's folder. *)
Definition MAX_FILES : nat := 5.

(** [on_model_change(form, model, is_created=True)]: [files] are the
    names of [request.files.getlist("file_upload")]; the loop runs over
    all of them, the checks count the named ones. *)
Definition on_model_change_image (s : astore) (rid : Z) (now : datetime) (files : list string)
    : astore * option string * option py_exc :=
  let named := List.filter (fun f => negb (String.eqb f "")) files in
  if bool_decide (named = []) then (s, None, Some ValidationError)
  else if (MAX_FILES <? List.length named)%nat then (s, None, Some ValidationError)
  else if (MAX_FILES <? size (folder (a_fs s) rid) + List.length named)%nat then (s, None, Some ValidationError)
  else upload_loop rid now s None files.

(** Flask-Admin's [create_model]: the hook, then [model.save()] of the
    row with the first file's name; an exception of the hook is flashed
    and the row is not saved (what the hook did stays). *)
Definition image_create_model (s : astore) (rid : Z) (now : datetime) (files : list string)
    : astore * option py_exc :=
  match on_model_change_image s rid now files with
  | (s', Some fn, None) => (image_insert s' rid fn now, None)
  | (s', _, Some e) => (s', Some e)
  | (s', None, None) => (s', None)   (** unreachable: the checks leave a file *)
  end.

(** ** Deletion *)

(** The flash messages of [delete_file]. *)
Inductive flash := FlashBadName | FlashRemoveFailed.

(** [delete_file(model)]: a name whose [basename] differs is refused;
    otherwise the file is removed if it exists ([remove] of ["."] or
    [".."], which exist as directories, fails and is flashed), and the
    folder is removed once empty. *)
Definition delete_file (fs : upload_dir) (im : image) : upload_dir * list flash :=
  let fn := i_filename im in
  let rid := i_resource im in
  if String.eqb fn "" then (fs, [])
  else if negb (String.eqb (basename fn) fn) then (fs, [FlashBadName])
  else
    let '(fs', fl) :=
      match fs !! rid with
      | Some fo =>
          if String.eqb fn "." || String.eqb fn ".." then (fs, [FlashRemoveFailed])
          else if bool_decide (fn ∈ fo) then (<[rid := fo ∖ {[fn]}]> fs, []) else (fs, [])
      | None => (fs, [])
      end in
    match fs' !! rid with
    | Some fo => if bool_decide (fo = ∅) then (delete rid fs', fl) else (fs', fl)
    | None => (fs', fl)
    end.

(** [model.delete_instance()] of an [Images] row. *)
Definition image_row_delete (s : astore) (i : Z) : astore :=
  mkAStore (a_db s) (List.filter (fun im => negb (i_id im =? i)) (a_images s)) (a_next_image s) (a_fs s).

(** [SecureImageView.delete_model]: the file, then the row. *)
Definition image_delete_model (s : astore) (im : image) : astore * list flash :=
  let '(fs', fl) := delete_file (a_fs s) im in (image_row_delete (set_fs s fs') (i_id im), fl).

(** [SecureImageView.action_delete(ids)]: the selected rows in id order,
    each with its file; the count. *)
Definition image_action_delete (s : astore) (ids : list Z) : astore * Z :=
  fold_left (fun '(s, count) im => ((image_delete_model s im).1, count + 1))
    (List.filter (fun im => bool_decide (i_id im ∈ ids)) (a_images s)) (s, 0).

(** Editing a row ([edit_form] without the upload field): only its
    [resource] changes; the file stays where it is. *)
Definition image_update_model (s : astore) (i rid : Z) : astore :=
  mkAStore (a_db s)
    (map (fun im => if i_id im =? i then mkImage (i_id im) (i_filename im) rid (i_created im) else im) (a_images s))
    (a_next_image s) (a_fs s).

(** [ResourceView.delete_folder(model)]: [shutil.rmtree] of the folder. *)
Definition delete_folder (fs : upload_dir) (rid : Z) : upload_dir := delete rid fs.

(** [ResourceView.delete_model]: the folder, then
    [delete_instance(recursive=True)]: the image and booking rows of the
    resource, then the resource. *)
Definition resource_delete_model_store (s : astore) (rid : Z) : astore :=
  mkAStore (resource_delete_instance (a_db s) rid)
    (List.filter (fun im => negb (i_resource im =? rid)) (a_images s)) (a_next_image s)
    (delete_folder (a_fs s) rid).

(** [ResourceView.action_delete(ids)]: the same for every selected resource. *)
Definition resource_action_delete_store (s : astore) (ids : list Z) : astore * Z :=
  fold_left (fun '(s, count) rid => (resource_delete_model_store s rid, count + 1))
    (List.filter (fun rid => bool_decide (rid ∈ ids)) (map fst (map_to_list (db_resources (a_db s)))))
    (s, 0).

(** ** The gallery of the resource card ([main.py], [callback_resource]) *)

(** [Images.select().where(Images.resource == res).order_by(Images.id)],
    keeping the files for which [isfile(path)] holds. *)
Definition gallery_files (s : astore) (rid : Z) : list string :=
  List.filter (fun fn => bool_decide (fn ∈ folder (a_fs s) rid))
    (map i_filename (List.filter (fun im => i_resource im =? rid) (a_images s))).

(** The Bot API's [sendMediaGroup] takes 2 to 10 items. *)
Definition MEDIA_GROUP_MIN : nat := 2.
Definition MEDIA_GROUP_MAX : nat := 10.

(** [bot.send_media_group(chat, media) if media else []]: [sent] are the
    ids of the messages Telegram returns. *)
Definition send_gallery (s : astore) (rid : Z) (sent : list Z) : py_exc + list Z :=
  let n := List.length (gallery_files s rid) in
  if (n =? 0)%nat then inr []
  else if ((MEDIA_GROUP_MIN <=? n) && (n <=? MEDIA_GROUP_MAX))%nat then inr (take n sent)
  else raise ApiTelegramException.

(** [for gallery_id in remove_ids.split(","): bot.delete_message(..., int(gallery_id))]:
    the ids deleted before [int] raises. *)
Fixpoint delete_messages (l : list string) : list Z * option py_exc :=
  match l with
  | [] => ([], None)
  | x :: l' =>
      match int_exc x with
      | inl e => ([], Some e)
      | inr z => let '(ds, e) := delete_messages l' in (z :: ds, e)
      end
  end.

(** [remove_images(remove_ids, cq)] on the string of a payload: the
    messages deleted, and [True] when there was a gallery (the picker is
    then redrawn on page 1), [False] for the empty string. *)
Definition remove_images (remove_ids : string) : list Z * (py_exc + bool) :=
  if String.eqb remove_ids "" then ([], inr false)
  else
    match delete_messages (py_split_all "," remove_ids) with
    | (ds, Some e) => (ds, inl e)
    | (ds, None) => (ds, inr true)
    end.

(** ** The consistency of rows and files *)

(** A name [delete_file] accepts and removes: non-empty, its own
    [basename], and not ["."] or [".."]. *)
Definition valid_name (fn : string) : bool :=
  negb (String.eqb fn "") && String.eqb (basename fn) fn &&
  negb (String.eqb fn ".") && negb (String.eqb fn "..").

Definition row_file (im : image) : Z * string := (i_resource im, i_filename im).

(** Every row names a valid file of its resource's folder, no two rows
    name the same file, ids are unique and below the next id. *)
Definition consistent (s : astore) : Prop :=
  (forall im, In im (a_images s) ->
     valid_name (i_filename im) = true /\ i_filename im ∈ folder (a_fs s) (i_resource im)) /\
  NoDup (map row_file (a_images s)) /\ NoDup (map i_id (a_images s)) /\
  (forall im, In im (a_images s) -> i_id im < a_next_image s).

(** During the upload loop: the first file's name, not yet a row. *)
Definition pending_ok (s : astore) (rid : Z) (first : option string) : Prop :=
  forall f, first = Some f ->
    valid_name f = true /\ f ∈ folder (a_fs s) rid /\ ~ In (rid, f) (map row_file (a_images s)).

(** The invariant as a test. *)
Definition consistentb (s : astore) : bool :=
  forallb (fun im => valid_name (i_filename im) && bool_decide (i_filename im ∈ folder (a_fs s) (i_resource im)))
    (a_images s) &&
  bool_decide (NoDup (map row_file (a_images s))) && bool_decide (NoDup (map i_id (a_images s))) &&
  forallb (fun im => i_id im <? a_next_image s) (a_images s).

(** A resource [7] with an empty folder, and three photos uploaded at once. *)
Definition img_sc_now : datetime := mkDateTime (mkDate 2024 6 1) 12 0 0 0.

Definition img_sc_empty : astore :=
  mkAStore (mkDb [] {[7 := mkResource "Main st." 10000 None 1 img_sc_now img_sc_now]} 1) [] 1 ∅.

Definition img_sc_three : astore := (image_create_model img_sc_empty 7 img_sc_now ["a.JPG"; "b.png"; "c.gif"]).1.

(** ** Lemmas on names *)

Lemma numbered_name_eq n ext : numbered_name n ext = (py_str_int n ++ String "." ext)%string.
Proof. unfold numbered_name. by rewrite append_String, append_EmptyString. Qed.

Lemma has_char_all_digits c s : all_digits s = true -> is_digit c = false -> has_char c s = false.
Proof.
  induction s as [|x s IH]; cbn; [done|]. intros [Hx Hs]%andb_true_iff Hc.
  rewrite IH by done. destruct (Ascii.eqb_spec x c); [congruence|done].
Qed.

Lemma all_digits_uint d : all_digits (NilEmpty.string_of_uint d) = true.
Proof. induction d; cbn; rewrite ?IHd; reflexivity. Qed.

Lemma py_str_int_digits z : 0 <= z -> all_digits (py_str_int z) = true.
Proof.
  intros Hz. unfold py_str_int, NilZero.string_of_int, NilZero.string_of_uint.
  destruct z as [|p|p]; [reflexivity| |lia]. cbn [Z.to_int].
  destruct (Pos.to_uint p); cbn; rewrite ?all_digits_uint; reflexivity.
Qed.

Lemma isdigit_py_str_int z : 0 <= z -> isdigit (py_str_int z) = true.
Proof.
  intros Hz. unfold isdigit. rewrite py_str_int_digits by done.
  destruct (String.eqb_spec (py_str_int z) ""); [|done]. by destruct (py_str_int_nonempty z).
Qed.

Lemma has_char_string_filter c p s : p c = false -> has_char c (string_filter p s) = false.
Proof.
  intros Hc. induction s as [|x s IH]; cbn; [done|].
  destruct (p x) eqn:Hx; cbn; [|done]. rewrite IH. destruct (Ascii.eqb_spec x c); [congruence|done].
Qed.

Lemma ext_of_no_dot name : has_char "." (ext_of name) = false.
Proof. apply has_char_string_filter. reflexivity. Qed.

Lemma split_last_dot_none s : has_char "." s = false -> split_last_dot s = None.
Proof.
  induction s as [|c s IH]; cbn; [done|]. intros [Hc Hs]%orb_false_iff.
  rewrite IH by done. by rewrite Hc.
Qed.

Lemma split_last_dot_app a e : has_char "." e = false ->
  split_last_dot (a ++ String "." e)%string = Some (a, e).
Proof.
  intros He. induction a as [|c a IH].
  - rewrite append_EmptyString. cbn. by rewrite split_last_dot_none.
  - rewrite append_String. cbn [split_last_dot]. by rewrite IH.
Qed.

Lemma digits_not_dots s : all_digits s = true -> s <> ""%string -> all_dots s = false.
Proof. destruct s as [|c s]; [done|]. cbn. intros [Hc _]%andb_true_iff _. by destruct c as [[][][][][][][][]]. Qed.

Lemma stem_numbered n ext : 0 <= n -> stem (numbered_name n ext) = py_str_int n.
Proof.
  intros Hn. unfold stem. rewrite numbered_name_eq, split_first_app; [done|].
  apply has_char_all_digits; [by apply py_str_int_digits|reflexivity].
Qed.

Lemma splitext_numbered n ext : 0 <= n -> has_char "." ext = false ->
  splitext (numbered_name n ext) = (py_str_int n, String "." ext).
Proof.
  intros Hn He. unfold splitext. rewrite numbered_name_eq, split_last_dot_app by done.
  rewrite digits_not_dots; [done|by apply py_str_int_digits|apply py_str_int_nonempty].
Qed.

(** ** Numbering *)

Lemma ints_exc_In l zs s : ints_exc l = inr zs -> In s l -> exists z, int_exc s = inr z /\ In z zs.
Proof.
  revert zs. induction l as [|x l IH]; intros zs; cbn; [done|].
  destruct (int_exc x) as [|z] eqn:Hx; [done|]. cbn.
  destruct (ints_exc l) as [|zs'] eqn:Hl; [done|]. intros [= <-] [->|Hin].
  - exists z. split; [done|by left].
  - destruct (IH zs' eq_refl Hin) as (z' & ? & ?). exists z'. split; [done|by right].
Qed.

Lemma ints_exc_error l e : ints_exc l = inl e -> e = ValueError.
Proof.
  induction l as [|x l IH]; cbn; [done|]. unfold int_exc at 1.
  destruct (py_int_strip x); cbn; [|by intros [=]].
  destruct (ints_exc l); cbn; [auto|done].
Qed.

Lemma fold_max_spec l acc :
  acc <= fold_left Z.max l acc /\ forall z, In z l -> z <= fold_left Z.max l acc.
Proof.
  revert acc. induction l as [|x l IH]; intros acc; cbn; [split; [lia|done]|].
  destruct (IH (Z.max acc x)) as [H1 H2]. split; [lia|]. intros z [->|Hz]; [lia|auto].
Qed.

Lemma next_number_pos nums : 0 < next_number nums.
Proof. unfold next_number. pose proof (fold_max_spec nums 0). lia. Qed.

Lemma next_number_gt nums z : In z nums -> z < next_number nums.
Proof. unfold next_number. intros Hz. pose proof (proj2 (fold_max_spec nums 0) z Hz). lia. Qed.

(** A numbered file of the folder is among the numbers [existing_numbers] reads. *)
Lemma existing_numbers_In files nums n ext : existing_numbers files = inr nums -> 0 <= n ->
  has_char "." ext = false -> In (numbered_name n ext) files -> In n nums.
Proof.
  intros H Hn He Hin. unfold existing_numbers in H.
  destruct (ints_exc_In _ _ (py_str_int n) H) as (z & Hz & Hzin).
  - apply in_map_iff. exists (numbered_name n ext). rewrite splitext_numbered by done.
    split; [done|]. apply in_filter_iff. by rewrite stem_numbered, isdigit_py_str_int.
  - unfold int_exc in Hz. rewrite py_int_strip_str in Hz. by injection Hz as ->.
Qed.

(** The name an upload picks is not yet in the folder: no file is overwritten. *)
Lemma upload_name_fresh (fo : gset string) nums name : existing_numbers (elements fo) = inr nums ->
  numbered_name (next_number nums) (ext_of name) ∉ fo.
Proof.
  intros H Hin. apply elem_of_elements, list_elem_of_In in Hin.
  pose proof (next_number_pos nums).
  eapply existing_numbers_In in Hin; [|done|lia|apply ext_of_no_dot].
  apply next_number_gt in Hin. lia.
Qed.

Lemma basename_no_slash s : has_char "/" s = false -> basename s = s.
Proof. destruct s as [|c s]; cbn; [done|]. intros [Hc Hs]%orb_false_iff. by rewrite Hc, Hs. Qed.

Lemma ascii_lower_slash c : Ascii.eqb (ascii_lower c) "/" = Ascii.eqb c "/".
Proof. destruct c as [[][][][][][][][]]; reflexivity. Qed.

Lemma has_char_lower s : has_char "/" (string_map ascii_lower s) = has_char "/" s.
Proof. induction s as [|c s IH]; cbn; [done|]. by rewrite ascii_lower_slash, IH. Qed.

Lemma has_char_filter_sub c p s : has_char c s = false -> has_char c (string_filter p s) = false.
Proof.
  induction s as [|x s IH]; cbn; [done|]. intros [Hx Hs]%orb_false_iff.
  destruct (p x); cbn; rewrite ?Hx; auto.
Qed.

Lemma has_char_lstrip c p s : has_char c s = false -> has_char c (lstrip_by p s) = false.
Proof.
  induction s as [|x s IH]; cbn; [done|]. intros H. pose proof H as [_ Hs]%orb_false_iff.
  destruct (p x); [auto|done].
Qed.

Lemma has_char_rstrip c p s : has_char c s = false -> has_char c (rstrip_by p s) = false.
Proof.
  induction s as [|x s IH]; cbn; [done|]. intros [Hx Hs]%orb_false_iff.
  destruct (p x && String.eqb (rstrip_by p s) ""); cbn; [done|]. by rewrite Hx, IH.
Qed.

Lemma secure_filename_no_slash name : has_char "/" (secure_filename name) = false.
Proof. unfold secure_filename. apply has_char_rstrip, has_char_lstrip, has_char_string_filter. reflexivity. Qed.

Lemma split_last_dot_suffix c p r e : split_last_dot p = Some (r, e) -> has_char c p = false -> has_char c e = false.
Proof.
  revert r. induction p as [|x p IH]; intros r; cbn; [done|].
  destruct (split_last_dot p) as [[r' e']|] eqn:E.
  - intros [= _ <-] [_ Hp]%orb_false_iff. by apply (IH r').
  - destruct (Ascii.eqb x "."); [|done]. intros [= _ <-] [_ Hp]%orb_false_iff. done.
Qed.

Lemma ext_of_no_slash name : has_char "/" (ext_of name) = false.
Proof.
  unfold ext_of. apply has_char_filter_sub. rewrite has_char_lower.
  pose proof (secure_filename_no_slash name) as H. unfold splitext.
  destruct (split_last_dot (secure_filename name)) as [[r e]|] eqn:E; [|done].
  destruct (all_dots r); [done|]. cbn. by rewrite (split_last_dot_suffix _ _ _ _ E H).
Qed.

Lemma valid_numbered n name : 0 <= n -> valid_name (numbered_name n (ext_of name)) = true.
Proof.
  intros Hn. pose proof (py_str_int_digits n Hn) as Hd. pose proof (py_str_int_nonempty n) as Hne.
  assert (has_char "/" (numbered_name n (ext_of name)) = false) as Hs.
  { rewrite numbered_name_eq, has_char_app. cbn [has_char].
    rewrite has_char_all_digits, ext_of_no_slash by done. reflexivity. }
  unfold valid_name. rewrite basename_no_slash, String.eqb_refl by done.
  rewrite numbered_name_eq. destruct (py_str_int n) as [|c r]; [done|].
  cbn in Hd. apply andb_true_iff in Hd as [Hc _].
  rewrite append_String. by destruct c as [[][][][][][][][]].
Qed.

(** ** Upload preserves consistency and adds fresh files *)

Lemma folder_insert_eq fs rid X : folder (<[rid := X]> fs) rid = X.
Proof. unfold folder. by rewrite lookup_insert_eq. Qed.

Lemma folder_insert_ne fs rid r X : rid <> r -> folder (<[rid := X]> fs) r = folder fs r.
Proof. intros Hne. unfold folder. by rewrite lookup_insert_ne. Qed.

Lemma folder_grow fs rid fn r : folder fs r ⊆ folder (<[rid := {[fn]} ∪ folder fs rid]> fs) r.
Proof.
  destruct (decide (rid = r)) as [->|Hne]; [rewrite folder_insert_eq; set_solver|].
  by rewrite folder_insert_ne.
Qed.

Lemma consistent_set_fs s fs' : consistent s -> (forall r, folder (a_fs s) r ⊆ folder fs' r) ->
  consistent (set_fs s fs').
Proof.
  intros (Hf & Hn & Hi & Hb) Hsub. split_and!; [|done|done|done].
  intros im Him. destruct (Hf im Him) as [Hv Hin]. split; [done|]. cbn. by apply Hsub.
Qed.

Lemma fresh_not_row s rid fn : consistent s -> fn ∉ folder (a_fs s) rid ->
  ~ In (rid, fn) (map row_file (a_images s)).
Proof.
  intros (Hf & _) Hfn (im & Heq & Him)%in_map_iff. unfold row_file in Heq. injection Heq as <- <-.
  by apply Hfn, Hf.
Qed.

Lemma consistent_insert s rid fn now : consistent s -> valid_name fn = true ->
  fn ∈ folder (a_fs s) rid -> ~ In (rid, fn) (map row_file (a_images s)) ->
  consistent (image_insert s rid fn now).
Proof.
  intros (Hf & Hn & Hi & Hb) Hv Hin Hnot. unfold image_insert. split_and!; cbn.
  - intros im [Him|[<-|[]]]%in_app_iff; auto.
  - rewrite map_app. apply NoDup_app. split_and!; [done| |apply NoDup_singleton].
    intros x Hx [<-|[]]%list_elem_of_In. by apply Hnot, list_elem_of_In.
  - rewrite map_app. apply NoDup_app. split_and!; [done| |apply NoDup_singleton].
    intros x Hx [<-|[]]%list_elem_of_In. apply list_elem_of_In, in_map_iff in Hx as (im & Heq & Him).
    specialize (Hb im Him). cbn in Heq. lia.
  - intros im [Him|[<-|[]]]%in_app_iff; cbn; [specialize (Hb im Him)|]; lia.
Qed.

Lemma upload_step_consistent s rid fn first : consistent s -> pending_ok s rid first ->
  valid_name fn = true -> fn ∉ folder (a_fs s) rid ->
  consistent (save_file s rid fn) /\ fn ∈ folder (a_fs (save_file s rid fn)) rid /\
  ~ In (rid, fn) (map row_file (a_images (save_file s rid fn))) /\
  pending_ok (save_file s rid fn) rid first /\ (forall f, first = Some f -> f <> fn).
Proof.
  intros Hc Hp Hv Hfresh. assert (consistent (save_file s rid fn)) as Hc'
    by (apply consistent_set_fs; auto using folder_grow).
  unfold save_file in *. split_and!; [done|..].
  - cbn. rewrite folder_insert_eq. set_solver.
  - cbn. by apply fresh_not_row.
  - intros f Hf. destruct (Hp f Hf) as (? & ? & ?). split_and!; [done| |done]. by apply folder_grow.
  - intros f Hf ->. by destruct (Hp fn Hf) as (_ & ? & _).
Qed.

Lemma upload_loop_consistent rid now files : forall s first,
  consistent s -> pending_ok s rid first ->
  consistent (upload_loop rid now s first files).1.1 /\
  pending_ok (upload_loop rid now s first files).1.1 rid (upload_loop rid now s first files).1.2.
Proof.
  induction files as [|name files IH]; intros s first Hc Hp; cbn; [done|].
  destruct (existing_numbers _) as [e|nums] eqn:Hnums; [done|].
  pose proof (upload_name_fresh _ _ name Hnums) as Hfresh.
  pose proof (valid_numbered (next_number nums) name ltac:(pose proof (next_number_pos nums); lia)) as Hv.
  destruct (upload_step_consistent s rid _ first Hc Hp Hv Hfresh) as (Hc' & Hin & Hnot & Hp' & Hne).
  destruct first as [f|]; apply IH; try done.
  all: try by apply consistent_insert.
  all: try by intros ? [= <-].
  all: intros f' [= <-]; destruct (Hp' f eq_refl) as (Hvf & Hinf & Hnotf); split_and!; [done|done|];
    cbn; rewrite map_app, in_app_iff; intros [?|[Heq|[]]]; [done|];
    unfold row_file in Heq; cbn in Heq; injection Heq as <-; exact (Hne _ eq_refl eq_refl).
Qed.

Lemma image_create_model_consistent s rid now files : consistent s ->
  consistent (image_create_model s rid now files).1.
Proof.
  intros Hc. unfold image_create_model, on_model_change_image.
  repeat match goal with |- context [if ?b then _ else _] => destruct b; [done|] end.
  destruct (upload_loop_consistent rid now files s None Hc) as [Hc' Hp']; [by intros ? ?|].
  destruct (upload_loop rid now s None files) as [[s' [fn|]] [e|]]; cbn in *; try done.
  destruct (Hp' _ eq_refl) as (? & ? & ?). by apply consistent_insert.
Qed.

Lemma save_file_fresh s rid fn : fn ∉ folder (a_fs s) rid ->
  folder (a_fs (save_file s rid fn)) rid = {[fn]} ∪ folder (a_fs s) rid /\
  size (folder (a_fs (save_file s rid fn)) rid) = S (size (folder (a_fs s) rid)) /\
  (forall r, r <> rid -> a_fs (save_file s rid fn) !! r = a_fs s !! r).
Proof.
  intros Hfn. cbn. rewrite folder_insert_eq. split_and!; [done| |].
  - rewrite size_union, size_singleton; [done|set_solver].
  - intros r Hr. by rewrite lookup_insert_ne.
Qed.

Lemma upload_loop_success rid now files : forall s first s' first',
  upload_loop rid now s first files = (s', first', None) ->
  folder (a_fs s) rid ⊆ folder (a_fs s') rid /\
  size (folder (a_fs s') rid) = (size (folder (a_fs s) rid) + List.length files)%nat /\
  (forall r, r <> rid -> a_fs s' !! r = a_fs s !! r) /\
  (List.length (a_images s') + from_option (λ _, 1) 0 first' =
     List.length (a_images s) + from_option (λ _, 1) 0 first + List.length files)%nat /\
  (is_Some first \/ files <> [] -> is_Some first').
Proof.
  induction files as [|name files IH]; intros s first s' first' H; cbn in H.
  - injection H as <- <-. cbn [List.length]. split_and!; [done|lia|done|lia|]. by intros [?|?].
  - destruct (existing_numbers _) as [e|nums] eqn:Hnums; [done|].
    pose proof (upload_name_fresh _ _ name Hnums) as Hfresh.
    destruct (save_file_fresh s rid _ Hfresh) as (Hf & Hsz & Hoth).
    destruct first as [f|];
      destruct (IH _ _ _ _ H) as (Hsub' & Hsz' & Hoth' & Hlen' & Hsome'); cbn in *;
      rewrite ?length_app in Hlen'; cbn in Hlen'.
    + split_and!; [set_solver|lia| |lia|intros _; apply Hsome'; left; eauto].
      intros r Hr. rewrite Hoth' by done. by apply Hoth.
    + split_and!; [set_solver|lia| |lia|intros _; apply Hsome'; left; eauto].
      intros r Hr. rewrite Hoth' by done. by apply Hoth.
Qed.

Lemma upload_loop_error rid now files : forall s first s' first' e,
  upload_loop rid now s first files = (s', first', Some e) -> e = ValueError.
Proof.
  induction files as [|name files IH]; intros s first s' first' e; cbn; [done|].
  destruct (existing_numbers _) as [e'|nums] eqn:Hn.
  - intros [= _ _ <-]. by apply (ints_exc_error _ _ Hn).
  - destruct first; apply IH.
Qed.

(** ** Deletion preserves consistency *)

Lemma delete_file_folder fs im : valid_name (i_filename im) = true ->
  i_filename im ∈ folder fs (i_resource im) ->
  (delete_file fs im).2 = [] /\
  forall r, folder (delete_file fs im).1 r =
    if decide (r = i_resource im) then folder fs r ∖ {[i_filename im]} else folder fs r.
Proof.
  intros Hv Hin. unfold valid_name in Hv.
  apply andb_true_iff in Hv as [[[H1 H2]%andb_true_iff H3]%andb_true_iff H4].
  apply negb_true_iff in H1, H3, H4.
  unfold folder in Hin. destruct (fs !! i_resource im) as [fo|] eqn:Hfo; [|set_solver].
  unfold delete_file. rewrite H1, H2, Hfo, H3, H4. cbn. rewrite bool_decide_eq_true_2 by done.
  rewrite lookup_insert_eq. case_bool_decide as Hempty; split; try done; intros r; unfold folder; cbn [fst];
    destruct (decide (r = i_resource im)) as [->|Hne].
  - rewrite lookup_delete_eq, Hfo. cbn. by rewrite Hempty.
  - by rewrite lookup_delete_ne, lookup_insert_ne.
  - by rewrite lookup_insert_eq, Hfo.
  - by rewrite lookup_insert_ne.
Qed.

Lemma image_delete_consistent s im : consistent s -> In im (a_images s) ->
  consistent (image_delete_model s im).1 /\ (image_delete_model s im).2 = [].
Proof.
  intros Hc Him. pose proof Hc as (Hf & Hn & Hi & Hb). destruct (Hf im Him) as [Hv Hin].
  destruct (delete_file_folder (a_fs s) im Hv Hin) as [Hfl Hfold].
  unfold image_delete_model. destruct (delete_file (a_fs s) im) as [fs' fl] eqn:E. cbn in Hfl, Hfold |- *.
  split; [|done]. unfold image_row_delete, set_fs. split_and!; cbn.
  - intros jm [Hjm Hid]%in_filter_iff. destruct (Hf jm Hjm) as [Hvj Hinj]. split; [done|].
    rewrite Hfold. destruct (decide _) as [Heq|]; [|done]. apply elem_of_difference. split; [done|].
    intros Hfn%elem_of_singleton. assert (jm = im) as ->.
    { apply (NoDup_map_eq row_file (a_images s)); try done. unfold row_file. by rewrite Heq, Hfn. }
    by rewrite Z.eqb_refl in Hid.
  - by apply NoDup_map_filter.
  - by apply NoDup_map_filter.
  - intros jm [Hjm _]%in_filter_iff. auto.
Qed.

Lemma image_fold_delete_consistent l : forall s c, consistent s ->
  (forall im, In im l -> In im (a_images s)) -> NoDup (map i_id l) ->
  consistent (fold_left (fun '(s, count) im => ((image_delete_model s im).1, count + 1)) l (s, c)).1.
Proof.
  induction l as [|x l IH]; intros s c Hc Hl Hnd; cbn; [done|].
  apply NoDup_cons in Hnd as [Hx Hnd]. apply IH; [|intros im Him|done].
  - apply image_delete_consistent; [done|]. apply Hl. by left.
  - unfold image_delete_model. destruct (delete_file _ _). cbn. apply in_filter_iff.
    split; [apply Hl; by right|]. apply negb_true_iff, Z.eqb_neq. intros Heq. apply Hx.
    apply list_elem_of_In, in_map_iff. eauto.
Qed.

Lemma image_action_delete_consistent s ids : consistent s -> consistent (image_action_delete s ids).1.
Proof.
  intros Hc. unfold image_action_delete. apply image_fold_delete_consistent; [done| |].
  - intros im [Him _]%in_filter_iff. done.
  - apply NoDup_map_filter. by destruct Hc as (_ & _ & ? & _).
Qed.

Lemma resource_delete_consistent s rid : consistent s -> consistent (resource_delete_model_store s rid).
Proof.
  intros (Hf & Hn & Hi & Hb). unfold resource_delete_model_store. split_and!; cbn.
  - intros jm [Hjm Hr]%in_filter_iff. apply negb_true_iff, Z.eqb_neq in Hr.
    destruct (Hf jm Hjm) as [? ?]. split; [done|]. unfold folder, delete_folder.
    by rewrite lookup_delete_ne.
  - by apply NoDup_map_filter.
  - by apply NoDup_map_filter.
  - intros jm [Hjm _]%in_filter_iff. auto.
Qed.

Lemma resource_action_delete_consistent s ids : consistent s ->
  consistent (resource_action_delete_store s ids).1.
Proof.
  unfold resource_action_delete_store. generalize (List.filter (fun rid => bool_decide (rid ∈ ids))
    (map fst (map_to_list (db_resources (a_db s))))) as l. intros l.
  generalize 0. revert s. induction l as [|rid l IH]; intros s c Hc; cbn; [done|].
  apply IH. by apply resource_delete_consistent.
Qed.

(** ** The gallery *)

(** With rows and files consistent, the card shows every image row of
    the resource, in id order. *)
Lemma gallery_files_consistent s rid : consistent s ->
  gallery_files s rid = map i_filename (List.filter (fun im => i_resource im =? rid) (a_images s)).
Proof.
  intros (Hf & _). unfold gallery_files. apply forallb_filter_id, forallb_forall.
  intros fn (im & <- & [Him Hr]%in_filter_iff)%in_map_iff. apply bool_decide_eq_true.
  apply Z.eqb_eq in Hr as <-. by apply Hf.
Qed.

Lemma consistentb_spec s : consistentb s = true <-> consistent s.
Proof.
  unfold consistentb, consistent. rewrite !andb_true_iff, !forallb_forall, !bool_decide_eq_true. split.
  - intros [[[H1 H2] H3] H4]. split_and!; [|done|done|].
    + intros im Him. by apply H1, andb_true_iff in Him as [? ?%bool_decide_eq_true].
    + intros im Him. apply Z.ltb_lt. auto.
  - intros (H1 & H2 & H3 & H4). split_and!; [|done|done|].
    + intros im Him. destruct (H1 im Him). apply andb_true_iff. by rewrite bool_decide_eq_true.
    + intros im Him. apply Z.ltb_lt. auto.
Qed.

Lemma no_rows_of_empty_folder s rid : consistent s -> folder (a_fs s) rid = ∅ ->
  List.filter (fun im => i_resource im =? rid) (a_images s) = [].
Proof.
  intros (Hf & _) He. destruct (List.filter _ _) as [|x l] eqn:E; [done|]. exfalso.
  assert (In x (List.filter (fun im => i_resource im =? rid) (a_images s))) as [Hx Hr]%in_filter_iff
    by (rewrite E; by left).
  apply Z.eqb_eq in Hr. destruct (Hf x Hx) as [_ Hin]. rewrite Hr, He in Hin. set_solver.
Qed.

Lemma create_single_image s rid now name : folder (a_fs s) rid = ∅ -> name <> ""%string ->
  image_create_model s rid now [name] =
    (image_insert (save_file s rid (numbered_name 1 (ext_of name))) rid (numbered_name 1 (ext_of name)) now, None).
Proof.
  intros He Hn. unfold image_create_model, on_model_change_image. cbn [List.filter].
  apply String.eqb_neq in Hn. rewrite Hn. cbn -[folder]. rewrite He, size_empty. cbn -[folder].
  rewrite elements_empty. reflexivity.
Qed.

(** ** Properties *)

(** Every image operation of the admin console keeps rows and files
    consistent (each row names a valid file of its resource's folder, no
    two rows share a file, ids are unique): creating rows by upload,
    deleting one row or a selection with their files, and deleting
    resources with their folders. *)
Theorem admin_image_ops_preserve_consistency s : consistent s ->
  (forall rid now files, consistent (image_create_model s rid now files).1) /\
  (forall im, In im (a_images s) -> consistent (image_delete_model s im).1) /\
  (forall ids, consistent (image_action_delete s ids).1) /\
  (forall rid, consistent (resource_delete_model_store s rid)) /\
  (forall ids, consistent (resource_action_delete_store s ids).1).
Proof.
  intros Hc. split_and!.
  - intros. by apply image_create_model_consistent.
  - intros im Him. by apply image_delete_consistent.
  - intros. by apply image_action_delete_consistent.
  - intros. by apply resource_delete_consistent.
  - intros. by apply resource_action_delete_consistent.
Qed.

Lemma admin_image_ops_preserve_consistency_witness :
  (forall rid now files, consistent (image_create_model img_sc_three rid now files).1) /\
  (forall im, In im (a_images img_sc_three) -> consistent (image_delete_model img_sc_three im).1) /\
  (forall ids, consistent (image_action_delete img_sc_three ids).1) /\
  (forall rid, consistent (resource_delete_model_store img_sc_three rid)) /\
  (forall ids, consistent (resource_action_delete_store img_sc_three ids).1).
Proof. apply admin_image_ops_preserve_consistency, consistentb_spec. vm_compute. reflexivity. Defined.

(** C19 A successful upload never overwrites a file: the resource's
    folder keeps its files and grows by exactly one file per uploaded
    file, the other folders are untouched, one row is created per file,
    and when every uploaded file has a name the folder holds at most
    five files. *)
Theorem upload_adds_fresh_files s rid now files s' :
  image_create_model s rid now files = (s', None) ->
  folder (a_fs s) rid ⊆ folder (a_fs s') rid /\
  size (folder (a_fs s') rid) = (size (folder (a_fs s) rid) + List.length files)%nat /\
  (forall r, r <> rid -> a_fs s' !! r = a_fs s !! r) /\
  List.length (a_images s') = (List.length (a_images s) + List.length files)%nat /\
  (Forall (fun f => f <> ""%string) files -> (size (folder (a_fs s') rid) <= MAX_FILES)%nat).
Proof.
  unfold image_create_model, on_model_change_image.
  set (named := List.filter _ files).
  destruct (bool_decide (named = [])) eqn:H0; [intros [=]|].
  destruct (MAX_FILES <? List.length named)%nat eqn:H1; [intros [=]|].
  destruct (MAX_FILES <? size (folder (a_fs s) rid) + List.length named)%nat eqn:H2; [intros [=]|].
  apply bool_decide_eq_false in H0. apply Nat.ltb_ge in H2.
  destruct (upload_loop rid now s None files) as [[s1 first] [e|]] eqn:E; [destruct first; intros [=]|].
  destruct (upload_loop_success _ _ _ _ _ _ _ E) as (Hsub & Hsz & Hoth & Hlen & Hsome).
  destruct first as [fn|].
  - intros [= <-]. cbn [image_insert a_images a_fs]. rewrite length_app. cbn in Hlen |- *.
    split_and!; [done|done|done|lia|].
    intros Hall. rewrite Hsz. unfold named in H2. rewrite (forallb_filter_id _ files) in H2; [lia|].
    apply forallb_forall. intros f Hf%list_elem_of_In. rewrite Forall_forall in Hall.
    apply negb_true_iff, String.eqb_neq. by apply Hall.
  - exfalso. destruct Hsome as [? ?]; [right|done]. intros ->. by apply H0.
Qed.

Lemma upload_adds_fresh_files_witness :
  folder (a_fs img_sc_empty) 7 ⊆ folder (a_fs img_sc_three) 7 /\
  size (folder (a_fs img_sc_three) 7) = (size (folder (a_fs img_sc_empty) 7) + 3)%nat /\
  (forall r, r <> 7 -> a_fs img_sc_three !! r = a_fs img_sc_empty !! r) /\
  List.length (a_images img_sc_three) = (List.length (a_images img_sc_empty) + 3)%nat /\
  (Forall (fun f => f <> ""%string) ["a.JPG"; "b.png"; "c.gif"] ->
     (size (folder (a_fs img_sc_three) 7) <= MAX_FILES)%nat).
Proof.
  apply (upload_adds_fresh_files img_sc_empty 7 img_sc_now ["a.JPG"; "b.png"; "c.gif"]).
  vm_compute. reflexivity.
Defined.

(** C20 An upload is refused with [ValidationError], and changes
    nothing, exactly when no uploaded file has a name, more than five
    do, or the folder would hold more than five files; any other
    failure is a [ValueError] of the numbering. *)
Theorem upload_validation s rid now files :
  let named := List.filter (fun f => negb (String.eqb f "")) files in
  image_create_model s rid now files = (s, Some ValidationError) <->
  named = [] \/ (MAX_FILES < List.length named)%nat \/
  (MAX_FILES < size (folder (a_fs s) rid) + List.length named)%nat.
Proof.
  intros named. unfold image_create_model, on_model_change_image. fold named.
  destruct (bool_decide (named = [])) eqn:H0; [apply bool_decide_eq_true in H0; tauto|].
  destruct (MAX_FILES <? List.length named)%nat eqn:H1; [apply Nat.ltb_lt in H1; tauto|].
  destruct (MAX_FILES <? size (folder (a_fs s) rid) + List.length named)%nat eqn:H2;
    [apply Nat.ltb_lt in H2; tauto|].
  apply bool_decide_eq_false in H0. apply Nat.ltb_ge in H1, H2.
  split; [|intros [?|[?|?]]; [done|lia|lia]].
  destruct (upload_loop rid now s None files) as [[s1 [fn|]] [e|]] eqn:E; try by intros [=].
  - intros [= _ ->]. by apply upload_loop_error in E.
  - intros [= _ ->]. by apply upload_loop_error in E.
Qed.

Lemma upload_validation_witness :
  image_create_model img_sc_three 7 img_sc_now ["d.png"; "e.png"; "f.png"] =
    (img_sc_three, Some ValidationError).
Proof.
  apply (proj2 (upload_validation img_sc_three 7 img_sc_now ["d.png"; "e.png"; "f.png"])).
  right. right. vm_compute. lia.
Defined.

(** C21 The admin console accepts a single photo for a resource, but
    the bot's card then calls [send_media_group] with one item, which
    the Bot API refuses (2 to 10 items): a resource with one photo
    cannot be shown, after [callback_resource] has already deleted the
    catalogue message. *)
Theorem single_image_card_fails s rid now name sent : consistent s ->
  folder (a_fs s) rid = ∅ -> name <> ""%string ->
  (image_create_model s rid now [name]).2 = None /\
  send_gallery (image_create_model s rid now [name]).1 rid sent = raise ApiTelegramException.
Proof.
  intros Hc He Hn. pose proof (image_create_model_consistent s rid now [name] Hc) as Hc'.
  rewrite create_single_image in Hc' |- * by done. split; [done|].
  unfold send_gallery. rewrite gallery_files_consistent by done.
  cbn [fst image_insert save_file set_fs a_images]. rewrite List.filter_app, no_rows_of_empty_folder by done.
  cbn. by rewrite Z.eqb_refl.
Qed.

Lemma single_image_card_fails_witness :
  (image_create_model img_sc_empty 7 img_sc_now ["only.png"]).2 = None /\
  send_gallery (image_create_model img_sc_empty 7 img_sc_now ["only.png"]).1 7 [100] =
    raise ApiTelegramException.
Proof.
  apply single_image_card_fails; [apply consistentb_spec; vm_compute; reflexivity|reflexivity|done].
Defined.

(** A file is in a resource's gallery when a row of the resource names
    it and it is in the resource's folder. *)
Lemma In_gallery_files s rid fn :
  In fn (gallery_files s rid) <->
  (exists im, In im (a_images s) /\ i_resource im = rid /\ i_filename im = fn) /\
  fn ∈ folder (a_fs s) rid.
Proof.
  unfold gallery_files. rewrite List.filter_In, in_map_iff, bool_decide_eq_true.
  setoid_rewrite List.filter_In. setoid_rewrite Z.eqb_eq. naive_solver.
Qed.

(** C22 Editing an image row in the admin console moves the row to
    another resource but leaves its file in the old folder: for every
    consistent store and every row, a move to another resource whose
    folder has no file of that name breaks consistency, and the photo,
    shown on the old resource's card before, is then on neither
    resource's card. *)
Theorem image_edit_breaks_consistency s im rid :
  consistent s -> In im (a_images s) -> rid <> i_resource im ->
  i_filename im ∉ folder (a_fs s) rid ->
  let s' := image_update_model s (i_id im) rid in
  In (i_filename im) (gallery_files s (i_resource im)) /\
  ~ consistent s' /\
  ~ In (i_filename im) (gallery_files s' (i_resource im)) /\
  ~ In (i_filename im) (gallery_files s' rid).
Proof.
  intros Hc Him Hr Hnf s'. pose proof Hc as (Hfiles & Hrows & _).
  assert (In (mkImage (i_id im) (i_filename im) rid (i_created im)) (a_images s')) as Hmoved.
  { apply in_map_iff. exists im. by rewrite Z.eqb_refl. }
  split_and!.
  - apply In_gallery_files. split; [eauto|]. apply (Hfiles im Him).
  - intros (Hf' & _). apply Hnf, (Hf' _ Hmoved).
  - rewrite In_gallery_files. intros ((x' & Hx' & Hres & Hfn) & _). apply in_map_iff in Hx' as (x & <- & Hx).
    destruct (Z.eqb_spec (i_id x) (i_id im)) as [E|E]; cbn in Hres, Hfn; [congruence|].
    apply E. f_equal. apply (NoDup_map_eq row_file (a_images s)); try done.
    unfold row_file. congruence.
  - rewrite In_gallery_files. intros (_ & Hin). exact (Hnf Hin).
Qed.

Lemma image_edit_breaks_consistency_witness :
  let s' := image_update_model img_sc_three 2 8 in
  In "3.gif"%string (gallery_files img_sc_three 7) /\ ~ consistent s' /\
  ~ In "3.gif"%string (gallery_files s' 7) /\ ~ In "3.gif"%string (gallery_files s' 8).
Proof.
  apply (image_edit_breaks_consistency img_sc_three (mkImage 2 "3.gif" 7 img_sc_now) 8).
  - apply consistentb_spec. vm_compute. reflexivity.
  - vm_compute. tauto.
  - discriminate.
  - vm_compute. set_solver.
Defined.

Lemma delete_messages_str ids : delete_messages (map py_str_int ids) = (ids, None).
Proof.
  induction ids as [|i ids IH]; [done|]. cbn [map delete_messages].
  unfold int_exc. rewrite py_int_strip_str. cbn. by rewrite IH.
Qed.

(** The back buttons of a card carry [",".join] of the ids
    [send_media_group] returned: [remove_images] deletes exactly those
    messages, and redraws the picker when there were any. *)
Lemma remove_images_join ids : remove_images (join_ids ids) = (ids, inr (negb (bool_decide (ids = [])))).
Proof.
  unfold remove_images. destruct (String.eqb (join_ids ids) "") eqn:E.
  - by rewrite (join_ids_empty ids E).
  - destruct (py_split_all_join_ids ids) as [->| ->]; [|done].
    rewrite delete_messages_str. destruct ids; [done|]. reflexivity.
Qed.
