(* ===== verification/AdminConsole.v ===== *)
(** * AdminConsole: access control and the requests of the admin console

    [admin.py] serves four Flask-Admin views.  [DashboardView] and
    [SecureView] (the base of [ResourceView] and [SecureImageView]) check
    HTTP Basic credentials against [admin_user]/[admin_password] of
    [config.py] and, with [lock_by_ip], the client address against
    [allow_ip_list], raising [AuthException] (a 401 response) otherwise;
    [BookingAdmin] extends Flask-Admin's plain [ModelView], whose
    [is_accessible] is [True].  A request reaches a view's action only
    when [is_accessible] returns [True] (Flask-Admin's [_handle_view]).

    The credentials and the IP settings are the parameters of a section
    ([cfg_user], [cfg_password], [cfg_lock], [cfg_allow]); the literals of
    [config.py] are one instance.  [admin_request]
    composes the access check with the actions of [Admin] (bookings) and
    [AdminImages] (resources and images) on the store of [AdminImages].
    The theorems: the resource and image views act exactly for
    authenticated requests; the booking view deletes bookings for a
    request without any credentials. *)
From S2P Require Import Prelude Dates Models Sessions Lifecycle Admin Config AdminImages.
From Stdlib Require Import String.
Local Open Scope booking_scope.

(** A request: its Basic credentials, if any, and [request.remote_addr]. *)
Record request := mkRequest { rq_auth : option (string * string); rq_addr : string }.

(** The views registered with [admin.add_view], and the dashboard. *)
Inductive admin_view := DashboardView | ResourceView | SecureImageView | BookingAdmin.

#[export] Instance admin_view_eq_dec : EqDecision admin_view.
Proof. solve_decision. Defined.

(** The class each view extends. *)
Inductive view_base := AdminIndexBase | SecureViewBase | ModelViewBase.

Definition base_of (v : admin_view) : view_base :=
  match v with
  | DashboardView => AdminIndexBase
  | ResourceView | SecureImageView => SecureViewBase
  | BookingAdmin => ModelViewBase
  end.

(** What the console does for a request. *)
Inductive admin_action :=
| ABookingEdit (b : booking)              (** [BookingAdmin]'s edit form: every column *)
| ABookingDelete (id : Z)                 (** [BookingAdmin.delete_model] *)
| ABookingBulkDelete (ids : list Z)       (** [BookingAdmin.action_delete] *)
| AResourceCreate (id : Z) (location : string) (price : Z) (description : option string) (status : Z)
| AResourceEdit (id : Z) (location : string) (price : Z) (description : option string) (status : Z)
| AResourceDelete (id : Z)                (** [ResourceView.delete_model] *)
| AResourceBulkDelete (ids : list Z)      (** [ResourceView.action_delete] *)
| AImageCreate (rid : Z) (files : list string)  (** [SecureImageView] create *)
| AImageEdit (id rid : Z)                 (** [SecureImageView] edit *)
| AImageDelete (id : Z)                   (** [SecureImageView.delete_model] *)
| AImageBulkDelete (ids : list Z).        (** [SecureImageView.action_delete] *)

Definition view_of (a : admin_action) : admin_view :=
  match a with
  | ABookingEdit _ | ABookingDelete _ | ABookingBulkDelete _ => BookingAdmin
  | AResourceCreate _ _ _ _ _ | AResourceEdit _ _ _ _ _ | AResourceDelete _ | AResourceBulkDelete _ => ResourceView
  | AImageCreate _ _ | AImageEdit _ _ | AImageDelete _ | AImageBulkDelete _ => SecureImageView
  end.

(** The answer: 401 with the Basic challenge, or the view's page. *)
Inductive response := Http401 | Http200.

#[export] Instance response_eq_dec : EqDecision response.
Proof. solve_decision. Defined.

Definition with_db (s : astore) (d : db) : astore := mkAStore d (a_images s) (a_next_image s) (a_fs s).

(** [form_args]: [Length(max=500)] on the description. *)
Definition description_ok (description : option string) : bool :=
  match description with Some t => (String.length t <=? 500)%nat | None => true end.

(** Flask-Admin's edit of a resource: the form is validated, the fields
    are copied, [ResourceView.on_model_change] stamps [updated], the row
    is saved. *)
Definition resource_update_model (s : astore) (rid : Z) (location : string) (price : Z)
    (description : option string) (status : Z) (now : datetime) : astore * option py_exc :=
  if negb (description_ok description) then (s, Some ValidationError)
  else
    match db_resources (a_db s) !! rid with
    | None => (s, Some DoesNotExist)
    | Some r =>
        (with_db s (mkDb (db_bookings (a_db s))
           (<[rid := mkResource location price description status (r_created r) now]> (db_resources (a_db s)))
           (db_next_id (a_db s))), None)
    end.

(** Flask-Admin's create of a resource: [id] is the auto-increment value
    MySQL assigns; [created] and [updated] take their default [now]. *)
Definition resource_create_model (s : astore) (rid : Z) (location : string) (price : Z)
    (description : option string) (status : Z) (now : datetime) : astore * option py_exc :=
  if negb (description_ok description) then (s, Some ValidationError)
  else (with_db s (mkDb (db_bookings (a_db s))
          (<[rid := mkResource location price description status now now]> (db_resources (a_db s)))
          (db_next_id (a_db s))), None).

Section Access.
Context (cfg_user cfg_password : string) (cfg_lock : bool) (cfg_allow : list string).

(** flask_basicauth's [authenticate()]: Basic credentials equal to
    [BASIC_AUTH_USERNAME] and [BASIC_AUTH_PASSWORD]. *)
Definition authenticate (rq : request) : bool :=
  match rq_auth rq with
  | Some (u, p) => String.eqb u cfg_user && String.eqb p cfg_password
  | None => false
  end.

(** [SecureView.is_accessible] (and [DashboardView.is_accessible], the
    same code). *)
Definition secure_is_accessible (rq : request) : py_exc + bool :=
  if negb (authenticate rq) then raise AuthException
  else if cfg_lock then
    (if bool_decide (rq_addr rq ∈ cfg_allow) then inr true else raise AuthException)
  else inr true.

(** The [is_accessible] a view inherits; [ModelView]'s returns [True]. *)
Definition is_accessible (v : admin_view) (rq : request) : py_exc + bool :=
  match base_of v with
  | AdminIndexBase | SecureViewBase => secure_is_accessible rq
  | ModelViewBase => inr true
  end.

(** The action itself, once the view is reached; errors are flashed and
    leave the store as the action left it. *)
Definition perform (today : date) (now : datetime) (s : astore) (a : admin_action) : astore :=
  match a with
  | ABookingEdit b => with_db s (booking_save (a_db s) b)
  | ABookingDelete i =>
      match booking_get_by_id (a_db s) i with
      | inr b => match admin_delete_model (a_db s) today b with Some d => with_db s d | None => s end
      | inl _ => s
      end
  | ABookingBulkDelete ids => with_db s (action_delete (a_db s) today ids).1.1
  | AResourceCreate i loc price desc st => (resource_create_model s i loc price desc st now).1
  | AResourceEdit i loc price desc st => (resource_update_model s i loc price desc st now).1
  | AResourceDelete i =>
      if bool_decide (is_Some (db_resources (a_db s) !! i)) then resource_delete_model_store s i else s
  | AResourceBulkDelete ids => (resource_action_delete_store s ids).1
  | AImageCreate rid files => (image_create_model s rid now files).1
  | AImageEdit i rid => image_update_model s i rid
  | AImageDelete i =>
      match List.find (fun im => i_id im =? i) (a_images s) with
      | Some im => (image_delete_model s im).1
      | None => s
      end
  | AImageBulkDelete ids => (image_action_delete s ids).1
  end.

(** Flask-Admin's [_handle_view]: the access check, then the action. *)
Definition admin_request (rq : request) (today : date) (now : datetime) (s : astore)
    (a : admin_action) : response * astore :=
  match is_accessible (view_of a) rq with
  | inl _ => (Http401, s)
  | inr _ => (Http200, perform today now s a)
  end.

End Access.

(** A console over the booking table of [Sessions] and three photos of
    resource [7]; a request from the internet without credentials, and
    the admin's request. *)
Definition console_sc : astore := with_db img_sc_three sc_db.

Definition anonymous : request := mkRequest None "203.0.113.5".

Definition admin_rq : request := mkRequest (Some (admin_user, admin_password)) "198.51.100.7".

(** ** Lemmas *)

Lemma with_db_consistent s d : consistent s -> consistent (with_db s d).
Proof. done. Qed.

Lemma resource_update_consistent s rid loc price desc st now : consistent s ->
  consistent (resource_update_model s rid loc price desc st now).1.
Proof.
  intros Hc. unfold resource_update_model.
  destruct (description_ok desc); cbn; [|done]. by destruct (_ !! rid).
Qed.

Lemma find_In {A} (f : A -> bool) l x : List.find f l = Some x -> In x l.
Proof. intros H. by apply find_some in H as [? _]. Qed.

Lemma perform_consistent today now s a : consistent s -> (forall i rid, a <> AImageEdit i rid) ->
  consistent (perform today now s a).
Proof.
  intros Hc Ha. destruct (admin_image_ops_preserve_consistency s Hc) as (H1 & H2 & H3 & H4 & H5).
  destruct a as [b|i|ids|i loc price desc st|i loc price desc st|i|ids|rid files|i rid|i|ids]; cbn.
  - done.
  - destruct (booking_get_by_id _ _); [done|]. by destruct (admin_delete_model _ _ _).
  - done.
  - unfold resource_create_model. by destruct (description_ok desc).
  - by apply resource_update_consistent.
  - by case_bool_decide.
  - apply H5.
  - apply H1.
  - by destruct (Ha i rid).
  - destruct (List.find _ _) eqn:E; [|done]. by apply H2, (find_In _ _ _ E).
  - apply H3.
Qed.

(** ** Properties *)

Section Props.
Context (cfg_user cfg_password : string) (cfg_lock : bool) (cfg_allow : list string).

(** C17 The resource and image views act exactly for a request with the
    configured Basic credentials (and, with [cfg_lock], from an allowed
    address); any other request gets the 401 challenge and changes
    nothing. *)
Theorem secure_views_require_auth rq today now s a : view_of a <> BookingAdmin ->
  admin_request cfg_user cfg_password cfg_lock cfg_allow rq today now s a =
    if authenticate cfg_user cfg_password rq && (negb cfg_lock || bool_decide (rq_addr rq ∈ cfg_allow))
    then (Http200, perform today now s a) else (Http401, s).
Proof.
  intros Hv. unfold admin_request, is_accessible.
  assert (base_of (view_of a) = SecureViewBase) as -> by (destruct a; cbn in *; congruence).
  unfold secure_is_accessible. destruct (authenticate _ _ _), cfg_lock; cbn; [|done..].
  by case_bool_decide.
Qed.

(** C16 [BookingAdmin] extends [ModelView], not [SecureView]: a request
    without any credentials runs the bulk delete of bookings (and the
    single delete) exactly as an admin would, while the same request is
    refused by the resource view. *)
Theorem booking_admin_unauthenticated rq today now s ids : rq_auth rq = None ->
  admin_request cfg_user cfg_password cfg_lock cfg_allow rq today now s (ABookingBulkDelete ids) =
    (Http200, with_db s (action_delete (a_db s) today ids).1.1) /\
  admin_request cfg_user cfg_password cfg_lock cfg_allow rq today now s (AResourceBulkDelete ids) =
    (Http401, s).
Proof. intros Hn. unfold admin_request, is_accessible, secure_is_accessible, authenticate. cbn. by rewrite Hn. Qed.

(** C18 Every request to the console, authenticated or not, keeps the
    image rows and the upload folders consistent, except the edit of an
    image row. *)
Theorem console_preserves_consistency rq today now s a : consistent s ->
  (forall i rid, a <> AImageEdit i rid) ->
  consistent (admin_request cfg_user cfg_password cfg_lock cfg_allow rq today now s a).2.
Proof.
  intros Hc Ha. unfold admin_request. destruct (is_accessible _ _ _ _ _ _); cbn; [done|].
  by apply perform_consistent.
Qed.

End Props.

Lemma secure_views_require_auth_witness :
  admin_request admin_user admin_password lock_by_ip allow_ip_list anonymous (mkDate 2024 6 1) img_sc_now console_sc
    (AImageBulkDelete [1]) = (Http401, console_sc).
Proof. rewrite secure_views_require_auth by discriminate. reflexivity. Defined.

Lemma booking_admin_unauthenticated_witness :
  admin_request admin_user admin_password lock_by_ip allow_ip_list anonymous (mkDate 2024 6 20) img_sc_now console_sc
    (ABookingBulkDelete [1]) =
    (Http200, with_db console_sc (action_delete (a_db console_sc) (mkDate 2024 6 20) [1]).1.1) /\
  admin_request admin_user admin_password lock_by_ip allow_ip_list anonymous (mkDate 2024 6 20) img_sc_now console_sc
    (AResourceBulkDelete [1]) = (Http401, console_sc) /\
  db_bookings (a_db console_sc) <> [] /\
  db_bookings (a_db (with_db console_sc (action_delete (a_db console_sc) (mkDate 2024 6 20) [1]).1.1)) = [].
Proof.
  split; [apply booking_admin_unauthenticated; reflexivity|].
  split; [apply booking_admin_unauthenticated; reflexivity|]. split; [discriminate|]. vm_compute. reflexivity.
Defined.

Lemma console_preserves_consistency_witness :
  consistent (admin_request admin_user admin_password lock_by_ip allow_ip_list admin_rq (mkDate 2024 6 1) img_sc_now
    console_sc (AImageDelete 2)).2.
Proof.
  apply console_preserves_consistency; [apply consistentb_spec; vm_compute; reflexivity|discriminate].
Defined.
