(* ===== verification/Process.v ===== *)
(** * Process: the cleaner thread of [main.py]

    [start_cleaner_thread] runs [cleaner_loop] in a daemon thread: a
    sweep [clean_expired_booking_states()], whose exception (a
    [RuntimeError] when a handler thread changes [user_booking_state]
    during the iteration) is printed and swallowed, then
    [time.sleep(3600)], forever.  A run of the loop is a list of turns,
    each the clock reading of its sweep and whether the sweep completed;
    the session dict between the turns is the one of [Sessions].  The
    theorems say exactly which sessions a run removes, and bound how long
    an abandoned session survives an hourly cleaner. *)
From S2P Require Import Prelude Dates Sessions.

(** How a turn's sweep ended. *)
Inductive sweep_outcome := SweepDone | SweepRaised.

#[export] Instance sweep_outcome_eq_dec : EqDecision sweep_outcome.
Proof. solve_decision. Defined.

(** One turn of [while True:]: the sweep, or the swallowed exception. *)
Definition cleaner_turn (ss : gmap Z session) (turn : datetime * sweep_outcome) : gmap Z session :=
  match turn.2 with
  | SweepDone => clean_expired_booking_states ss turn.1
  | SweepRaised => ss
  end.

(** A run of [cleaner_loop] with no handler in between. *)
Definition cleaner_loop (ss : gmap Z session) (turns : list (datetime * sweep_outcome)) : gmap Z session :=
  fold_left cleaner_turn turns ss.

(** [time.sleep(3600)], in microseconds. *)
Definition SLEEP_MICROS : Z := 3600 * 1000000.

(** The clock readings of a run: each sweep at least an hour after the
    one before. *)
Fixpoint sleeps_ok (turns : list (datetime * sweep_outcome)) : bool :=
  match turns with
  | t1 :: ((t2 :: _) as rest) => (to_micros t1.1 + SLEEP_MICROS <=? to_micros t2.1) && sleeps_ok rest
  | _ => true
  end.

(** A sweep of the run that removes a session created at [c]. *)
Definition removes_at (c : datetime) (turn : datetime * sweep_outcome) : bool :=
  bool_decide (turn.2 = SweepDone) && (DAY_MICROS <? to_micros turn.1 - to_micros c).

(** A session created on 2024-06-01 at 12:00, and a punctual hourly
    cleaner whose [k]-th turn (from 0) runs [k + 1] hours later. *)
Definition proc_sc_created : datetime := mkDateTime (mkDate 2024 6 1) 12 0 0 0.

Definition proc_sc_session : session := mkSession 1 (Some (mkDate 2024 6 10)) None 2024 6 proc_sc_created.

Definition hourly (n : nat) : list (datetime * sweep_outcome) :=
  map (fun k => let h := 12 + Z.of_nat k + 1 in
                (mkDateTime (mkDate 2024 6 (1 + h / 24)) (h mod 24) 0 0 0, SweepDone)) (seq 0 n).

(** ** Lemmas *)

Lemma cleaner_turn_kept ss u s turn : ss !! u = Some s ->
  cleaner_turn ss turn !! u =
    if bool_decide (s_check_out s = None) && removes_at (s_created s) turn then None else Some s.
Proof.
  intros Hs. unfold cleaner_turn, removes_at. destruct turn as [now []]; cbn;
    [|rewrite (bool_decide_eq_false_2 (SweepRaised = SweepDone)) by discriminate;
      by rewrite andb_false_l, andb_false_r].
  rewrite (bool_decide_eq_true_2 (SweepDone = SweepDone)) by done. cbn.
  unfold clean_expired_booking_states. destruct (bool_decide (s_check_out s = None)) eqn:Hco.
  - apply bool_decide_eq_true in Hco. cbn. destruct (DAY_MICROS <? _) eqn:Hlt.
    + apply map_lookup_filter_None. right. intros s' Hs'. rewrite Hs in Hs'. injection Hs' as <-.
      cbn. unfold expired. by rewrite Hco, Hlt.
    + apply map_lookup_filter_Some. split; [done|]. cbn. unfold expired. by rewrite Hco, Hlt.
  - apply bool_decide_eq_false in Hco. apply map_lookup_filter_Some. split; [done|]. cbn.
    unfold expired. by destruct (s_check_out s).
Qed.

Lemma cleaner_loop_gone ss u turns : ss !! u = None -> cleaner_loop ss turns !! u = None.
Proof.
  unfold cleaner_loop. revert ss. induction turns as [|t turns IH]; intros ss Hs; cbn; [done|].
  apply IH. unfold cleaner_turn. destruct (t.2); [|done].
  unfold clean_expired_booking_states. rewrite map_lookup_filter_None. by left.
Qed.

(** ** Properties *)

(** C24 A run of the cleaner thread removes a user's session exactly when
    the session has no check-out and some completed sweep of the run
    comes more than 24 hours after the session was created; sweeps that
    raised change nothing. *)
Theorem cleaner_loop_removes ss u s turns : ss !! u = Some s ->
  cleaner_loop ss turns !! u =
    if bool_decide (s_check_out s = None) && existsb (removes_at (s_created s)) turns then None else Some s.
Proof.
  unfold cleaner_loop. revert ss. induction turns as [|t turns IH]; intros ss Hs; cbn.
  - by rewrite andb_false_r.
  - pose proof (cleaner_turn_kept ss u s t Hs) as Ht.
    destruct (bool_decide (s_check_out s = None)), (removes_at (s_created s) t); cbn in Ht |- *;
      try (by apply IH); by apply cleaner_loop_gone.
Qed.

(** A session with no check-out, created at 12:00, survives the 24
    hourly sweeps up to 12:00 the next day (24 hours is not more than 24
    hours) and is removed by the sweep at 13:00: an hourly cleaner keeps
    an abandoned session up to 25 hours. *)
Lemma cleaner_loop_removes_witness :
  sleeps_ok (hourly 25) = true /\
  cleaner_loop {[1 := proc_sc_session]} (hourly 24) !! 1 = Some proc_sc_session /\
  cleaner_loop {[1 := proc_sc_session]} (hourly 25) !! 1 = None.
Proof.
  split; [vm_compute; reflexivity|].
  split; rewrite (cleaner_loop_removes _ 1 proc_sc_session) by reflexivity; vm_compute; reflexivity.
Defined.
